(** * GnuCash GUI glue: the currency selector and the CSV import preview

    A shallow embedding of [src/gnome-utils/gnc-currency-edit.c] and
    [src/import-export/csv/gnc-csv-import.c].

    Widgets are records holding the part of the toolkit state the C code
    reads and writes. The CSV parser, which lives in another file, is a
    record of functions the handlers are given. What the import does to the
    rest of the program (dialogs, frees, calls to the transaction importer)
    is kept as a list of events. Signal handlers run inside the toolkit call
    that emits their signal, and that call may be made by a handler: the
    delivery of signals is a parameter of the handlers, tied into a loop by
    [dispatch], whose fuel bounds how deep handlers re-enter each other. *)

From Stdlib Require Import ZArith Ascii String.
From stdpp Require Import base option list strings sorting.

(** [strcmp] of the C library: bytes are compared as unsigned values, the
    result is negative, zero or positive. *)
Definition strcmp (s1 s2 : string) : Z :=
  match String.compare s1 s2 with
  | Lt => (-1)%Z
  | Eq => 0%Z
  | Gt => 1%Z
  end.

(** ** The currency selector, [gnc-currency-edit.c] *)
Module CurrencyEdit.

(** Modelled from the spec: the commodity type of [gnc-commodity.h], which
    is not part of the sources. A commodity is identified by its name space
    and mnemonic and carries a display name (its "printname"). *)
Record gnc_commodity : Type := Commodity {
  gnc_commodity_get_namespace : string;
  gnc_commodity_get_mnemonic : string;
  gnc_commodity_get_printname : string
}.

(** Modelled from the spec: the commodity table [gnc_get_current_commodities ()]
    is an ordered collection of commodities. *)
Definition gnc_commodity_table : Type := list gnc_commodity.

Definition GNC_COMMODITY_NS_ISO : string := "ISO4217".

Definition is_commodity (ns mnem : string) (c : gnc_commodity) : bool :=
  String.eqb (gnc_commodity_get_namespace c) ns
  && String.eqb (gnc_commodity_get_mnemonic c) mnem.

(** Modelled from the spec: [getCommodities(namespace)] gives the
    commodities of one name space, in table order. *)
Definition gnc_commodity_table_get_commodities
    (table : gnc_commodity_table) (ns : string) : list gnc_commodity :=
  List.filter (fun c => String.eqb (gnc_commodity_get_namespace c) ns) table.

(** Modelled from the spec: [lookup(namespace, mnemonic)] gives the
    commodity with that identity, or nothing. *)
Definition gnc_commodity_table_lookup
    (table : gnc_commodity_table) (ns mnem : string) : option gnc_commodity :=
  List.find (is_commodity ns mnem) table.

(** The widget: a combo box over a one-column list store of strings, with
    at most one active row. *)
Record GNCCurrencyEdit : Type := CurrencyEditWidget {
  model : list string;
  active : option nat
}.

Definition gtk_combo_box_append_text (gce : GNCCurrencyEdit) (text : string)
    : GNCCurrencyEdit :=
  {| model := model gce ++ [text]; active := active gce |}.

Definition gtk_combo_box_set_active_iter (gce : GNCCurrencyEdit) (iter : nat)
    : GNCCurrencyEdit :=
  {| model := model gce; active := Some iter |}.

(** The active row, when there is one (and it is a row of the model). *)
Definition gtk_combo_box_get_active_iter (gce : GNCCurrencyEdit) : option nat :=
  match active gce with
  | Some iter => if decide (iter < length (model gce)) then Some iter else None
  | None => None
  end.

Definition add_item (gce : GNCCurrencyEdit) (commodity : gnc_commodity)
    : GNCCurrencyEdit :=
  gtk_combo_box_append_text gce (gnc_commodity_get_printname commodity).

Definition currency_compare (a b : gnc_commodity) : Z :=
  strcmp (gnc_commodity_get_printname a) (gnc_commodity_get_printname b).

(** The order [g_list_sort] sorts by: [a] may come before [b]. *)
Definition currency_le (a b : gnc_commodity) : Prop :=
  (currency_compare a b <= 0)%Z.

#[local] Instance currency_le_dec a b : Decision (currency_le a b).
Proof. unfold currency_le. apply _. Defined.

Definition g_list_sort (l : list gnc_commodity) : list gnc_commodity :=
  merge_sort currency_le l.

Definition fill_currencies (table : gnc_commodity_table) (gce : GNCCurrencyEdit)
    : GNCCurrencyEdit :=
  let currencies :=
    gnc_commodity_table_get_commodities table GNC_COMMODITY_NS_ISO in
  let currencies := g_list_sort currencies in
  List.fold_left add_item currencies gce.

Definition gnc_currency_edit_new (table : gnc_commodity_table) : GNCCurrencyEdit :=
  fill_currencies table {| model := []; active := None |}.

(** The [do ... while (gtk_tree_model_iter_next (...))] loop of
    [gnc_currency_edit_set_currency], started at row [iter] with [rows] the
    rows from there on: the first row whose text is [printname]. *)
Fixpoint scan_rows (printname : string) (rows : list string) (iter : nat)
    : option nat :=
  match rows with
  | [] => None
  | tree_string :: rest =>
      let result := strcmp printname tree_string in
      if (result =? 0)%Z then Some iter
      else scan_rows printname rest (S iter)
  end.

(** [currency] is a pointer in C; [None] is the null pointer, refused by
    [g_return_if_fail]. *)
Definition gnc_currency_edit_set_currency
    (gce : GNCCurrencyEdit) (currency : option gnc_commodity) : GNCCurrencyEdit :=
  match currency with
  | None => gce
  | Some currency =>
      match model gce with
      | [] => gce (* empty tree *)
      | _ :: _ =>
          let printname := gnc_commodity_get_printname currency in
          match scan_rows printname (model gce) 0 with
          | Some iter => gtk_combo_box_set_active_iter gce iter
          | None => gce
          end
      end
  end.

(** [index (s, c)] of the C library: the position of the first [c]. *)
Fixpoint index (s : string) (c : ascii) : option nat :=
  match s with
  | EmptyString => None
  | String a s' =>
      if Ascii.eqb a c then Some 0 else S <$> index s' c
  end.

(** Writing a NUL at position [n] of a C string: the string ends there. *)
Fixpoint set_nul (n : nat) (s : string) : string :=
  match n, s with
  | S n', String a s' => String a (set_nul n' s')
  | _, _ => EmptyString
  end.

(** The mnemonic [gnc_currency_edit_get_currency] derives from the text
    of the active row. *)
Definition mnemonic_of_fullname (fullname : string) : string :=
  let mnemonic := fullname in
  match index mnemonic " "%char with
  | Some name => set_nul name mnemonic
  | None => mnemonic
  end.

(** What [gnc_currency_edit_get_currency] expects of the display name of a
    commodity: up to its first space, it is the mnemonic. *)
Definition printname_has_mnemonic (c : gnc_commodity) : Prop :=
  mnemonic_of_fullname (gnc_commodity_get_printname c)
  = gnc_commodity_get_mnemonic c.

#[global] Instance printname_has_mnemonic_dec c :
  Decision (printname_has_mnemonic c).
Proof. unfold printname_has_mnemonic. apply _. Defined.

Definition inactive_warning : string :=
  "Combo box returned 'inactive'. Using locale default currency.".

(** The result is the commodity pointer (possibly null) together with the
    warnings logged through [g_warning]. *)
Definition gnc_currency_edit_get_currency
    (table : gnc_commodity_table) (gnc_locale_default_currency : gnc_commodity)
    (gce : GNCCurrencyEdit) : option gnc_commodity * list string :=
  match gtk_combo_box_get_active_iter gce with
  | Some iter =>
      match model gce !! iter with
      | Some fullname =>
          (gnc_commodity_table_lookup table GNC_COMMODITY_NS_ISO
             (mnemonic_of_fullname fullname), [])
      | None => (Some gnc_locale_default_currency, [inactive_warning])
      end
  | None => (Some gnc_locale_default_currency, [inactive_warning])
  end.

End CurrencyEdit.

(** ** The CSV import preview, [gnc-csv-import.c] *)
Module CsvImport.

(** *** Data owned by the parser collaborator *)

(** Modelled from the spec: the column types of [gnc-csv-model.h], in the
    order of [column_type_strs]. *)
Inductive GncCsvColumnType : Type :=
  | GNC_CSV_NONE
  | GNC_CSV_DATE
  | GNC_CSV_DESCRIPTION
  | GNC_CSV_AMOUNT.

#[global] Instance GncCsvColumnType_eq_dec : EqDecision GncCsvColumnType.
Proof. solve_decision. Defined.

(** Every column type, in increasing order: the range of the loops
    [for (type = 0; type < GNC_CSV_NUM_COL_TYPES; type++)]. *)
Definition all_column_types : list GncCsvColumnType :=
  [GNC_CSV_NONE; GNC_CSV_DATE; GNC_CSV_DESCRIPTION; GNC_CSV_AMOUNT].

(** Modelled from the spec: the error codes of [gnc-csv-model.h]. *)
Inductive GncCsvErrorType : Type :=
  | GNC_CSV_FILE_OPEN_ERR
  | GNC_CSV_ENCODING_ERR
  | GNC_CSV_PARSE_ERR.

#[global] Instance GncCsvErrorType_eq_dec : EqDecision GncCsvErrorType.
Proof. solve_decision. Defined.

Record GError : Type := Error {
  code : GncCsvErrorType;
  message : string
}.

(** The separator part of the parse options, as
    [stf_parse_options_csv_set_separators] writes it. *)
Record StfParseOptions_t : Type := ParseOptions {
  sep_chr : option string;
  sep_str : list string
}.

Definition stf_parse_options_csv_set_separators
    (options : StfParseOptions_t) (character : option string)
    (seps : list string) : StfParseOptions_t :=
  {| sep_chr := character; sep_str := seps |}.

Inductive Transaction : Type := Trans (id : nat).
Inductive Account : Type := Acct (name : string).

Record GncCsvTransLine : Type := TransLine {
  line_no : nat;
  trans : Transaction
}.

(** Modelled from the spec: the parse data of [gnc-csv-model.h]. The GUI
    code reads and writes the fields below; [file_str] stands for the
    buffers only the parser touches. *)
Record GncCsvParseData : Type := ParseData {
  encoding : string;
  file_str : string;
  orig_lines : list (list string);
  options : StfParseOptions_t;
  column_types : list GncCsvColumnType;
  error_lines : list nat;
  transactions : list GncCsvTransLine;
  date_format : Z
}.

Definition set_options (o : StfParseOptions_t) (pd : GncCsvParseData)
    : GncCsvParseData :=
  {| encoding := encoding pd; file_str := file_str pd;
     orig_lines := orig_lines pd; options := o;
     column_types := column_types pd; error_lines := error_lines pd;
     transactions := transactions pd; date_format := date_format pd |}.

Definition set_date_format (d : Z) (pd : GncCsvParseData) : GncCsvParseData :=
  {| encoding := encoding pd; file_str := file_str pd;
     orig_lines := orig_lines pd; options := options pd;
     column_types := column_types pd; error_lines := error_lines pd;
     transactions := transactions pd; date_format := d |}.

Definition set_column_types (c : list GncCsvColumnType) (pd : GncCsvParseData)
    : GncCsvParseData :=
  {| encoding := encoding pd; file_str := file_str pd;
     orig_lines := orig_lines pd; options := options pd;
     column_types := c; error_lines := error_lines pd;
     transactions := transactions pd; date_format := date_format pd |}.

(** Modelled from the spec: the parser collaborator of [gnc-csv-model.h].
    The functions that return an error code and fill a [GError] give the
    new parse data and the error, if any. *)
Record GncCsvModel : Type := CsvModel {
  gnc_csv_new_parse_data : GncCsvParseData;
  gnc_csv_load_file :
    GncCsvParseData → string → GncCsvParseData * option GError;
  gnc_csv_convert_encoding :
    GncCsvParseData → string → GncCsvParseData * option GError;
  gnc_csv_parse :
    GncCsvParseData → bool → GncCsvParseData * option GError;
  gnc_parse_to_trans :
    GncCsvParseData → Account → bool → GncCsvParseData
}.

(** *** The preview dialog *)

Definition SEP_NUM_OF_TYPES : nat := 6.

(** The struct of the preview dialog. A widget is the part of its state
    the code reads: whether the dialog is on screen, the encoding a selector
    shows, the active index of a combo box, whether a check button is
    checked, the text of an entry, the rows of a tree view's store (for
    [ctreeview], the texts of its single row, one per column).
    [parse_data] is a pointer in C: the one parse data of the import lives
    here once [gnc_csv_preview] has stored it, and the import reads and
    writes it through this field. *)
Record GncCsvPreview : Type := Preview {
  parse_data : GncCsvParseData;
  dialog : bool;
  encselector : string;
  date_format_combo : Z;
  treeview : list (list string);
  ctreeview : list string;
  sep_buttons : list bool;
  custom_cbutton : bool;
  custom_entry : string;
  encoding_selected_called : bool;
  previewing_errors : bool;
  code_encoding_calls : Z;
  approved : bool
}.

Definition set_parse_data (v : GncCsvParseData) (p : GncCsvPreview) : GncCsvPreview :=
  {| parse_data := v; dialog := dialog p; encselector := encselector p;
     date_format_combo := date_format_combo p; treeview := treeview p;
     ctreeview := ctreeview p; sep_buttons := sep_buttons p;
     custom_cbutton := custom_cbutton p; custom_entry := custom_entry p;
     encoding_selected_called := encoding_selected_called p;
     previewing_errors := previewing_errors p;
     code_encoding_calls := code_encoding_calls p; approved := approved p |}.

Definition set_dialog (v : bool) (p : GncCsvPreview) : GncCsvPreview :=
  {| parse_data := parse_data p; dialog := v; encselector := encselector p;
     date_format_combo := date_format_combo p; treeview := treeview p;
     ctreeview := ctreeview p; sep_buttons := sep_buttons p;
     custom_cbutton := custom_cbutton p; custom_entry := custom_entry p;
     encoding_selected_called := encoding_selected_called p;
     previewing_errors := previewing_errors p;
     code_encoding_calls := code_encoding_calls p; approved := approved p |}.

Definition set_encselector (v : string) (p : GncCsvPreview) : GncCsvPreview :=
  {| parse_data := parse_data p; dialog := dialog p; encselector := v;
     date_format_combo := date_format_combo p; treeview := treeview p;
     ctreeview := ctreeview p; sep_buttons := sep_buttons p;
     custom_cbutton := custom_cbutton p; custom_entry := custom_entry p;
     encoding_selected_called := encoding_selected_called p;
     previewing_errors := previewing_errors p;
     code_encoding_calls := code_encoding_calls p; approved := approved p |}.

Definition set_date_format_combo (v : Z) (p : GncCsvPreview) : GncCsvPreview :=
  {| parse_data := parse_data p; dialog := dialog p;
     encselector := encselector p; date_format_combo := v;
     treeview := treeview p; ctreeview := ctreeview p;
     sep_buttons := sep_buttons p; custom_cbutton := custom_cbutton p;
     custom_entry := custom_entry p;
     encoding_selected_called := encoding_selected_called p;
     previewing_errors := previewing_errors p;
     code_encoding_calls := code_encoding_calls p; approved := approved p |}.

Definition set_treeview (v : list (list string)) (p : GncCsvPreview) : GncCsvPreview :=
  {| parse_data := parse_data p; dialog := dialog p;
     encselector := encselector p; date_format_combo := date_format_combo p;
     treeview := v; ctreeview := ctreeview p; sep_buttons := sep_buttons p;
     custom_cbutton := custom_cbutton p; custom_entry := custom_entry p;
     encoding_selected_called := encoding_selected_called p;
     previewing_errors := previewing_errors p;
     code_encoding_calls := code_encoding_calls p; approved := approved p |}.

Definition set_ctreeview (v : list string) (p : GncCsvPreview) : GncCsvPreview :=
  {| parse_data := parse_data p; dialog := dialog p;
     encselector := encselector p; date_format_combo := date_format_combo p;
     treeview := treeview p; ctreeview := v; sep_buttons := sep_buttons p;
     custom_cbutton := custom_cbutton p; custom_entry := custom_entry p;
     encoding_selected_called := encoding_selected_called p;
     previewing_errors := previewing_errors p;
     code_encoding_calls := code_encoding_calls p; approved := approved p |}.

Definition set_sep_buttons (v : list bool) (p : GncCsvPreview) : GncCsvPreview :=
  {| parse_data := parse_data p; dialog := dialog p;
     encselector := encselector p; date_format_combo := date_format_combo p;
     treeview := treeview p; ctreeview := ctreeview p; sep_buttons := v;
     custom_cbutton := custom_cbutton p; custom_entry := custom_entry p;
     encoding_selected_called := encoding_selected_called p;
     previewing_errors := previewing_errors p;
     code_encoding_calls := code_encoding_calls p; approved := approved p |}.

Definition set_custom_cbutton (v : bool) (p : GncCsvPreview) : GncCsvPreview :=
  {| parse_data := parse_data p; dialog := dialog p;
     encselector := encselector p; date_format_combo := date_format_combo p;
     treeview := treeview p; ctreeview := ctreeview p;
     sep_buttons := sep_buttons p; custom_cbutton := v;
     custom_entry := custom_entry p;
     encoding_selected_called := encoding_selected_called p;
     previewing_errors := previewing_errors p;
     code_encoding_calls := code_encoding_calls p; approved := approved p |}.

Definition set_custom_entry (v : string) (p : GncCsvPreview) : GncCsvPreview :=
  {| parse_data := parse_data p; dialog := dialog p;
     encselector := encselector p; date_format_combo := date_format_combo p;
     treeview := treeview p; ctreeview := ctreeview p;
     sep_buttons := sep_buttons p; custom_cbutton := custom_cbutton p;
     custom_entry := v;
     encoding_selected_called := encoding_selected_called p;
     previewing_errors := previewing_errors p;
     code_encoding_calls := code_encoding_calls p; approved := approved p |}.

Definition set_encoding_selected_called (v : bool) (p : GncCsvPreview) : GncCsvPreview :=
  {| parse_data := parse_data p; dialog := dialog p;
     encselector := encselector p; date_format_combo := date_format_combo p;
     treeview := treeview p; ctreeview := ctreeview p;
     sep_buttons := sep_buttons p; custom_cbutton := custom_cbutton p;
     custom_entry := custom_entry p; encoding_selected_called := v;
     previewing_errors := previewing_errors p;
     code_encoding_calls := code_encoding_calls p; approved := approved p |}.

Definition set_previewing_errors (v : bool) (p : GncCsvPreview) : GncCsvPreview :=
  {| parse_data := parse_data p; dialog := dialog p;
     encselector := encselector p; date_format_combo := date_format_combo p;
     treeview := treeview p; ctreeview := ctreeview p;
     sep_buttons := sep_buttons p; custom_cbutton := custom_cbutton p;
     custom_entry := custom_entry p;
     encoding_selected_called := encoding_selected_called p;
     previewing_errors := v; code_encoding_calls := code_encoding_calls p;
     approved := approved p |}.

Definition set_code_encoding_calls (v : Z) (p : GncCsvPreview) : GncCsvPreview :=
  {| parse_data := parse_data p; dialog := dialog p;
     encselector := encselector p; date_format_combo := date_format_combo p;
     treeview := treeview p; ctreeview := ctreeview p;
     sep_buttons := sep_buttons p; custom_cbutton := custom_cbutton p;
     custom_entry := custom_entry p;
     encoding_selected_called := encoding_selected_called p;
     previewing_errors := previewing_errors p; code_encoding_calls := v;
     approved := approved p |}.

Definition set_approved (v : bool) (p : GncCsvPreview) : GncCsvPreview :=
  {| parse_data := parse_data p; dialog := dialog p;
     encselector := encselector p; date_format_combo := date_format_combo p;
     treeview := treeview p; ctreeview := ctreeview p;
     sep_buttons := sep_buttons p; custom_cbutton := custom_cbutton p;
     custom_entry := custom_entry p;
     encoding_selected_called := encoding_selected_called p;
     previewing_errors := previewing_errors p;
     code_encoding_calls := code_encoding_calls p; approved := v |}.

(** *** Effects *)

(** What the import does to the rest of the program, in order: the error
    dialogs it shows, the modal runs of the preview dialog, the calls that
    build transactions, the objects it frees, and its calls to the generic
    transaction importer. *)
Inductive Event : Type :=
  | Ev_error_dialog (message : string)
  | Ev_dialog_run (errors_only : bool)
  | Ev_parse_to_trans (redo_errors : bool)
  | Ev_preview_free
  | Ev_parse_data_free (parse_data : GncCsvParseData)
  | Ev_gen_trans_list_new
  | Ev_gen_trans_list_add_trans (t : Transaction)
  | Ev_gen_trans_list_run
  | Ev_gen_trans_list_delete.

(** A computation gives a value and the events it caused, or nothing: it
    has no result when it crashes (an index out of range), when handlers
    re-enter each other without end, or when the dialog waits for a user
    who does nothing more. *)
Definition Run (A : Type) : Type := option (A * list Event).

Definition run_ret {A} (a : A) : Run A := Some (a, []).

Definition run_bind {A B} (f : A → Run B) (m : Run A) : Run B :=
  match m with
  | None => None
  | Some (a, t1) =>
      match f a with
      | None => None
      | Some (b, t2) => Some (b, t1 ++ t2)
      end
  end.

#[global] Instance Run_ret : MRet Run := @run_ret.
#[global] Instance Run_bind : MBind Run := @run_bind.

Definition log (e : Event) : Run unit := Some (tt, [e]).

Definition no_result {A} : Run A := None.

(** *** Widgets and signals *)

(** The widgets connected to [sep_button_clicked]. *)
Inductive Widget : Type :=
  | W_sep_button (i : nat)
  | W_custom_cbutton
  | W_custom_entry.

#[global] Instance Widget_eq_dec : EqDecision Widget.
Proof. solve_decision. Defined.

(** The signal connections made by [gnc_csv_preview_new] and
    [gnc_csv_preview_treeview]: a signal names the handler it runs and
    carries the handler's arguments. [Sig_edited i] comes from the combo
    renderer of column [i] of the column type view. *)
Inductive Signal : Type :=
  | Sig_separator (widget : Widget)
  | Sig_charmap_changed (encoding : string)
  | Sig_date_format_changed
  | Sig_edited (renderer : nat) (new_text : string)
  | Sig_ok_clicked
  | Sig_cancel_clicked.

Definition tab : string := String "009"%char EmptyString.

Definition stock_separator_characters : list string :=
  [" "; tab; ","; ":"; ";"; "-"].

(** No message catalogue is loaded: [_()] gives its argument. *)
Definition gettext (s : string) : string := s.

Definition column_type_strs (t : GncCsvColumnType) : string :=
  match t with
  | GNC_CSV_NONE => "None"
  | GNC_CSV_DATE => "Date"
  | GNC_CSV_DESCRIPTION => "Description"
  | GNC_CSV_AMOUNT => "Amount"
  end.

Section Handlers.

Context (M : GncCsvModel).

(** The toolkit delivers a signal by running the connected handler at once,
    inside the call that emitted it. [deliver] is that delivery. *)
Variable deliver : Signal → GncCsvPreview → Run GncCsvPreview.

(** **** The toolkit calls the handlers make *)

Definition gtk_toggle_button_get_active (widget : Widget) (preview : GncCsvPreview)
    : bool :=
  match widget with
  | W_sep_button i => default false (sep_buttons preview !! i)
  | W_custom_cbutton => custom_cbutton preview
  | W_custom_entry => false
  end.

Definition store_active (widget : Widget) (is_active : bool)
    (preview : GncCsvPreview) : GncCsvPreview :=
  match widget with
  | W_sep_button i =>
      set_sep_buttons (<[i:=is_active]> (sep_buttons preview)) preview
  | W_custom_cbutton => set_custom_cbutton is_active preview
  | W_custom_entry => preview
  end.

(** A check button whose state changes emits its signal ("toggled" for the
    separator buttons, "clicked" for the custom one) once the state has
    changed; a call that changes nothing emits none. [sep_button_clicked]
    counts on it: toggling the button back "will cause a reparsing". *)
Definition gtk_toggle_button_set_active (widget : Widget) (is_active : bool)
    (preview : GncCsvPreview) : Run GncCsvPreview :=
  if bool_decide (gtk_toggle_button_get_active widget preview = is_active)
  then mret preview
  else deliver (Sig_separator widget) (store_active widget is_active preview).

(** An entry whose text changes emits "changed" once the text has changed;
    a call that changes nothing emits none. *)
Definition gtk_entry_set_text (text : string) (preview : GncCsvPreview)
    : Run GncCsvPreview :=
  if bool_decide (custom_entry preview = text) then mret preview
  else deliver (Sig_separator W_custom_entry) (set_custom_entry text preview).

(** Setting the selector runs [encoding_selected] twice, as the comments of
    [encoding_selected] and of the field [code_encoding_calls] say. *)
Definition go_charmap_sel_set_encoding (enc : string) (preview : GncCsvPreview)
    : Run GncCsvPreview :=
  preview ← deliver (Sig_charmap_changed enc) (set_encselector enc preview);
  deliver (Sig_charmap_changed enc) preview.

Definition gnc_error_dialog (msg : string) : Run unit :=
  log (Ev_error_dialog msg).

(** **** [gnc_csv_preview_treeview] *)

(** The cells [gtk_list_store_set] writes for one line: a cell whose column
    the store does not have is refused by the toolkit. *)
Definition store_row (ncols : nat) (line : list string) : list string :=
  take ncols line.

(** The rows of the data store when only errors are shown: the lines in
    [error_lines], in that order. There is no result for a line number out
    of range. *)
Definition error_rows (pd : GncCsvParseData) : option (list (list string)) :=
  let ncols := length (column_types pd) in
  mapM (λ i, store_row ncols <$> orig_lines pd !! i) (error_lines pd).

(** The rows of the data store when all the data is shown. *)
Definition all_rows (pd : GncCsvParseData) : list (list string) :=
  let ncols := length (column_types pd) in
  store_row ncols <$> orig_lines pd.

Definition data_rows (preview : GncCsvPreview) : option (list (list string)) :=
  if previewing_errors preview then error_rows (parse_data preview)
  else Some (all_rows (parse_data preview)).

(** [notEmpty] is FALSE only for the first load of a fresh preview, whose
    views have no columns to remove; the stores and the columns are replaced
    in both cases. *)
Definition gnc_csv_preview_treeview (preview : GncCsvPreview) (notEmpty : bool)
    : Run GncCsvPreview :=
  match data_rows preview with
  | None => no_result
  | Some store =>
      let ctstore :=
        (λ t, gettext (column_type_strs t))
          <$> column_types (parse_data preview) in
      let preview := set_treeview store preview in
      let preview := set_ctreeview ctstore preview in
      (* Set the encoding selector to the right encoding. *)
      let preview := set_code_encoding_calls 2 preview in
      preview ← go_charmap_sel_set_encoding
                  (encoding (parse_data preview)) preview;
      (* Set the date format to what's in the combo box. *)
      mret (set_parse_data
              (set_date_format (date_format_combo preview) (parse_data preview))
              preview)
  end.

(** **** [sep_button_clicked] *)

Definition stock_checked_separators (preview : GncCsvPreview) : list string :=
  flat_map
    (λ i, if gtk_toggle_button_get_active (W_sep_button i) preview
          then option_list (stock_separator_characters !! i) else [])
    (seq 0 SEP_NUM_OF_TYPES).

Definition checked_separators (preview : GncCsvPreview) : list string :=
  let checked_separators := stock_checked_separators preview in
  if gtk_toggle_button_get_active W_custom_cbutton preview then
    let custom_sep := custom_entry preview in
    if bool_decide (custom_sep = "") then checked_separators
    else checked_separators ++ [custom_sep]
  else checked_separators.

(** The parse data with its separators set from the check buttons and the
    custom entry. *)
Definition separators_set (preview : GncCsvPreview) : GncCsvParseData :=
  let pd := parse_data preview in
  set_options
    (stf_parse_options_csv_set_separators (options pd) None
       (checked_separators preview)) pd.

Definition sep_button_clicked (widget : Widget) (preview : GncCsvPreview)
    : Run GncCsvPreview :=
  let '(pd, error) := gnc_csv_parse M (separators_set preview) false in
  let preview := set_parse_data pd preview in
  match error with
  | Some _ =>
      _ ← gnc_error_dialog "Error in parsing";
      if decide (widget = W_custom_entry) then
        gtk_entry_set_text "" preview
      else
        gtk_toggle_button_set_active widget
          (negb (gtk_toggle_button_get_active widget preview)) preview
  | None => gnc_csv_preview_treeview preview true
  end.

(** **** [encoding_selected] *)

(** [gnc_csv_convert_encoding (...) || gnc_csv_parse (...)]: the parse runs
    only when the conversion succeeded. *)
Definition convert_and_parse (pd : GncCsvParseData) (enc : string)
    : GncCsvParseData * bool :=
  let '(pd, error) := gnc_csv_convert_encoding M pd enc in
  match error with
  | Some _ => (pd, true)
  | None =>
      let '(pd, error) := gnc_csv_parse M pd false in
      (pd, bool_decide (is_Some error))
  end.

Definition encoding_selected (enc : string) (preview : GncCsvPreview)
    : Run GncCsvPreview :=
  if bool_decide (0 < code_encoding_calls preview)%Z then
    mret (set_code_encoding_calls (code_encoding_calls preview - 1) preview)
  else if encoding_selected_called preview then
    let previous_encoding := encoding (parse_data preview) in
    let '(pd, failed) := convert_and_parse (parse_data preview) enc in
    let preview := set_parse_data pd preview in
    if failed then
      _ ← gnc_error_dialog (gettext "Invalid encoding selected");
      let preview := set_encoding_selected_called false preview in
      go_charmap_sel_set_encoding previous_encoding preview
    else
      preview ← gnc_csv_preview_treeview preview true;
      mret (set_encoding_selected_called false preview)
  else
    mret (set_encoding_selected_called true preview).

(** **** The other handlers *)

(** [treeview_resized] copies column widths, which no other function of
    the file reads: it is modelled apart, after the handlers. *)

Definition date_format_selected (preview : GncCsvPreview) : Run GncCsvPreview :=
  mret (set_parse_data
          (set_date_format (date_format_combo preview) (parse_data preview))
          preview).

(** The inner loop of [ok_button_clicked]: the first column type whose
    string is [contents]. *)
Definition type_of_contents (contents : string) : option GncCsvColumnType :=
  List.find
    (λ type, (strcmp contents (gettext (column_type_strs type)) =? 0)%Z)
    all_column_types.

(** The outer loop of [ok_button_clicked], at column [i] with [cols] columns
    to go. A column the store does not have leaves no string to compare. *)
Fixpoint ok_button_loop (store : list string) (cols i : nat)
    (column_types : list GncCsvColumnType) : option (list GncCsvColumnType) :=
  match cols with
  | O => Some column_types
  | S cols =>
      contents ← store !! i;
      let column_types :=
        match type_of_contents contents with
        | Some type => <[i:=type]> column_types
        | None => column_types
        end in
      ok_button_loop store cols (S i) column_types
  end.

Definition gtk_widget_hide : GncCsvPreview → GncCsvPreview := set_dialog false.

Definition ok_button_clicked (preview : GncCsvPreview) : Run GncCsvPreview :=
  let column_types := column_types (parse_data preview) in
  let ncols := length column_types in
  match ok_button_loop (ctreeview preview) ncols 0 column_types with
  | None => no_result
  | Some column_types =>
      let preview :=
        set_parse_data (set_column_types column_types (parse_data preview))
          preview in
      let preview := gtk_widget_hide preview in
      mret (set_approved true preview)
  end.

Definition cancel_button_clicked (preview : GncCsvPreview) : Run GncCsvPreview :=
  mret (gtk_widget_hide preview).

(** The loop of [column_type_edited], at column [i] with [cols] columns to
    go. A column the view does not have has no renderer to look at. *)
Fixpoint column_type_edited_loop (renderer : nat) (new_text : string)
    (cols i : nat) (store : list string) : option (list string) :=
  match cols with
  | O => Some store
  | S cols =>
      contents ← store !! i;
      let store :=
        if decide (i ≠ renderer) then
          if (strcmp contents new_text =? 0)%Z
          then <[i:=gettext (column_type_strs GNC_CSV_NONE)]> store
          else store
        else <[i:=new_text]> store in
      column_type_edited_loop renderer new_text cols (S i) store
  end.

Definition column_type_edited (renderer : nat) (new_text : string)
    (preview : GncCsvPreview) : Run GncCsvPreview :=
  let ncols := length (column_types (parse_data preview)) in
  match column_type_edited_loop renderer new_text ncols 0 (ctreeview preview) with
  | None => no_result
  | Some store => mret (set_ctreeview store preview)
  end.

(** The handler each signal is connected to. *)
Definition handler (s : Signal) (preview : GncCsvPreview) : Run GncCsvPreview :=
  match s with
  | Sig_separator widget => sep_button_clicked widget preview
  | Sig_charmap_changed enc => encoding_selected enc preview
  | Sig_date_format_changed => date_format_selected preview
  | Sig_edited renderer new_text => column_type_edited renderer new_text preview
  | Sig_ok_clicked => ok_button_clicked preview
  | Sig_cancel_clicked => cancel_button_clicked preview
  end.

End Handlers.

(** **** [treeview_resized] *)

(** The widths the handler reads and writes: the width of each column of
    the data view, and the least and the greatest width of each column of
    the column type view (-1 when unset). *)
Record ColumnWidths : Type := Widths {
  col_width : list Z;
  min_width : list Z;
  max_width : list Z
}.

(** [gtk_tree_view_get_column] gives no column for an index the view does
    not have; the toolkit then reads the width 0 and sets nothing. *)
Definition gtk_tree_view_column_get_width (w : ColumnWidths) (i : nat) : Z :=
  default 0%Z (col_width w !! i).

Definition gtk_tree_view_column_set_min_width (i : nat) (width : Z)
    (w : ColumnWidths) : ColumnWidths :=
  {| col_width := col_width w; min_width := <[i:=width]> (min_width w);
     max_width := max_width w |}.

Definition gtk_tree_view_column_set_max_width (i : nat) (width : Z)
    (w : ColumnWidths) : ColumnWidths :=
  {| col_width := col_width w; min_width := min_width w;
     max_width := <[i:=width]> (max_width w) |}.

(** The loop [for(i = 0; i < ncols - 1; i++)], at column [i] with [todo] columns
    to go. *)
Fixpoint treeview_resized_loop (todo i : nat) (w : ColumnWidths) : ColumnWidths :=
  match todo with
  | O => w
  | S todo =>
      let col_width := gtk_tree_view_column_get_width w i in
      let w := gtk_tree_view_column_set_min_width i col_width w in
      let w := gtk_tree_view_column_set_max_width i col_width w in
      treeview_resized_loop todo (S i) w
  end.

(** [ncols - 1] is computed on [int]: with no column it is -1 and the loop
    does not run. *)
Definition treeview_resized (preview : GncCsvPreview) (w : ColumnWidths)
    : ColumnWidths :=
  let ncols := Z.of_nat (length (column_types (parse_data preview))) in
  treeview_resized_loop (Z.to_nat (ncols - 1)) 0 w.

(** A refresh whose rows exist gives the preview below. *)
Definition refreshed (store : list (list string)) (preview : GncCsvPreview)
    : GncCsvPreview :=
  let pd := parse_data preview in
  {| parse_data := set_date_format (date_format_combo preview) pd;
     dialog := dialog preview;
     encselector := encoding pd;
     date_format_combo := date_format_combo preview;
     treeview := store;
     ctreeview := (λ t, gettext (column_type_strs t)) <$> column_types pd;
     sep_buttons := sep_buttons preview;
     custom_cbutton := custom_cbutton preview;
     custom_entry := custom_entry preview;
     encoding_selected_called := encoding_selected_called preview;
     previewing_errors := previewing_errors preview;
     code_encoding_calls := 0;
     approved := approved preview |}.

(** The strings of the column type view share no column type: two columns
    hold the same string only if it is the one for "None". *)
Definition no_shared_type (store : list string) : Prop :=
  ∀ i j s, i ≠ j → store !! i = Some s → store !! j = Some s →
           s = gettext (column_type_strs GNC_CSV_NONE).

(** The string [column_type_edited] leaves in column [j], which held
    [contents]. *)
Definition edited_cell (renderer : nat) (new_text : string) (j : nat)
    (contents : string) : string :=
  if decide (j = renderer) then new_text
  else if decide (contents = new_text)
       then gettext (column_type_strs GNC_CSV_NONE) else contents.

(** [widget] is one of the check buttons of the dialog. *)
Definition is_check_button (preview : GncCsvPreview) (widget : Widget) : Prop :=
  match widget with
  | W_sep_button i => i < length (sep_buttons preview)
  | W_custom_cbutton => True
  | W_custom_entry => False
  end.

#[global] Instance is_check_button_dec preview widget :
  Decision (is_check_button preview widget).
Proof. destruct widget; simpl; apply _. Defined.

(** The preview once the user has clicked the check button [widget]. *)
Definition toggled (widget : Widget) (preview : GncCsvPreview) : GncCsvPreview :=
  store_active widget (negb (gtk_toggle_button_get_active widget preview))
    preview.

(** The selector, the date format combo and the column type view show
    what the parse data holds. *)
Definition shows_parse_data (preview : GncCsvPreview) : Prop :=
  encselector preview = encoding (parse_data preview)
  ∧ date_format_combo preview = date_format (parse_data preview)
  ∧ ctreeview preview
    = (λ t, gettext (column_type_strs t))
        <$> column_types (parse_data preview).

(** What the GUI code expects of the parser when, after a change of
    encoding, it sets the selector from the parse data: a conversion that
    succeeds commits the encoding it was given to the parse data, and
    parsing leaves the encoding as it is. *)
Definition records_encoding (M : GncCsvModel) : Prop :=
  (∀ pd enc pd', gnc_csv_convert_encoding M pd enc = (pd', None) →
                 encoding pd' = enc)
  ∧ (∀ pd guess pd' error, gnc_csv_parse M pd guess = (pd', error) →
                           encoding pd' = encoding pd).

(** Delivery of a signal, with a bound on how deep handlers may re-enter
    each other: when the bound is reached there is no result. *)
Fixpoint dispatch (M : GncCsvModel) (fuel : nat) (s : Signal)
    (preview : GncCsvPreview) : Run GncCsvPreview :=
  match fuel with
  | O => no_result
  | S fuel => handler M (dispatch M fuel) s preview
  end.

(** *** The user at the dialog *)

(** What the user can do while the preview dialog runs. A column type is
    chosen from the combo of a column, whose entries are the strings of
    [column_type_strs]. *)
Inductive UserAction : Type :=
  | U_toggle (widget : Widget)
  | U_type (text : string)
  | U_select_encoding (enc : string)
  | U_select_date_format (index : Z)
  | U_edit_column_type (column : nat) (type : GncCsvColumnType)
  | U_ok
  | U_cancel.

#[global] Instance UserAction_eq_dec : EqDecision UserAction.
Proof. solve_decision. Defined.

(** The initial state of the widgets [gnc_csv_preview_new] loads from the
    Glade file, and the encoding a new selector shows. *)
Record GladeXML : Type := Glade {
  glade_sep_buttons : list bool;
  glade_custom_cbutton : bool;
  glade_custom_entry : string;
  charmap_default : string
}.

(** What the user does during one import: the answer to the file dialog,
    the actions at the first run of the preview dialog, the answer to the
    account dialog, and the actions at each run of the dialog that shows
    the lines with errors. *)
Record User : Type := AUser {
  gnc_file_dialog : option string;
  preview_session : list UserAction;
  gnc_import_select_account : option Account;
  error_sessions : list (list UserAction)
}.

Section Workflow.

Context (M : GncCsvModel).
Variable fuel : nat.

(** The toolkit turns an action of the user into a change of the widget
    and the signals of that change. *)
Definition user_action (a : UserAction) (preview : GncCsvPreview)
    : Run GncCsvPreview :=
  match a with
  | U_toggle widget =>
      gtk_toggle_button_set_active (dispatch M fuel) widget
        (negb (gtk_toggle_button_get_active widget preview)) preview
  | U_type text => gtk_entry_set_text (dispatch M fuel) text preview
  | U_select_encoding enc =>
      go_charmap_sel_set_encoding (dispatch M fuel) enc preview
  | U_select_date_format index =>
      if bool_decide (date_format_combo preview = index) then mret preview
      else dispatch M fuel Sig_date_format_changed
             (set_date_format_combo index preview)
  | U_edit_column_type column type =>
      dispatch M fuel (Sig_edited column (gettext (column_type_strs type)))
        preview
  | U_ok => dispatch M fuel Sig_ok_clicked preview
  | U_cancel => dispatch M fuel Sig_cancel_clicked preview
  end.

(** The main loop of [gtk_dialog_run]: it handles the actions of the user
    until a handler has hidden the dialog. When the user does nothing more
    while the dialog is on screen, the call does not return. *)
Fixpoint dialog_loop (session : list UserAction) (preview : GncCsvPreview)
    : Run GncCsvPreview :=
  match session with
  | [] => no_result
  | a :: session =>
      preview ← user_action a preview;
      if dialog preview then dialog_loop session preview else mret preview
  end.

Definition gtk_dialog_run (session : list UserAction) (preview : GncCsvPreview)
    : Run GncCsvPreview :=
  _ ← log (Ev_dialog_run (previewing_errors preview));
  dialog_loop session (set_dialog true preview).

(** [g_new] leaves the fields [parse_data], [previewing_errors],
    [code_encoding_calls] and [approved] unset; each is written before it
    is first read. [parse_data] is the value the pointer will hold. *)
Definition gnc_csv_preview_new (xml : GladeXML) (parse_data : GncCsvParseData)
    : GncCsvPreview :=
  {| parse_data := parse_data; dialog := false;
     encselector := charmap_default xml; date_format_combo := 0;
     treeview := []; ctreeview := [];
     sep_buttons := glade_sep_buttons xml;
     custom_cbutton := glade_custom_cbutton xml;
     custom_entry := glade_custom_entry xml;
     encoding_selected_called := false; previewing_errors := false;
     code_encoding_calls := 0; approved := false |}.

Definition gnc_csv_preview_free : Run unit := log Ev_preview_free.

Definition gnc_csv_parse_data_free (parse_data : GncCsvParseData) : Run unit :=
  log (Ev_parse_data_free parse_data).

Definition gnc_csv_preview (session : list UserAction)
    (preview : GncCsvPreview) (parse_data : GncCsvParseData)
    : Run (GncCsvPreview * Z) :=
  let preview := set_parse_data parse_data preview in
  let preview := set_previewing_errors false preview in
  let preview := set_approved false preview in
  preview ← gnc_csv_preview_treeview (dispatch M fuel) preview false;
  preview ← gtk_dialog_run session preview;
  mret (preview, if approved preview then 0%Z else 1%Z).

Definition gnc_csv_preview_errors (session : list UserAction)
    (preview : GncCsvPreview) : Run (GncCsvPreview * Z) :=
  let preview := set_previewing_errors true preview in
  let preview := set_approved false preview in
  preview ← gnc_csv_preview_treeview (dispatch M fuel) preview true;
  preview ← gtk_dialog_run session preview;
  mret (preview, if approved preview then 0%Z else 1%Z).

(** The call [gnc_parse_to_trans (parse_data, account, redo_errors)], on
    the parse data the preview points to. *)
Definition parse_to_trans (account : Account) (redo_errors : bool)
    (preview : GncCsvPreview) : Run GncCsvPreview :=
  _ ← log (Ev_parse_to_trans redo_errors);
  mret (set_parse_data
          (gnc_parse_to_trans M (parse_data preview) account redo_errors)
          preview).

(** The loop [while (!((parse_data->error_lines == NULL) || user_canceled))]
    of [gnc_file_csv_import]; each turn takes the next session of the user. *)
Fixpoint error_loop (sessions : list (list UserAction)) (account : Account)
    (user_canceled : Z) (preview : GncCsvPreview) : Run GncCsvPreview :=
  if bool_decide (error_lines (parse_data preview) = [])
     || bool_decide (user_canceled ≠ 0%Z)
  then mret preview
  else
    match sessions with
    | [] => no_result
    | session :: sessions =>
        '(preview, user_canceled) ← gnc_csv_preview_errors session preview;
        preview ← parse_to_trans account true preview;
        error_loop sessions account user_canceled preview
    end.

(** The loop that copies the transactions to the importer GUI. *)
Fixpoint add_transactions (transactions : list GncCsvTransLine) : Run unit :=
  match transactions with
  | [] => mret tt
  | trans_line :: transactions =>
      _ ← log (Ev_gen_trans_list_add_trans (trans trans_line));
      add_transactions transactions
  end.

(** [gnc_file_csv_import], after the user has selected [selected_filename]
    and the file has been loaded (or could not be, for another reason than
    that it could not be opened). *)
Definition import_loaded (xml : GladeXML) (user : User)
    (parse_data : GncCsvParseData) : Run unit :=
  (* Parse the data. *)
  let '(parse_data, error) := gnc_csv_parse M parse_data true in
  _ ← match error with
      | Some error => gnc_error_dialog (message error)
      | None => mret tt
      end;
  (* Preview the data. *)
  let preview := gnc_csv_preview_new xml parse_data in
  '(preview, not_approved) ←
    gnc_csv_preview (preview_session user) preview parse_data;
  if bool_decide (not_approved ≠ 0%Z) then
    (* If the user clicked "Cancel", free everything and quit. *)
    _ ← gnc_csv_preview_free;
    gnc_csv_parse_data_free (CsvImport.parse_data preview)
  else
    match gnc_import_select_account user with
    | None =>
        (* Quit if the user canceled. *)
        _ ← gnc_csv_preview_free;
        gnc_csv_parse_data_free (CsvImport.parse_data preview)
    | Some account =>
        (* Create transactions from the parsed data. *)
        preview ← parse_to_trans account false preview;
        preview ← error_loop (error_sessions user) account 0 preview;
        (* Create the generic transaction importer GUI. *)
        _ ← log Ev_gen_trans_list_new;
        let transactions := transactions (CsvImport.parse_data preview) in
        _ ← add_transactions transactions;
        _ ← (if bool_decide (transactions ≠ [])
             then log Ev_gen_trans_list_run
             else log Ev_gen_trans_list_delete);
        (* Free the memory we allocated. *)
        _ ← gnc_csv_preview_free;
        gnc_csv_parse_data_free (CsvImport.parse_data preview)
    end.

(** The bookkeeping of the default directory is left out. *)
Definition gnc_file_csv_import (xml : GladeXML) (user : User) : Run unit :=
  match gnc_file_dialog user with
  | None => mret tt
  | Some selected_filename =>
      (* Load the file into parse_data. *)
      let parse_data := gnc_csv_new_parse_data M in
      let '(parse_data, error) :=
        gnc_csv_load_file M parse_data selected_filename in
      match error with
      | Some error =>
          (* If we couldn't load the file ... *)
          _ ← gnc_error_dialog (message error);
          if decide (code error = GNC_CSV_FILE_OPEN_ERR) then
            gnc_csv_parse_data_free parse_data
          else
            (* If we couldn't guess the encoding, we are content with just
               displaying an error message and move on with a blank
               display. *)
            import_loaded xml user parse_data
      | None => import_loaded xml user parse_data
      end
  end.

End Workflow.

(** *** The import in the words of the spec *)

(** The events of the dialogs: error messages and modal runs. *)
Definition is_dialog_event (e : Event) : Prop :=
  match e with
  | Ev_error_dialog _ | Ev_dialog_run _ => True
  | _ => False
  end.

#[global] Instance is_dialog_event_dec e : Decision (is_dialog_event e).
Proof. destruct e; simpl; apply _. Defined.

(** The events that free an object of the import. *)
Definition is_free_event (e : Event) : Prop :=
  match e with
  | Ev_preview_free | Ev_parse_data_free _ => True
  | _ => False
  end.

#[global] Instance is_free_event_dec e : Decision (is_free_event e).
Proof. destruct e; simpl; apply _. Defined.

(** The events of the generic transaction importer. *)
Definition is_importer_event (e : Event) : Prop :=
  match e with
  | Ev_gen_trans_list_new | Ev_gen_trans_list_add_trans _
  | Ev_gen_trans_list_run | Ev_gen_trans_list_delete => True
  | _ => False
  end.

#[global] Instance is_importer_event_dec e : Decision (is_importer_event e).
Proof. destruct e; simpl; apply _. Defined.

(** A delivery that causes dialog events only. *)
Definition quiet (deliver : Signal → GncCsvPreview → Run GncCsvPreview) : Prop :=
  ∀ s preview preview' t,
    deliver s preview = Some (preview', t) → Forall is_dialog_event t.

(** A delivery that leaves the approval of the user as it is, for every
    signal but the click on "OK". *)
Definition keeps_approved
    (deliver : Signal → GncCsvPreview → Run GncCsvPreview) : Prop :=
  ∀ s preview preview' t,
    s ≠ Sig_ok_clicked →
    deliver s preview = Some (preview', t) →
    approved preview' = approved preview.

(** A delivery that leaves the dialog on screen or hidden as it is, for
    every signal but the clicks on "OK" and on "Cancel". *)
Definition keeps_dialog
    (deliver : Signal → GncCsvPreview → Run GncCsvPreview) : Prop :=
  ∀ s preview preview' t,
    s ≠ Sig_ok_clicked → s ≠ Sig_cancel_clicked →
    deliver s preview = Some (preview', t) →
    dialog preview' = dialog preview.

(** No call of [encoding_selected] is pending: none caused by the code,
    and no first call of a pair. *)
Definition idle (preview : GncCsvPreview) : Prop :=
  code_encoding_calls preview = 0%Z
  ∧ encoding_selected_called preview = false.

#[global] Instance idle_dec preview : Decision (idle preview).
Proof. unfold idle. apply _. Defined.

(** A delivery that keeps the count of the calls of [encoding_selected]:
    a signal of another handler leaves an idle preview idle; a call of
    [encoding_selected] that the code caused is counted down; one that it
    did not cause flips the flag that tells the first call of a pair from
    the second. *)
Definition counts_calls
    (deliver : Signal → GncCsvPreview → Run GncCsvPreview) : Prop :=
  (∀ s preview preview' t,
     (∀ enc, s ≠ Sig_charmap_changed enc) → idle preview →
     deliver s preview = Some (preview', t) → idle preview')
  ∧ (∀ enc preview preview' t,
       code_encoding_calls preview = 0%Z →
       deliver (Sig_charmap_changed enc) preview = Some (preview', t) →
       code_encoding_calls preview' = 0%Z
       ∧ encoding_selected_called preview'
         = negb (encoding_selected_called preview))
  ∧ (∀ enc preview preview' t,
       (0 < code_encoding_calls preview)%Z →
       deliver (Sig_charmap_changed enc) preview = Some (preview', t) →
       code_encoding_calls preview' = (code_encoding_calls preview - 1)%Z
       ∧ encoding_selected_called preview' = encoding_selected_called preview).

(** The preview once the transactions have been rebuilt from the lines
    with errors. *)
Definition rebuilt (M : GncCsvModel) (account : Account)
    (preview : GncCsvPreview) : GncCsvPreview :=
  set_parse_data (gnc_parse_to_trans M (parse_data preview) account true)
    preview.

(** The dialog that shows the lines with errors, as it comes up: [store]
    holds the rows shown. *)
Definition error_view (store : list (list string)) (preview : GncCsvPreview)
    : GncCsvPreview :=
  refreshed store (set_approved false (set_previewing_errors true preview)).

(** The rows of the lines with errors: one row for each entry of
    [error_lines], in that order, which holds the cells of the line of that
    number, up to the number of columns. *)
Definition error_lines_rows (pd : GncCsvParseData) (store : list (list string))
    : Prop :=
  Forall2
    (λ i row, ∃ line, orig_lines pd !! i = Some line
                      ∧ row = take (length (column_types pd)) line)
    (error_lines pd) store.

(** Modelled from the spec: what it takes of the parser, whose code in
    [gnc-csv-model.c] is not part of the sources, for "already
    successfully parsed transactions" to stay: parsing again and converting
    the encoding leave the transactions as they are, and building the
    transactions of the lines with errors again keeps every transaction
    there is. *)
Definition keeps_transactions (M : GncCsvModel) : Prop :=
  (∀ pd guess pd' error, gnc_csv_parse M pd guess = (pd', error) →
                         transactions pd' = transactions pd)
  ∧ (∀ pd enc pd' error, gnc_csv_convert_encoding M pd enc = (pd', error) →
                         transactions pd' = transactions pd)
  ∧ (∀ pd account,
       transactions pd ⊆ transactions (gnc_parse_to_trans M pd account true)).

(** A delivery that leaves the transactions of the parse data as they
    are. *)
Definition keeps_built
    (deliver : Signal → GncCsvPreview → Run GncCsvPreview) : Prop :=
  ∀ s preview preview' t,
    deliver s preview = Some (preview', t) →
    transactions (parse_data preview') = transactions (parse_data preview).

(** The error-correction cycle: it is over when no line has an error or the
    user has cancelled; otherwise only the lines with errors are shown, the
    user adjusts the configuration and confirms or cancels, the
    transactions are rebuilt, and the cycle goes on. [correction_cycle M
    fuel account sessions user_canceled preview preview' t] relates the
    preview before the cycle to the one after it and to the events of the
    cycle. *)
Inductive correction_cycle (M : GncCsvModel) (fuel : nat) (account : Account)
    : list (list UserAction) → Z → GncCsvPreview → GncCsvPreview
      → list Event → Prop :=
  | cycle_over sessions user_canceled preview :
      error_lines (parse_data preview) = [] ∨ user_canceled ≠ 0%Z →
      correction_cycle M fuel account sessions user_canceled preview preview []
  | cycle_round session sessions preview store shown t1 preview' t2 :
      error_lines (parse_data preview) ≠ [] →
      error_lines_rows (parse_data preview) store →
      gtk_dialog_run M fuel session (error_view store preview)
      = Some (shown, t1) →
      correction_cycle M fuel account sessions
        (if approved shown then 0%Z else 1%Z)
        (rebuilt M account shown) preview' t2 →
      correction_cycle M fuel account (session :: sessions) 0%Z
        preview preview' (t1 ++ Ev_parse_to_trans true :: t2).

(** The hand-off to the generic transaction importer and the clean-up that
    follows: every transaction of the parse data is added; the importer is
    run when there is at least one, deleted otherwise. *)
Definition hand_off (parse_data : GncCsvParseData) : list Event :=
  Ev_gen_trans_list_new
  :: ((λ line, Ev_gen_trans_list_add_trans (trans line))
        <$> transactions parse_data)
  ++ [match transactions parse_data with
      | [] => Ev_gen_trans_list_delete
      | _ :: _ => Ev_gen_trans_list_run
      end;
      Ev_preview_free;
      Ev_parse_data_free parse_data].

End CsvImport.

(** ** Concrete data for the examples *)
Module Examples.
Import CurrencyEdit.

Definition usd : gnc_commodity := Commodity "ISO4217" "USD" "USD (US Dollar)".
Definition eur : gnc_commodity := Commodity "ISO4217" "EUR" "EUR (Euro)".
Definition gbp : gnc_commodity := Commodity "ISO4217" "GBP" "GBP (Pound Sterling)".
Definition xts : gnc_commodity := Commodity "ISO4217" "XTS" "XTS".
Definition acme : gnc_commodity := Commodity "NASDAQ" "ACME" "ACME (Acme Corp.)".

Definition commodities : gnc_commodity_table := [usd; acme; gbp; xts; eur].

(** A commodity whose mnemonic has a space, and the one whose mnemonic is
    its first word. *)
Definition alpha_beta : gnc_commodity :=
  Commodity "ISO4217" "A B" "A B (Alpha Beta)".
Definition alpha : gnc_commodity := Commodity "ISO4217" "A" "A (Alpha)".

Definition odd_commodities : gnc_commodity_table := [alpha_beta; alpha].

Definition currency_edit : GNCCurrencyEdit := gnc_currency_edit_new commodities.

(** A small parser collaborator. A file is a list of lines; a line is split
    at every character that is one of the separators; lines with different
    numbers of fields are a parse error. A line gives a transaction when
    the columns typed "Date" and "Amount" exist in it and its date is
    written in the selected date format: format 0 has dashes, format 1 has
    slashes. *)
Import CsvImport.

Definition newline : string := String "010"%char EmptyString.

Fixpoint split_at (seps : list string) (cell : string) (s : string)
    : list string :=
  match s with
  | EmptyString => [cell]
  | String a s' =>
      if bool_decide (String a EmptyString ∈ seps)
      then cell :: split_at seps EmptyString s'
      else split_at seps (cell +:+ String a EmptyString)%string s'
  end.

Definition bank_csv : string :=
  ("2007-01-02,Lunch,12" +:+ newline +:+
   "2007-01-03,Books,40" +:+ newline +:+
   "05/01/2007,Tea,3" +:+ newline +:+
   "2007-01-09,Rent,500")%string.

(** A file whose lines do not have the same number of fields when split at
    commas. *)
Definition notes_csv : string :=
  ("Groceries,12" +:+ newline +:+ "see receipt")%string.

Definition set_column_count (n : nat) (types : list GncCsvColumnType)
    : list GncCsvColumnType :=
  take n (types ++ replicate n GNC_CSV_NONE).

Definition set_encoding (enc : string) (pd : GncCsvParseData) : GncCsvParseData :=
  {| encoding := enc; file_str := file_str pd;
     orig_lines := orig_lines pd; options := options pd;
     column_types := column_types pd; error_lines := error_lines pd;
     transactions := transactions pd; date_format := date_format pd |}.

Definition set_file_str (text : string) (pd : GncCsvParseData) : GncCsvParseData :=
  {| encoding := encoding pd; file_str := text;
     orig_lines := orig_lines pd; options := options pd;
     column_types := column_types pd; error_lines := error_lines pd;
     transactions := transactions pd; date_format := date_format pd |}.

Definition toy_new_parse_data : GncCsvParseData :=
  {| encoding := ""; file_str := ""; orig_lines := [];
     options := ParseOptions None [","]; column_types := [];
     error_lines := []; transactions := []; date_format := 0 |}.

Definition toy_load_file (pd : GncCsvParseData) (filename : string)
    : GncCsvParseData * option GError :=
  if bool_decide (filename = "bank.csv") then
    (set_encoding "UTF-8" (set_file_str bank_csv pd), None)
  else if bool_decide (filename = "notes.csv") then
    (set_encoding "UTF-8" (set_file_str notes_csv pd), None)
  else if bool_decide (filename = "bank.dat") then
    (set_encoding "" (set_file_str bank_csv pd),
     Some (Error GNC_CSV_ENCODING_ERR "Unknown encoding."))
  else (pd, Some (Error GNC_CSV_FILE_OPEN_ERR "File opening failed.")).

Definition known_encodings : list string := ["UTF-8"; "ISO-8859-1"; "ASCII"].

Definition toy_convert_encoding (pd : GncCsvParseData) (enc : string)
    : GncCsvParseData * option GError :=
  if bool_decide (enc ∈ known_encodings) then (set_encoding enc pd, None)
  else (pd, Some (Error GNC_CSV_ENCODING_ERR "Conversion failed.")).

Definition split_lines (seps : list string) (text : string)
    : list (list string) :=
  split_at seps EmptyString <$> split_at [newline] EmptyString text.

Definition width (lines : list (list string)) : nat :=
  foldr (λ line n, length line `max` n) 0 lines.

Definition toy_parse (pd : GncCsvParseData) (guessColTypes : bool)
    : GncCsvParseData * option GError :=
  let lines := split_lines (sep_str (options pd)) (file_str pd) in
  if bool_decide (Forall (λ line, length line = width lines) lines) then
    ({| encoding := encoding pd; file_str := file_str pd;
        orig_lines := lines; options := options pd;
        column_types :=
          (if guessColTypes then replicate (width lines) GNC_CSV_NONE
           else set_column_count (width lines) (column_types pd));
        error_lines := error_lines pd;
        transactions := transactions pd; date_format := date_format pd |},
     None)
  else
    (pd, Some (Error GNC_CSV_PARSE_ERR "Lines have different numbers of fields.")).

Definition column_of (type : GncCsvColumnType) (types : list GncCsvColumnType)
    : option nat :=
  fst <$> list_find (λ t, t = type) types.

Fixpoint has_char (c : ascii) (s : string) : bool :=
  match s with
  | EmptyString => false
  | String a s' => Ascii.eqb a c || has_char c s'
  end.

Definition line_ok (pd : GncCsvParseData) (i : nat) : bool :=
  match orig_lines pd !! i with
  | None => false
  | Some line =>
      match column_of GNC_CSV_DATE (column_types pd) ≫= (line !!.),
            column_of GNC_CSV_AMOUNT (column_types pd) ≫= (line !!.) with
      | Some date, Some _ =>
          has_char (if bool_decide (date_format pd = 0%Z) then "-" else "/")%char
            date
      | _, _ => false
      end
  end.

Definition toy_parse_to_trans (pd : GncCsvParseData) (account : Account)
    (redo_errors : bool) : GncCsvParseData :=
  let todo :=
    if redo_errors then error_lines pd else seq 0 (length (orig_lines pd)) in
  let kept := if redo_errors then transactions pd else [] in
  {| encoding := encoding pd; file_str := file_str pd;
     orig_lines := orig_lines pd; options := options pd;
     column_types := column_types pd;
     error_lines := List.filter (λ i, negb (line_ok pd i)) todo;
     transactions :=
       kept ++ ((λ i, TransLine i (Trans i)) <$> List.filter (line_ok pd) todo);
     date_format := date_format pd |}.

Definition toy_model : GncCsvModel :=
  {| gnc_csv_new_parse_data := toy_new_parse_data;
     gnc_csv_load_file := toy_load_file;
     gnc_csv_convert_encoding := toy_convert_encoding;
     gnc_csv_parse := toy_parse;
     gnc_parse_to_trans := toy_parse_to_trans |}.

(** The dialog as the Glade file sets it up: only the comma is checked. *)
Definition glade : GladeXML :=
  {| glade_sep_buttons := [false; false; true; false; false; false];
     glade_custom_cbutton := false;
     glade_custom_entry := "";
     charmap_default := "UTF-8" |}.

Definition checking : Account := Acct "Assets:Checking".

(** The user assigns the three column types and confirms; at the dialog
    that shows the line with the other date format, the user selects that
    format and confirms. *)
Definition careful_user : User :=
  {| gnc_file_dialog := Some "bank.csv";
     preview_session :=
       [U_edit_column_type 0 GNC_CSV_DATE;
        U_edit_column_type 1 GNC_CSV_DESCRIPTION;
        U_edit_column_type 2 GNC_CSV_AMOUNT;
        U_ok];
     gnc_import_select_account := Some checking;
     error_sessions := [[U_select_date_format 1; U_ok]] |}.

(** The preview when the dialog first comes up for [filename]. *)
Definition first_shown (filename : string) : option GncCsvPreview :=
  let pd := (toy_load_file toy_new_parse_data filename).1 in
  let pd := (toy_parse pd true).1 in
  let preview := gnc_csv_preview_new glade pd in
  let preview := set_approved false (set_previewing_errors false preview) in
  fst <$> gnc_csv_preview_treeview (dispatch toy_model 1) preview false.

(** The preview after the user has done [actions] in it. *)
Fixpoint after (actions : list UserAction) (preview : option GncCsvPreview)
    : option GncCsvPreview :=
  match actions with
  | [] => preview
  | a :: actions =>
      after actions (preview ≫= λ p, fst <$> user_action toy_model 5 a p)
  end.

Definition blank_preview : GncCsvPreview :=
  gnc_csv_preview_new glade toy_new_parse_data.

(** The preview of the bank file as first shown. *)
Definition bank_preview : GncCsvPreview :=
  default blank_preview (first_shown "bank.csv").

(** The preview of the bank file once the user has typed a vertical bar in
    the custom entry and checked the custom button. *)
Definition bar_preview : GncCsvPreview :=
  default blank_preview
    (after [U_type "|"; U_toggle W_custom_cbutton] (first_shown "bank.csv")).

(** The preview of the file that does not parse, as first shown. *)
Definition notes_preview : GncCsvPreview :=
  default blank_preview (first_shown "notes.csv").

(** The user selects a file that cannot be opened. *)
Definition lost_user : User :=
  {| gnc_file_dialog := Some "missing.csv";
     preview_session := [U_ok];
     gnc_import_select_account := Some checking;
     error_sessions := [] |}.

(** The user selects a file whose encoding cannot be guessed, looks at the
    preview and cancels. *)
Definition puzzled_user : User :=
  {| gnc_file_dialog := Some "bank.dat";
     preview_session := [U_select_encoding "ASCII"; U_cancel];
     gnc_import_select_account := Some checking;
     error_sessions := [] |}.

(** The user checks the hyphen, which does not parse, then cancels. *)
Definition cancelling_user : User :=
  {| gnc_file_dialog := Some "bank.csv";
     preview_session := [U_toggle (W_sep_button 5); U_cancel];
     gnc_import_select_account := Some checking;
     error_sessions := [] |}.

(** The user confirms the preview without assigning column types, then
    gives up at the dialog that shows the lines with errors. *)
Definition hasty_user : User :=
  {| gnc_file_dialog := Some "bank.csv";
     preview_session := [U_ok];
     gnc_import_select_account := Some checking;
     error_sessions := [[U_cancel]] |}.

(** The user confirms the preview, then closes the account dialog without
    selecting an account. *)
Definition undecided_user : User :=
  {| gnc_file_dialog := Some "bank.csv";
     preview_session := [U_select_date_format 1; U_ok];
     gnc_import_select_account := None;
     error_sessions := [] |}.

(** The user selects the file that does not parse, looks at the empty
    preview and cancels. *)
Definition notes_user : User :=
  {| gnc_file_dialog := Some "notes.csv";
     preview_session := [U_cancel];
     gnc_import_select_account := None;
     error_sessions := [] |}.

(** The user selects the file that does not parse and, at the preview,
    another encoding. *)
Definition restless_user : User :=
  {| gnc_file_dialog := Some "notes.csv";
     preview_session := [U_select_encoding "ASCII"; U_cancel];
     gnc_import_select_account := None;
     error_sessions := [] |}.

(** The user assigns the three column types and confirms; at the dialog
    that shows the line with the other date format, the user cancels. *)
Definition giving_up_user : User :=
  {| gnc_file_dialog := Some "bank.csv";
     preview_session :=
       [U_edit_column_type 0 GNC_CSV_DATE;
        U_edit_column_type 1 GNC_CSV_DESCRIPTION;
        U_edit_column_type 2 GNC_CSV_AMOUNT;
        U_ok];
     gnc_import_select_account := Some checking;
     error_sessions := [[U_cancel]] |}.

(** The user does not select a file. *)
Definition absent_user : User :=
  {| gnc_file_dialog := None;
     preview_session := [];
     gnc_import_select_account := None;
     error_sessions := [] |}.

(** The preview of the bank file with the first column typed "Date" and
    the third "Amount". *)
Definition typed_preview : GncCsvPreview :=
  default blank_preview
    (after [U_edit_column_type 0 GNC_CSV_DATE;
            U_edit_column_type 2 GNC_CSV_AMOUNT]
       (first_shown "bank.csv")).

(** The parse data of the bank file, loaded and parsed. *)
Definition bank_data : GncCsvParseData :=
  (toy_parse (toy_load_file toy_new_parse_data "bank.csv").1 true).1.

(** The preview of the bank file when the transactions have been built
    without any column type: every line has an error, and the dialog is
    about to show the lines with errors. *)
Definition errors_preview : GncCsvPreview :=
  set_previewing_errors true
    (set_parse_data
       (toy_parse_to_trans (parse_data bank_preview) checking false)
       bank_preview).

(** Widths of the three columns of the bank file, with no bound set on
    the columns of the column type view. *)
Definition bank_widths : ColumnWidths :=
  {| col_width := [120; 80; 60]; min_width := [-1; -1; -1];
     max_width := [-1; -1; -1] |}%Z.

End Examples.

(** * Properties *)

Lemma string_compare_refl (s : string) : String.compare s s = Eq.
Proof.
  induction s as [|a s IH]; simpl; [done|].
  replace (Ascii.compare a a) with Eq; [done|].
  symmetry. unfold Ascii.compare. apply N.compare_refl.
Qed.

Lemma strcmp_0_iff (s1 s2 : string) : strcmp s1 s2 = 0%Z ↔ s1 = s2.
Proof.
  unfold strcmp. split.
  - destruct (String.compare s1 s2) eqn:E; intros H; try discriminate H.
    by apply String.compare_eq_iff.
  - intros ->. by rewrite string_compare_refl.
Qed.

Lemma strcmp_eqb (s1 s2 : string) :
  (strcmp s1 s2 =? 0)%Z = bool_decide (s1 = s2).
Proof.
  destruct (Z.eqb_spec (strcmp s1 s2) 0) as [H|H];
    rewrite strcmp_0_iff in H; symmetry.
  - by apply bool_decide_eq_true.
  - by apply bool_decide_eq_false.
Qed.

(** ** The currency selector *)
Module CurrencyEditFacts.
Import CurrencyEdit.

(** The scan stops at the first row that holds the text it looks for. *)
Lemma scan_rows_Some (printname : string) (rows : list string) (iter i : nat) :
  scan_rows printname rows iter = Some i →
  iter ≤ i ∧ rows !! (i - iter) = Some printname
  ∧ ∀ j, j < i - iter → rows !! j ≠ Some printname.
Proof.
  revert iter. induction rows as [|r rows IH]; intros iter; simpl; [done|].
  rewrite strcmp_eqb. case_bool_decide as Hr.
  - intros [= <-]. rewrite Nat.sub_diag. subst r. split_and!; [lia|done|lia].
  - intros H. apply IH in H as (Hle & Hi & Hfirst).
    replace (i - iter) with (S (i - S iter)) by lia.
    split_and!; [lia|done|].
    intros [|j] Hj; simpl; [congruence|]. apply Hfirst. lia.
Qed.

Lemma scan_rows_None (printname : string) (rows : list string) (iter : nat) :
  scan_rows printname rows iter = None ↔ printname ∉ rows.
Proof.
  revert iter. induction rows as [|r rows IH]; intros iter; simpl.
  - split; [intros _; apply not_elem_of_nil|done].
  - rewrite strcmp_eqb, not_elem_of_cons. case_bool_decide as Hr.
    + split; [done|]. intros [? _]. done.
    + rewrite IH. split; [intros ?; split; [congruence|done] | by intros [_ ?]].
Qed.

Lemma fold_add_item_model (l : list gnc_commodity) (gce : GNCCurrencyEdit) :
  model (fold_left add_item l gce)
  = model gce ++ (gnc_commodity_get_printname <$> l).
Proof.
  revert gce. induction l as [|c l IH]; intros gce; simpl.
  - by rewrite app_nil_r.
  - rewrite IH. simpl. by rewrite <- app_assoc.
Qed.

(** The list of a new widget: the display names of the ISO currencies of
    the table, sorted. *)
Lemma gnc_currency_edit_new_model (table : gnc_commodity_table) :
  model (gnc_currency_edit_new table)
  = gnc_commodity_get_printname
      <$> g_list_sort
            (gnc_commodity_table_get_commodities table GNC_COMMODITY_NS_ISO).
Proof. unfold gnc_currency_edit_new, fill_currencies. by rewrite fold_add_item_model. Qed.

Lemma elem_of_new_model (table : gnc_commodity_table) (text : string) :
  text ∈ model (gnc_currency_edit_new table) ↔
  ∃ d, d ∈ table
       ∧ gnc_commodity_get_namespace d = GNC_COMMODITY_NS_ISO
       ∧ gnc_commodity_get_printname d = text.
Proof.
  rewrite gnc_currency_edit_new_model, list_elem_of_fmap.
  unfold g_list_sort, gnc_commodity_table_get_commodities.
  split.
  - intros (d & -> & Hd). exists d.
    rewrite merge_sort_Permutation in Hd.
    apply list_elem_of_In, filter_In in Hd as [Hd Hns].
    apply String.eqb_eq in Hns. by rewrite <- list_elem_of_In in Hd.
  - intros (d & Hd & Hns & <-). exists d. split; [done|].
    rewrite merge_sort_Permutation.
    apply list_elem_of_In, filter_In. rewrite <- list_elem_of_In.
    split; [done|]. by apply String.eqb_eq.
Qed.

Lemma lookup_finds (table : gnc_commodity_table) (d : gnc_commodity) :
  d ∈ table →
  ∃ d', gnc_commodity_table_lookup table (gnc_commodity_get_namespace d)
          (gnc_commodity_get_mnemonic d) = Some d'
        ∧ gnc_commodity_get_namespace d' = gnc_commodity_get_namespace d
        ∧ gnc_commodity_get_mnemonic d' = gnc_commodity_get_mnemonic d.
Proof.
  intros Hd. unfold gnc_commodity_table_lookup.
  destruct (find _ table) as [d'|] eqn:E.
  - exists d'. apply find_some in E as [_ E]. unfold is_commodity in E.
    apply andb_true_iff in E as [E1 E2].
    by apply String.eqb_eq in E1, E2.
  - apply list_elem_of_In in Hd. eapply find_none in E; [|exact Hd].
    unfold is_commodity in E. by rewrite !String.eqb_refl in E.
Qed.

Lemma index_None_set_nul (s : string) (c : ascii) (n : nat) :
  index s c = Some n →
  ∃ rest, s = (set_nul n s +:+ String c rest)%string ∧ index (set_nul n s) c = None.
Proof.
  revert n. induction s as [|a s IH]; intros n; simpl; [done|].
  destruct (Ascii.eqb_spec a c) as [->|Hne].
  - intros [= <-]. by exists s.
  - destruct (index s c) as [m|] eqn:E; simpl; [|done].
    intros [= <-]. destruct (IH m eq_refl) as (rest & Hs & Hnone).
    exists rest. simpl. rewrite Hnone.
    destruct (Ascii.eqb_spec a c); [done|]. split; [|done].
    change (String a s = String a (set_nul m s +:+ String c rest)).
    by rewrite <- Hs.
Qed.

(** Once a row is active, the widget reads back its text. *)
Lemma get_after_set_active (table : gnc_commodity_table) (dflt : gnc_commodity)
    (gce : GNCCurrencyEdit) (iter : nat) (fullname : string) :
  model gce !! iter = Some fullname →
  gnc_currency_edit_get_currency table dflt
    (gtk_combo_box_set_active_iter gce iter)
  = (gnc_commodity_table_lookup table GNC_COMMODITY_NS_ISO
       (mnemonic_of_fullname fullname), []).
Proof.
  intros H. unfold gnc_currency_edit_get_currency, gtk_combo_box_get_active_iter.
  simpl. apply lookup_lt_Some in H as Hlt.
  rewrite decide_True by done. by rewrite H.
Qed.

Example currency_edit_model :
  model Examples.currency_edit
  = ["EUR (Euro)"; "GBP (Pound Sterling)"; "USD (US Dollar)"; "XTS"].
Proof. reflexivity. Qed.

(** Setting a currency activates the row the scan finds, and does nothing
    when the scan finds none. *)
Lemma set_currency_scan (gce : GNCCurrencyEdit) (currency : gnc_commodity) :
  gnc_currency_edit_set_currency gce (Some currency)
  = match scan_rows (gnc_commodity_get_printname currency) (model gce) 0 with
    | Some iter => gtk_combo_box_set_active_iter gce iter
    | None => gce
    end.
Proof.
  unfold gnc_currency_edit_set_currency. by destruct (model gce).
Qed.

Lemma set_currency_found (gce : GNCCurrencyEdit) (currency : gnc_commodity) :
  gnc_commodity_get_printname currency ∈ model gce →
  ∃ iter,
    gnc_currency_edit_set_currency gce (Some currency)
    = gtk_combo_box_set_active_iter gce iter
    ∧ model gce !! iter = Some (gnc_commodity_get_printname currency)
    ∧ ∀ j, j < iter →
           model gce !! j ≠ Some (gnc_commodity_get_printname currency).
Proof.
  intros Hin. rewrite set_currency_scan.
  destruct (scan_rows _ (model gce) 0) as [iter|] eqn:Hscan.
  - apply scan_rows_Some in Hscan as (_ & Hiter & Hfirst).
    rewrite Nat.sub_0_r in Hiter, Hfirst. by exists iter.
  - by apply scan_rows_None in Hscan.
Qed.

(** C6. [gnc_currency_edit_set_currency] scans the list from its first row
    for a row whose text is exactly the display name of the commodity. The
    list itself never changes. If the list is empty, or if no row matches,
    the widget is left as it was, active selection included. If a row
    matches, the first such row becomes the active one. *)
Theorem set_currency_linear_scan (gce : GNCCurrencyEdit) (currency : gnc_commodity) :
  let printname := gnc_commodity_get_printname currency in
  let gce' := gnc_currency_edit_set_currency gce (Some currency) in
  model gce' = model gce
  ∧ (model gce = [] → gce' = gce)
  ∧ (printname ∉ model gce → gce' = gce)
  ∧ (printname ∈ model gce →
     ∃ iter, active gce' = Some iter
             ∧ model gce !! iter = Some printname
             ∧ ∀ j, j < iter → model gce !! j ≠ Some printname).
Proof.
  intros printname gce'. subst printname gce'. split_and!.
  - rewrite set_currency_scan. by destruct (scan_rows _ _ _).
  - intros Hm. rewrite set_currency_scan, Hm. done.
  - intros Hnot. rewrite set_currency_scan.
    by rewrite (proj2 (scan_rows_None _ (model gce) 0) Hnot).
  - intros Hin.
    destruct (set_currency_found gce currency Hin) as (iter & -> & Hrow & Hfirst).
    by exists iter.
Qed.

Lemma set_currency_linear_scan_witness :
  ∃ iter,
    active (gnc_currency_edit_set_currency Examples.currency_edit
              (Some Examples.gbp)) = Some iter
    ∧ model Examples.currency_edit !! iter = Some "GBP (Pound Sterling)"
    ∧ ∀ j, j < iter →
           model Examples.currency_edit !! j ≠ Some "GBP (Pound Sterling)".
Proof.
  apply (set_currency_linear_scan Examples.currency_edit Examples.gbp).
  apply (bool_decide_unpack _). vm_compute. exact I.
Defined.

(** C9. When a row is active, [gnc_currency_edit_get_currency] looks up, in
    the ISO name space, the text of that row cut at its first space: the
    mnemonic it passes has no space, the text is the mnemonic followed by
    nothing or by a space and the rest, and a text with no space is passed
    whole. *)
Theorem get_currency_mnemonic (table : gnc_commodity_table)
    (dflt : gnc_commodity) (gce : GNCCurrencyEdit) (iter : nat)
    (fullname : string) :
  active gce = Some iter →
  model gce !! iter = Some fullname →
  let mnemonic := mnemonic_of_fullname fullname in
  gnc_currency_edit_get_currency table dflt gce
  = (gnc_commodity_table_lookup table GNC_COMMODITY_NS_ISO mnemonic, [])
  ∧ index mnemonic " " = None
  ∧ (fullname = mnemonic
     ∨ ∃ rest, fullname = (mnemonic +:+ String " " rest)%string)
  ∧ (index fullname " " = None → mnemonic = fullname).
Proof.
  intros Hact Hrow mnemonic. split.
  - destruct gce as [rows act]. simpl in *. subst act.
    by apply (get_after_set_active table dflt (CurrencyEditWidget rows None)).
  - subst mnemonic. unfold mnemonic_of_fullname.
    destruct (index fullname " ") as [n|] eqn:E.
    + destruct (index_None_set_nul _ _ _ E) as (rest & Hs & Hnone).
      split_and!; [done|right; by exists rest|done].
    + split_and!; [done|by left|done].
Qed.

Lemma get_currency_mnemonic_witness :
  gnc_currency_edit_get_currency Examples.commodities Examples.usd
    (gtk_combo_box_set_active_iter Examples.currency_edit 1)
  = (Some Examples.gbp, []).
Proof.
  exact (proj1 (get_currency_mnemonic Examples.commodities Examples.usd
                  (gtk_combo_box_set_active_iter Examples.currency_edit 1)
                  1 "GBP (Pound Sterling)" eq_refl eq_refl)).
Defined.

(** What the table lookup gives. *)
Lemma lookup_Some (table : gnc_commodity_table) (ns mnemonic : string)
    (d : gnc_commodity) :
  gnc_commodity_table_lookup table ns mnemonic = Some d →
  d ∈ table
  ∧ gnc_commodity_get_namespace d = ns
  ∧ gnc_commodity_get_mnemonic d = mnemonic.
Proof.
  unfold gnc_commodity_table_lookup. intros Hfind.
  apply find_some in Hfind as [Hd Hid]. unfold is_commodity in Hid.
  apply andb_true_iff in Hid as [Hns Hmn]. apply String.eqb_eq in Hns, Hmn.
  by apply list_elem_of_In in Hd.
Qed.

Lemma lookup_None (table : gnc_commodity_table) (ns mnemonic : string) :
  gnc_commodity_table_lookup table ns mnemonic = None ↔
  ∀ d, d ∈ table → gnc_commodity_get_namespace d = ns →
       gnc_commodity_get_mnemonic d ≠ mnemonic.
Proof.
  split.
  - unfold gnc_commodity_table_lookup. intros Hnone d Hd Hns Hmn.
    apply list_elem_of_In in Hd. eapply find_none in Hnone; [|exact Hd].
    unfold is_commodity in Hnone.
    by rewrite Hns, Hmn, !String.eqb_refl in Hnone.
  - intros Hall.
    destruct (gnc_commodity_table_lookup table ns mnemonic) as [d|] eqn:Hfind;
      [|done].
    apply lookup_Some in Hfind as (Hd & Hns & Hmn). by destruct (Hall d Hd Hns).
Qed.

(** C5, as the code has it. For every commodity whose display name is in
    the list, setting it and then reading the currency logs no warning and
    gives what the table has, in the ISO name space, for the display name
    cut at its first space: a commodity of the table with that text for
    mnemonic, or null when there is none. So the result is a commodity with
    the mnemonic of the commodity that was set exactly when its display
    name cut at its first space is its mnemonic and the table has an ISO
    commodity with that mnemonic. *)
Theorem set_then_get_same_mnemonic (table : gnc_commodity_table)
    (dflt : gnc_commodity) (gce : GNCCurrencyEdit) (c : gnc_commodity) :
  gnc_commodity_get_printname c ∈ model gce →
  let result :=
    gnc_currency_edit_get_currency table dflt
      (gnc_currency_edit_set_currency gce (Some c)) in
  let shown := mnemonic_of_fullname (gnc_commodity_get_printname c) in
  result
  = (gnc_commodity_table_lookup table GNC_COMMODITY_NS_ISO shown, [])
  ∧ (∀ d, result.1 = Some d →
          d ∈ table
          ∧ gnc_commodity_get_namespace d = GNC_COMMODITY_NS_ISO
          ∧ gnc_commodity_get_mnemonic d = shown)
  ∧ (result.1 = None ↔
     ∀ d, d ∈ table →
          gnc_commodity_get_namespace d = GNC_COMMODITY_NS_ISO →
          gnc_commodity_get_mnemonic d ≠ shown)
  ∧ ((∃ d, result.1 = Some d
           ∧ gnc_commodity_get_mnemonic d = gnc_commodity_get_mnemonic c) ↔
     printname_has_mnemonic c
     ∧ ∃ d, d ∈ table
            ∧ gnc_commodity_get_namespace d = GNC_COMMODITY_NS_ISO
            ∧ gnc_commodity_get_mnemonic d = gnc_commodity_get_mnemonic c).
Proof.
  intros Hin result shown. subst result shown.
  destruct (set_currency_found gce c Hin) as (iter & -> & Hrow & _).
  rewrite (get_after_set_active table dflt gce iter _ Hrow). simpl.
  split_and!; [done|by apply lookup_Some|by apply lookup_None|].
  unfold printname_has_mnemonic. split.
  - intros (d & Hfind & Hmn). apply lookup_Some in Hfind as (Hd & Hns & Hshown).
    split; [congruence|]. by exists d.
  - intros (Hc & d & Hd & Hns & Hmn). rewrite Hc.
    destruct (lookup_finds table d Hd) as (d' & Hfind & _ & Hmn').
    exists d'. rewrite Hns, Hmn in Hfind. split; [done|congruence].
Qed.

Lemma set_then_get_same_mnemonic_witness :
  ∃ d, (gnc_currency_edit_get_currency Examples.commodities Examples.usd
          (gnc_currency_edit_set_currency Examples.currency_edit
             (Some Examples.eur))).1 = Some d
       ∧ gnc_commodity_get_mnemonic d = "EUR".
Proof.
  destruct (set_then_get_same_mnemonic Examples.commodities Examples.usd
              Examples.currency_edit Examples.eur) as (_ & _ & _ & Hiff).
  - apply (bool_decide_unpack _). vm_compute. exact I.
  - apply Hiff. split; [reflexivity|]. exists Examples.eur.
    split_and!; [|reflexivity..].
    unfold Examples.commodities. rewrite !elem_of_cons. tauto.
Defined.

(** C5, as the spec has it, fails. The display name of the commodity "A B"
    is in the list, and what is read back after it has been set is the
    commodity "A", whose mnemonic is the display name cut at its first
    space; with no commodity "A" in the table, null is read back. No
    warning is logged in either case. *)
Lemma set_then_get_other_mnemonic :
  gnc_commodity_get_mnemonic Examples.alpha_beta = "A B"
  ∧ bool_decide
      (gnc_commodity_get_printname Examples.alpha_beta
       ∈ model (gnc_currency_edit_new Examples.odd_commodities)) = true
  ∧ gnc_currency_edit_get_currency Examples.odd_commodities Examples.usd
      (gnc_currency_edit_set_currency
         (gnc_currency_edit_new Examples.odd_commodities)
         (Some Examples.alpha_beta))
    = (Some Examples.alpha, [])
  ∧ gnc_commodity_get_mnemonic Examples.alpha = "A"
  ∧ bool_decide
      (gnc_commodity_get_printname Examples.alpha_beta
       ∈ model (gnc_currency_edit_new [Examples.alpha_beta])) = true
  ∧ gnc_currency_edit_get_currency [Examples.alpha_beta] Examples.usd
      (gnc_currency_edit_set_currency
         (gnc_currency_edit_new [Examples.alpha_beta])
         (Some Examples.alpha_beta))
    = (None, []).
Proof. by vm_compute. Qed.

End CurrencyEditFacts.

(** ** More on the currency selector *)
Module CurrencyEditMore.
Import CurrencyEdit CurrencyEditFacts.

(** The order of [strcmp]. *)
Lemma strcmp_le_total (s1 s2 : string) :
  (strcmp s1 s2 <= 0)%Z ∨ (strcmp s2 s1 <= 0)%Z.
Proof.
  unfold strcmp. rewrite (String.compare_antisym s1 s2).
  destruct (String.compare s2 s1); simpl; lia.
Qed.

Lemma ascii_compare_trans (a b c : ascii) :
  Ascii.compare a b = Lt → Ascii.compare b c = Lt → Ascii.compare a c = Lt.
Proof.
  unfold Ascii.compare. rewrite !N.compare_lt_iff. intros. by etrans.
Qed.

Lemma ascii_compare_Eq (a b : ascii) : Ascii.compare a b = Eq → a = b.
Proof. apply Ascii.compare_eq_iff. Qed.

Lemma ascii_compare_refl (a : ascii) : Ascii.compare a a = Eq.
Proof. unfold Ascii.compare. apply N.compare_refl. Qed.

Lemma string_compare_trans (s1 s2 s3 : string) :
  String.compare s1 s2 ≠ Gt → String.compare s2 s3 ≠ Gt →
  String.compare s1 s3 ≠ Gt.
Proof.
  revert s2 s3. induction s1 as [|a s1 IH]; intros [|b s2] [|c s3]; simpl;
    try done.
  destruct (Ascii.compare a b) eqn:Hab; [|intros _|done].
  - apply ascii_compare_Eq in Hab as ->.
    destruct (Ascii.compare b c) eqn:Hbc; [apply IH|done|done].
  - destruct (Ascii.compare b c) eqn:Hbc; [|intros _|done].
    + apply ascii_compare_Eq in Hbc as <-. by rewrite Hab.
    + by rewrite (ascii_compare_trans a b c Hab Hbc).
Qed.

Lemma strcmp_le_trans (s1 s2 s3 : string) :
  (strcmp s1 s2 <= 0)%Z → (strcmp s2 s3 <= 0)%Z → (strcmp s1 s3 <= 0)%Z.
Proof.
  unfold strcmp. intros H12 H23.
  assert (String.compare s1 s3 ≠ Gt) as H.
  { apply (string_compare_trans s1 s2 s3).
    - by destruct (String.compare s1 s2).
    - by destruct (String.compare s2 s3). }
  by destruct (String.compare s1 s3).
Qed.

#[local] Instance currency_le_total : Total currency_le.
Proof. intros a b. apply strcmp_le_total. Qed.

#[local] Instance currency_le_trans : Transitive currency_le.
Proof. intros a b c. apply strcmp_le_trans. Qed.

Lemma fold_add_item_active (l : list gnc_commodity) (gce : GNCCurrencyEdit) :
  active (fold_left add_item l gce) = active gce.
Proof.
  revert gce. induction l as [|c l IH]; intros gce; simpl; [done|].
  by rewrite IH.
Qed.

(** X1. The list of a new widget holds the display names of the ISO
    currencies of the table, each as often as the table has it, in
    increasing [strcmp] order: every entry is at most every later one. *)
Theorem new_widget_sorted (table : gnc_commodity_table) :
  model (gnc_currency_edit_new table)
  ≡ₚ gnc_commodity_get_printname
       <$> gnc_commodity_table_get_commodities table GNC_COMMODITY_NS_ISO
  ∧ StronglySorted (λ s1 s2, (strcmp s1 s2 <= 0)%Z)
      (model (gnc_currency_edit_new table)).
Proof.
  rewrite gnc_currency_edit_new_model. unfold g_list_sort. split.
  - by rewrite merge_sort_Permutation.
  - apply (StronglySorted_fmap _ currency_le); [by intros a b|].
    apply StronglySorted_merge_sort; apply _.
Qed.

(** X2. A new widget has no active row, whatever the table: reading its
    currency gives the default currency of the locale, with one warning. *)
Theorem new_widget_inactive (table : gnc_commodity_table) (dflt : gnc_commodity) :
  active (gnc_currency_edit_new table) = None
  ∧ gnc_currency_edit_get_currency table dflt (gnc_currency_edit_new table)
    = (Some dflt, [inactive_warning]).
Proof.
  assert (active (gnc_currency_edit_new table) = None) as Hact.
  { unfold gnc_currency_edit_new, fill_currencies.
    by rewrite fold_add_item_active. }
  split; [done|].
  unfold gnc_currency_edit_get_currency, gtk_combo_box_get_active_iter.
  by rewrite Hact.
Qed.

(** X3. An ISO currency of the table whose display name starts with its
    mnemonic, and which no other ISO currency of the table shares its
    mnemonic with, is read back as itself once it has been set in a new
    widget, and no warning is logged. *)
Theorem set_then_get_table_currency (table : gnc_commodity_table)
    (dflt d : gnc_commodity) :
  d ∈ table →
  gnc_commodity_get_namespace d = GNC_COMMODITY_NS_ISO →
  printname_has_mnemonic d →
  (∀ d', d' ∈ table →
         gnc_commodity_get_namespace d' = GNC_COMMODITY_NS_ISO →
         gnc_commodity_get_mnemonic d' = gnc_commodity_get_mnemonic d →
         d' = d) →
  gnc_currency_edit_get_currency table dflt
    (gnc_currency_edit_set_currency (gnc_currency_edit_new table) (Some d))
  = (Some d, []).
Proof.
  intros Hd Hns Hname Hunique.
  assert (gnc_commodity_get_printname d ∈ model (gnc_currency_edit_new table))
    as Hin by (apply elem_of_new_model; by exists d).
  destruct (set_currency_found _ d Hin) as (iter & -> & Hrow & _).
  rewrite (get_after_set_active table dflt _ iter _ Hrow), Hname.
  destruct (lookup_finds table d Hd) as (d' & Hfind & Hns' & Hmn).
  rewrite <- Hns, Hfind. do 2 f_equal. apply Hunique; [|congruence|done].
  unfold gnc_commodity_table_lookup in Hfind.
  apply find_some in Hfind as [Hfind _]. by apply list_elem_of_In.
Qed.

Lemma set_then_get_table_currency_witness :
  gnc_currency_edit_get_currency Examples.commodities Examples.usd
    (gnc_currency_edit_set_currency
       (gnc_currency_edit_new Examples.commodities) (Some Examples.gbp))
  = (Some Examples.gbp, []).
Proof.
  apply (set_then_get_table_currency Examples.commodities Examples.usd
           Examples.gbp).
  - unfold Examples.commodities. rewrite !elem_of_cons. tauto.
  - reflexivity.
  - reflexivity.
  - intros d' Hd' Hns Hmn. unfold Examples.commodities in Hd'.
    rewrite !elem_of_cons, elem_of_nil in Hd'.
    repeat (destruct Hd' as [->|Hd']; [done || discriminate|]). done.
Defined.

(** X4. Setting one currency and then another: when the display name of the
    second is in the list, the result is as if only the second had been
    set; when it is not, the selection of the first stays. *)
Theorem set_currency_twice (gce : GNCCurrencyEdit) (c d : gnc_commodity) :
  let once := gnc_currency_edit_set_currency gce (Some c) in
  let twice := gnc_currency_edit_set_currency once (Some d) in
  (gnc_commodity_get_printname d ∈ model gce →
   twice = gnc_currency_edit_set_currency gce (Some d))
  ∧ (gnc_commodity_get_printname d ∉ model gce → twice = once).
Proof.
  intros once twice. subst once twice.
  assert (model (gnc_currency_edit_set_currency gce (Some c)) = model gce)
    as Hmodel.
  { rewrite set_currency_scan. by destruct (scan_rows _ _ _). }
  rewrite (set_currency_scan _ d), (set_currency_scan gce d), Hmodel. split.
  - intros Hin. destruct (scan_rows _ (model gce) 0) as [iter|] eqn:Hscan.
    + unfold gtk_combo_box_set_active_iter. by rewrite Hmodel.
    + by apply scan_rows_None in Hscan.
  - intros Hnot. by rewrite (proj2 (scan_rows_None _ (model gce) 0) Hnot).
Qed.

(** X5. With a row active, the result is what the table has for the text
    of the row up to its first space, without any warning and without
    falling back on the default currency: it is null exactly when no ISO
    commodity of the table has that text for mnemonic, and otherwise an ISO
    commodity of the table with that mnemonic. *)
Theorem get_currency_lookup_result (table : gnc_commodity_table)
    (dflt : gnc_commodity) (gce : GNCCurrencyEdit) (iter : nat)
    (fullname : string) :
  active gce = Some iter →
  model gce !! iter = Some fullname →
  let result := gnc_currency_edit_get_currency table dflt gce in
  result.2 = []
  ∧ (result.1 = None ↔
     ∀ c, c ∈ table →
          gnc_commodity_get_namespace c = GNC_COMMODITY_NS_ISO →
          gnc_commodity_get_mnemonic c ≠ mnemonic_of_fullname fullname)
  ∧ (∀ c, result.1 = Some c →
          c ∈ table
          ∧ gnc_commodity_get_namespace c = GNC_COMMODITY_NS_ISO
          ∧ gnc_commodity_get_mnemonic c = mnemonic_of_fullname fullname).
Proof.
  intros Hact Hrow result. subst result.
  destruct gce as [rows act]. simpl in *. subst act.
  change (CurrencyEditWidget rows (Some iter))
    with (gtk_combo_box_set_active_iter (CurrencyEditWidget rows None) iter).
  rewrite (get_after_set_active table dflt (CurrencyEditWidget rows None)
             iter fullname Hrow). simpl.
  unfold gnc_commodity_table_lookup. split_and!; [done|..].
  - split.
    + intros Hnone c Hc Hns Hmn. apply list_elem_of_In in Hc.
      eapply find_none in Hnone; [|exact Hc]. unfold is_commodity in Hnone.
      by rewrite Hns, Hmn, !String.eqb_refl in Hnone.
    + intros Hall. destruct (find _ table) as [c|] eqn:Hfind; [|done].
      apply find_some in Hfind as [Hc Hid]. unfold is_commodity in Hid.
      apply andb_true_iff in Hid as [Hns Hmn].
      apply String.eqb_eq in Hns, Hmn. apply list_elem_of_In in Hc.
      by destruct (Hall c Hc Hns).
  - intros c Hfind. apply find_some in Hfind as [Hc Hid].
    unfold is_commodity in Hid. apply andb_true_iff in Hid as [Hns Hmn].
    apply String.eqb_eq in Hns, Hmn. by apply list_elem_of_In in Hc.
Qed.

Lemma get_currency_lookup_result_witness :
  (gnc_currency_edit_get_currency Examples.commodities Examples.usd
     (gtk_combo_box_set_active_iter Examples.currency_edit 3)).2 = [].
Proof.
  exact (proj1 (get_currency_lookup_result Examples.commodities Examples.usd
                  (gtk_combo_box_set_active_iter Examples.currency_edit 3)
                  3 "XTS" eq_refl eq_refl)).
Defined.

End CurrencyEditMore.

(** ** The CSV import preview *)
Module CsvImportFacts.
Import CsvImport.

(** *** Computations *)

Lemma run_bind_Some {A B} (f : A → Run B) (m : Run A) (b : B) (t : list Event) :
  m ≫= f = Some (b, t) ↔
  ∃ a t1 t2, m = Some (a, t1) ∧ f a = Some (b, t2) ∧ t = t1 ++ t2.
Proof.
  unfold mbind, Run_bind, run_bind. split.
  - destruct m as [[a t1]|]; [|done].
    destruct (f a) as [[b' t2]|] eqn:E; [|done].
    intros [= <- <-]. by exists a, t1, t2.
  - intros (a & t1 & t2 & -> & -> & ->). done.
Qed.

Lemma run_bind_ret_l {A B} (f : A → Run B) (a : A) : mret a ≫= f = f a.
Proof.
  unfold mbind, mret, Run_bind, Run_ret, run_bind, run_ret.
  by destruct (f a) as [[b t]|].
Qed.

Lemma run_bind_done {A B} (f : A → Run B) (a : A) : Some (a, []) ≫= f = f a.
Proof. apply run_bind_ret_l. Qed.

(** *** The code-caused calls of [encoding_selected] *)

Section Delivery.

Context (M : GncCsvModel).

Lemma encoding_selected_code_caused
    (deliver : Signal → GncCsvPreview → Run GncCsvPreview)
    (enc : string) (preview : GncCsvPreview) :
  (0 < code_encoding_calls preview)%Z →
  encoding_selected M deliver enc preview
  = Some (set_code_encoding_calls (code_encoding_calls preview - 1) preview, []).
Proof. intros H. unfold encoding_selected. by rewrite bool_decide_eq_true_2. Qed.

(** Setting the selector while [code_encoding_calls] is 2: the two calls of
    [encoding_selected] count it down to 0 and do nothing else. *)
Lemma set_encoding_code_caused (fuel : nat) (enc : string)
    (preview : GncCsvPreview) :
  code_encoding_calls preview = 2%Z →
  go_charmap_sel_set_encoding (dispatch M (S fuel)) enc preview
  = Some (set_code_encoding_calls 0 (set_encselector enc preview), []).
Proof.
  intros H. unfold go_charmap_sel_set_encoding. simpl.
  rewrite encoding_selected_code_caused by (simpl; lia).
  simpl. rewrite encoding_selected_code_caused by (simpl; lia).
  simpl. by rewrite H.
Qed.

Lemma gnc_csv_preview_treeview_run (fuel : nat) (preview : GncCsvPreview)
    (notEmpty : bool) (store : list (list string)) :
  data_rows preview = Some store →
  gnc_csv_preview_treeview (dispatch M (S fuel)) preview notEmpty
  = Some (refreshed store preview, []).
Proof.
  intros H. unfold gnc_csv_preview_treeview. rewrite H.
  rewrite set_encoding_code_caused by done. done.
Qed.

End Delivery.

(** C10. Every refresh of the preview ends by storing the active index of
    the date format combo in the parse data: however signals are delivered,
    when [gnc_csv_preview_treeview] returns, the date format of the parse
    data is the index the combo shows, whatever it was before. With the
    handlers of the dialog connected, a refresh whose rows exist does
    return, and it leaves the combo as it was. *)
Theorem refresh_sets_date_format (M : GncCsvModel) (fuel : nat)
    (preview : GncCsvPreview) (notEmpty : bool) :
  (∀ deliver preview' t,
     gnc_csv_preview_treeview deliver preview notEmpty = Some (preview', t) →
     date_format (parse_data preview') = date_format_combo preview')
  ∧ (is_Some (data_rows preview) →
     ∃ preview',
       gnc_csv_preview_treeview (dispatch M (S fuel)) preview notEmpty
       = Some (preview', [])
       ∧ date_format (parse_data preview') = date_format_combo preview
       ∧ date_format_combo preview' = date_format_combo preview).
Proof.
  split.
  - intros deliver preview' t. unfold gnc_csv_preview_treeview.
    destruct (data_rows preview) as [store|]; [|done].
    intros H. apply run_bind_Some in H as (p1 & t1 & t2 & _ & H & _).
    by injection H as <- _.
  - intros [store Hstore]. exists (refreshed store preview).
    by rewrite (gnc_csv_preview_treeview_run M fuel _ _ _ Hstore).
Qed.

(** *** Column types *)

Lemma column_type_edited_loop_spec (renderer : nat) (new_text : string)
    (cols i : nat) (store : list string) :
  i + cols ≤ length store →
  ∃ store',
    column_type_edited_loop renderer new_text cols i store = Some store'
    ∧ length store' = length store
    ∧ ∀ j, store' !! j
           = if decide (i ≤ j < i + cols)
             then edited_cell renderer new_text j <$> store !! j
             else store !! j.
Proof.
  revert i store. induction cols as [|cols IH]; intros i store Hlen; simpl.
  { exists store. split_and!; [done..|]. intros j. rewrite decide_False; [done|lia]. }
  destruct (store !! i) as [contents|] eqn:Hi; simpl.
  2: { apply lookup_ge_None in Hi. lia. }
  set (store1 := if decide (i ≠ renderer) then _ else _).
  assert (store1 = <[i:=edited_cell renderer new_text i contents]> store) as ->.
  { subst store1. unfold edited_cell. rewrite strcmp_eqb.
    destruct (decide (i ≠ renderer)), (decide (i = renderer)); try done.
    case_bool_decide; [rewrite decide_True by done|rewrite decide_False by done];
      [done|]. by rewrite list_insert_id. }
  destruct (IH (S i) (<[i:=edited_cell renderer new_text i contents]> store))
    as (store' & Hrun & Hlen' & Hspec).
  { rewrite length_insert. lia. }
  exists store'. rewrite length_insert in Hlen'. split_and!; [done..|].
  intros j. rewrite Hspec. destruct (decide (j = i)) as [->|Hne].
  - rewrite decide_False by lia. rewrite decide_True by lia.
    rewrite list_lookup_insert_eq by lia. by rewrite Hi.
  - rewrite list_lookup_insert_ne by done.
    destruct (decide (S i ≤ j < S i + cols)), (decide (i ≤ j < i + S cols));
      try done; lia.
Qed.

Lemma column_type_edited_cells (renderer : nat) (new_text : string)
    (preview : GncCsvPreview) :
  length (ctreeview preview) = length (column_types (parse_data preview)) →
  ∃ store',
    column_type_edited renderer new_text preview
    = Some (set_ctreeview store' preview, [])
    ∧ length store' = length (ctreeview preview)
    ∧ ∀ j, store' !! j
           = edited_cell renderer new_text j <$> ctreeview preview !! j.
Proof.
  intros Hsync. unfold column_type_edited.
  destruct (column_type_edited_loop_spec renderer new_text
              (length (column_types (parse_data preview))) 0
              (ctreeview preview)) as (store' & -> & Hlen & Hspec); [lia|].
  exists store'. split_and!; [done..|]. intros j. rewrite Hspec.
  case_decide as Hj; [done|].
  rewrite (lookup_ge_None_2 (ctreeview preview) j); [done|lia].
Qed.

(** C3. Let the column type view have the columns of the parse data, as it
    has after every refresh, and let the edited column be one of them. Then
    [column_type_edited] returns; the edited column holds the new string;
    every other column that held that string holds "None"; the remaining
    columns are unchanged; no other column holds the new string unless it
    is "None"; and if no two columns shared a type other than "None"
    before the edit, none do after it. *)
Theorem column_type_edited_no_duplicates (renderer : nat) (new_text : string)
    (preview : GncCsvPreview) :
  length (ctreeview preview) = length (column_types (parse_data preview)) →
  renderer < length (ctreeview preview) →
  ∃ preview',
    column_type_edited renderer new_text preview = Some (preview', [])
    ∧ ctreeview preview' !! renderer = Some new_text
    ∧ (∀ j, j ≠ renderer → ctreeview preview !! j = Some new_text →
            ctreeview preview' !! j = Some (gettext (column_type_strs GNC_CSV_NONE)))
    ∧ (∀ j s, j ≠ renderer → ctreeview preview !! j = Some s → s ≠ new_text →
              ctreeview preview' !! j = Some s)
    ∧ (∀ j, j ≠ renderer → ctreeview preview' !! j = Some new_text →
            new_text = gettext (column_type_strs GNC_CSV_NONE))
    ∧ (no_shared_type (ctreeview preview) →
       no_shared_type (ctreeview preview')).
Proof.
  intros Hsync Hcol.
  destruct (column_type_edited_cells renderer new_text preview Hsync)
    as (store' & Hrun & Hlen & Hspec).
  exists (set_ctreeview store' preview). simpl.
  assert (∀ j c, j ≠ renderer → ctreeview preview !! j = Some c →
            store' !! j = Some (if decide (c = new_text)
                                then gettext (column_type_strs GNC_CSV_NONE)
                                else c)) as Hother.
  { intros j c Hj Hc. rewrite Hspec, Hc. simpl. unfold edited_cell.
    by rewrite decide_False. }
  assert (∀ j c, store' !! j = Some c → is_Some (ctreeview preview !! j))
    as Hdom.
  { intros j c Hj. apply lookup_lt_is_Some. rewrite <- Hlen.
    by eapply lookup_lt_Some. }
  split_and!; [done|..].
  - rewrite Hspec. destruct (lookup_lt_is_Some_2 _ _ Hcol) as [c ->].
    simpl. unfold edited_cell. by rewrite decide_True.
  - intros j Hj Hc. rewrite (Hother _ _ Hj Hc). by rewrite decide_True.
  - intros j s Hj Hc Hs. rewrite (Hother _ _ Hj Hc). by rewrite decide_False.
  - intros j Hj Hc. destruct (Hdom _ _ Hc) as [c Hc'].
    rewrite (Hother _ _ Hj Hc') in Hc. case_decide; [by injection Hc|congruence].
  - intros Hinj i j s Hij Hi Hj.
    destruct (Hdom _ _ Hi) as [ci Hci], (Hdom _ _ Hj) as [cj Hcj].
    destruct (decide (i = renderer)) as [->|Hir],
             (decide (j = renderer)) as [->|Hjr]; [done|..].
    + rewrite Hspec, Hci in Hi. simpl in Hi. unfold edited_cell in Hi.
      rewrite decide_True in Hi by done. injection Hi as <-.
      rewrite (Hother _ _ Hjr Hcj) in Hj. case_decide; [by injection Hj|congruence].
    + rewrite Hspec, Hcj in Hj. simpl in Hj. unfold edited_cell in Hj.
      rewrite decide_True in Hj by done. injection Hj as <-.
      rewrite (Hother _ _ Hir Hci) in Hi. case_decide; [by injection Hi|congruence].
    + rewrite (Hother _ _ Hir Hci) in Hi. rewrite (Hother _ _ Hjr Hcj) in Hj.
      repeat case_decide; simplify_eq; try done.
      by eapply (Hinj i j).
Qed.

(** *** Separator changes *)

Lemma negb_ne (b : bool) : b ≠ negb b.
Proof. by destruct b. Qed.

Lemma toggled_back (widget : Widget) (pd : GncCsvParseData)
    (preview : GncCsvPreview) :
  is_check_button preview widget →
  toggled widget (set_parse_data pd (toggled widget preview))
  = set_parse_data pd preview.
Proof.
  intros Hw. unfold toggled. destruct preview, widget as [i| |]; simpl in *;
    [|by rewrite negb_involutive|done].
  destruct (lookup_lt_is_Some_2 _ _ Hw) as [b Hb].
  unfold set_parse_data, set_sep_buttons; simpl. f_equal.
  rewrite Hb; simpl. rewrite list_lookup_insert_eq by done; simpl.
  rewrite list_insert_insert_eq, negb_involutive. by apply list_insert_id.
Qed.

Section Separators.

Context (M : GncCsvModel).

Lemma dispatch_separator (fuel : nat) (widget : Widget) (preview : GncCsvPreview) :
  dispatch M (S fuel) (Sig_separator widget) preview
  = sep_button_clicked M (dispatch M fuel) widget preview.
Proof. done. Qed.

Lemma click_check_button
    (deliver : Signal → GncCsvPreview → Run GncCsvPreview)
    (widget : Widget) (preview : GncCsvPreview) :
  gtk_toggle_button_set_active deliver widget
    (negb (gtk_toggle_button_get_active widget preview)) preview
  = deliver (Sig_separator widget) (toggled widget preview).
Proof.
  unfold gtk_toggle_button_set_active.
  rewrite bool_decide_eq_false_2; [done|]. apply negb_ne.
Qed.

(** A change of the separators that parses: the preview is refreshed. *)
Lemma sep_button_clicked_ok (fuel : nat) (widget : Widget)
    (preview : GncCsvPreview) (pd : GncCsvParseData)
    (store : list (list string)) :
  gnc_csv_parse M (separators_set preview) false = (pd, None) →
  data_rows (set_parse_data pd preview) = Some store →
  sep_button_clicked M (dispatch M (S fuel)) widget preview
  = Some (refreshed store (set_parse_data pd preview), []).
Proof.
  intros Hparse Hrows. unfold sep_button_clicked. rewrite Hparse.
  by apply gnc_csv_preview_treeview_run.
Qed.

(** A click on a check button whose new separators do not parse, while the
    separators before the click do: the button is toggled back, and the
    parse that follows refreshes the preview. *)
Lemma failed_toggle (fuel : nat) (widget : Widget) (preview : GncCsvPreview)
    (pd1 pd2 : GncCsvParseData) (e : GError) (store : list (list string)) :
  is_check_button preview widget →
  gnc_csv_parse M (separators_set (toggled widget preview)) false
  = (pd1, Some e) →
  gnc_csv_parse M (separators_set (set_parse_data pd1 preview)) false
  = (pd2, None) →
  data_rows (set_parse_data pd2 preview) = Some store →
  user_action M (3 + fuel) (U_toggle widget) preview
  = Some (refreshed store (set_parse_data pd2 preview),
          [Ev_error_dialog "Error in parsing"]).
Proof.
  intros Hw Hfail Hok Hrows.
  change (3 + fuel) with (S (S (S fuel))). unfold user_action.
  rewrite click_check_button, dispatch_separator.
  unfold sep_button_clicked at 1.
  rewrite Hfail. rewrite decide_False by (by destruct widget).
  rewrite click_check_button, toggled_back by done.
  rewrite dispatch_separator.
  assert (set_parse_data pd2 (set_parse_data pd1 preview)
          = set_parse_data pd2 preview) as Hset by done.
  erewrite sep_button_clicked_ok; [|done|by rewrite Hset].
  by rewrite Hset.
Qed.

(** The preview once the user has put [text] in the custom entry. *)
Lemma type_custom_entry
    (deliver : Signal → GncCsvPreview → Run GncCsvPreview)
    (text : string) (preview : GncCsvPreview) :
  custom_entry preview ≠ text →
  gtk_entry_set_text deliver text preview
  = deliver (Sig_separator W_custom_entry) (set_custom_entry text preview).
Proof. intros H. unfold gtk_entry_set_text. by rewrite bool_decide_eq_false_2. Qed.

(** An edit of the custom entry whose separators do not parse: the entry
    is erased. The parse of the separators without the custom one decides
    what follows: a refresh if it succeeds, a second error dialog if not. *)
Lemma failed_edit (fuel : nat) (text : string) (preview : GncCsvPreview)
    (pd1 : GncCsvParseData) (e : GError) :
  custom_entry preview ≠ text →
  gnc_csv_parse M (separators_set (set_custom_entry text preview)) false
  = (pd1, Some e) →
  (∀ pd2,
     gnc_csv_parse M
       (separators_set (set_custom_entry "" (set_parse_data pd1 preview))) false
     = (pd2, None) →
     is_Some (data_rows (set_parse_data pd2 preview))) →
  ∃ preview' t,
    user_action M (3 + fuel) (U_type text) preview = Some (preview', t)
    ∧ Ev_error_dialog "Error in parsing" ∈ t
    ∧ custom_entry preview' = ""
    ∧ sep_buttons preview' = sep_buttons preview
    ∧ custom_cbutton preview' = custom_cbutton preview
    ∧ date_format_combo preview' = date_format_combo preview
    ∧ (∀ pd2 store,
         text ≠ "" →
         gnc_csv_parse M
           (separators_set (set_custom_entry "" (set_parse_data pd1 preview)))
           false
         = (pd2, None) →
         data_rows (set_parse_data pd2 preview) = Some store →
         t = [Ev_error_dialog "Error in parsing"]
         ∧ parse_data preview'
           = set_date_format (date_format_combo preview) pd2
         ∧ treeview preview' = store
         ∧ ctreeview preview'
           = (λ t, gettext (column_type_strs t)) <$> column_types pd2
         ∧ encselector preview' = encoding pd2)
    ∧ (text = ""
       ∨ (∃ pd2 e2,
            gnc_csv_parse M
              (separators_set
                 (set_custom_entry "" (set_parse_data pd1 preview))) false
            = (pd2, Some e2)) →
       treeview preview' = treeview preview
       ∧ ctreeview preview' = ctreeview preview
       ∧ encselector preview' = encselector preview).
Proof.
  intros Hnew Hfail Hrows.
  set (erased := set_custom_entry "" (set_parse_data pd1 preview)) in *.
  change (3 + fuel) with (S (S (S fuel))). unfold user_action.
  rewrite type_custom_entry, dispatch_separator by done.
  unfold sep_button_clicked at 1. rewrite Hfail. rewrite decide_True by done.
  destruct (decide (text = "")) as [->|Htext].
  { unfold gtk_entry_set_text. rewrite bool_decide_eq_true_2 by done.
    eexists _, _. split; [done|]. split_and!; [|done..]. simpl. by constructor. }
  rewrite type_custom_entry, dispatch_separator by done.
  change (set_custom_entry "" (set_parse_data pd1 (set_custom_entry text preview)))
    with erased.
  destruct (gnc_csv_parse M (separators_set erased) false) as [pd2 [e2|]] eqn:H2.
  - unfold sep_button_clicked. rewrite H2. rewrite decide_True by done.
    unfold gtk_entry_set_text. rewrite bool_decide_eq_true_2 by done.
    eexists _, _. split; [done|].
    split_and!; [simpl; by constructor|done..].
  - destruct (Hrows pd2 eq_refl) as [store Hstore].
    erewrite sep_button_clicked_ok; [|done|exact Hstore].
    eexists _, _. split; [done|].
    split_and!; [simpl; by constructor|done..| |].
    + intros pd2' store' _ [= <-] Hstore'.
      assert (store' = store) as -> by congruence. done.
    + intros [?|(pd2' & e2' & [=])]. done.
Qed.

(** C1, as the code has it. A click on a check button whose separators do
    not parse toggles the button back, which is handled as a separator
    change of its own: when the parse of the restored separators succeeds,
    one error has been shown, the check buttons, the custom entry and the
    date format combo are as before the click, and the data view, the
    column type view and the encoding selector are rebuilt from the parse
    data, so that column types edited in the view and not confirmed are
    lost. An edit of the custom entry whose separators do not parse is not
    undone: an error is shown and the entry is erased, while the check
    buttons and the date format combo are as before the edit; when the
    entry was not erased by the user, the separators without the custom
    one are parsed, and the views are rebuilt from the parse data if that
    parse succeeds and left as they were if it fails. *)
Theorem failed_separator_change (fuel : nat) (preview : GncCsvPreview) :
  (∀ widget pd1 e pd2 store,
     is_check_button preview widget →
     gnc_csv_parse M (separators_set (toggled widget preview)) false
     = (pd1, Some e) →
     gnc_csv_parse M (separators_set (set_parse_data pd1 preview)) false
     = (pd2, None) →
     data_rows (set_parse_data pd2 preview) = Some store →
     ∃ preview',
       user_action M (3 + fuel) (U_toggle widget) preview
       = Some (preview', [Ev_error_dialog "Error in parsing"])
       ∧ sep_buttons preview' = sep_buttons preview
       ∧ custom_cbutton preview' = custom_cbutton preview
       ∧ custom_entry preview' = custom_entry preview
       ∧ date_format_combo preview' = date_format_combo preview
       ∧ parse_data preview' = set_date_format (date_format_combo preview) pd2
       ∧ treeview preview' = store
       ∧ ctreeview preview'
         = (λ t, gettext (column_type_strs t)) <$> column_types pd2
       ∧ encselector preview' = encoding pd2)
  ∧ (∀ text pd1 e,
       custom_entry preview ≠ text →
       gnc_csv_parse M (separators_set (set_custom_entry text preview)) false
       = (pd1, Some e) →
       (∀ pd2,
          gnc_csv_parse M
            (separators_set (set_custom_entry "" (set_parse_data pd1 preview)))
            false
          = (pd2, None) →
          is_Some (data_rows (set_parse_data pd2 preview))) →
       ∃ preview' t,
         user_action M (3 + fuel) (U_type text) preview = Some (preview', t)
         ∧ Ev_error_dialog "Error in parsing" ∈ t
         ∧ custom_entry preview' = ""
         ∧ sep_buttons preview' = sep_buttons preview
         ∧ custom_cbutton preview' = custom_cbutton preview
         ∧ date_format_combo preview' = date_format_combo preview
         ∧ (∀ pd2 store,
              text ≠ "" →
              gnc_csv_parse M
                (separators_set
                   (set_custom_entry "" (set_parse_data pd1 preview))) false
              = (pd2, None) →
              data_rows (set_parse_data pd2 preview) = Some store →
              t = [Ev_error_dialog "Error in parsing"]
              ∧ parse_data preview'
                = set_date_format (date_format_combo preview) pd2
              ∧ treeview preview' = store
              ∧ ctreeview preview'
                = (λ t, gettext (column_type_strs t)) <$> column_types pd2
              ∧ encselector preview' = encoding pd2)
         ∧ (text = ""
            ∨ (∃ pd2 e2,
                 gnc_csv_parse M
                   (separators_set
                      (set_custom_entry "" (set_parse_data pd1 preview)))
                   false
                 = (pd2, Some e2)) →
            treeview preview' = treeview preview
            ∧ ctreeview preview' = ctreeview preview
            ∧ encselector preview' = encselector preview)).
Proof.
  split.
  - intros widget pd1 e pd2 store Hw Hfail Hok Hrows. eexists.
    rewrite (failed_toggle fuel _ _ _ _ _ _ Hw Hfail Hok Hrows).
    by split_and!.
  - intros text pd1 e. apply failed_edit.
Qed.

End Separators.

(** *** Encoding changes *)

Lemma refreshed_shows_parse_data (store : list (list string))
    (preview : GncCsvPreview) :
  shows_parse_data (refreshed store preview).
Proof. done. Qed.

Section Encoding.

Context (M : GncCsvModel).

Lemma dispatch_charmap_changed (fuel : nat) (enc : string)
    (preview : GncCsvPreview) :
  dispatch M (S fuel) (Sig_charmap_changed enc) preview
  = encoding_selected M (dispatch M fuel) enc preview.
Proof. done. Qed.

Lemma convert_and_parse_encoding (pd pd' : GncCsvParseData) (enc : string) :
  records_encoding M →
  convert_and_parse M pd enc = (pd', false) →
  encoding pd' = enc.
Proof.
  intros [Hconv Hparse]. unfold convert_and_parse.
  destruct (gnc_csv_convert_encoding M pd enc) as [pd1 [e|]] eqn:E1; [done|].
  destruct (gnc_csv_parse M pd1 false) as [pd2 error] eqn:E2.
  intros [= <- _]. rewrite (Hparse _ _ _ _ E2). by apply (Hconv _ _ _ E1).
Qed.

(** A selection made while no call of [encoding_selected] is pending: the
    first of the two calls sets the flag, the second one acts. *)
Lemma select_encoding_acts (fuel : nat) (enc : string) (preview : GncCsvPreview) :
  code_encoding_calls preview = 0%Z →
  encoding_selected_called preview = false →
  go_charmap_sel_set_encoding (dispatch M (S fuel)) enc preview
  = encoding_selected M (dispatch M fuel) enc
      (set_encoding_selected_called true (set_encselector enc preview)).
Proof.
  intros Hcalls Hflag. unfold go_charmap_sel_set_encoding.
  rewrite dispatch_charmap_changed. unfold encoding_selected at 1. simpl.
  rewrite Hcalls, Hflag. simpl.
  by destruct (encoding_selected _ _ _ _) as [[? ?]|].
Qed.

(** A selection whose conversion and parse succeed: the preview is
    refreshed from the new parse data. *)
Lemma select_encoding_ok (fuel : nat) (enc : string) (preview : GncCsvPreview)
    (pd : GncCsvParseData) (store : list (list string)) :
  code_encoding_calls preview = 0%Z →
  encoding_selected_called preview = false →
  convert_and_parse M (parse_data preview) enc = (pd, false) →
  data_rows (set_parse_data pd preview) = Some store →
  go_charmap_sel_set_encoding (dispatch M (2 + fuel)) enc preview
  = Some (refreshed store (set_parse_data pd preview), []).
Proof.
  intros Hcalls Hflag Hok Hrows. change (2 + fuel) with (S (S fuel)).
  rewrite select_encoding_acts by done.
  unfold encoding_selected.
  cbn [code_encoding_calls encoding_selected_called parse_data
       set_encoding_selected_called set_encselector].
  rewrite Hcalls, Hok. rewrite bool_decide_eq_false_2 by lia.
  erewrite gnc_csv_preview_treeview_run by exact Hrows.
  rewrite run_bind_done. unfold mret, Run_ret, run_ret.
  do 2 f_equal. destruct preview; simpl in *. by subst.
Qed.

(** A selection whose conversion or parse fails, while the conversion back
    to the encoding of the parse data and its parse succeed: the selector
    is set back, and the selection this causes refreshes the preview. *)
Lemma select_encoding_failed (fuel : nat) (enc : string)
    (preview : GncCsvPreview) (pd1 pd2 : GncCsvParseData)
    (store : list (list string)) :
  code_encoding_calls preview = 0%Z →
  encoding_selected_called preview = false →
  convert_and_parse M (parse_data preview) enc = (pd1, true) →
  convert_and_parse M pd1 (encoding (parse_data preview)) = (pd2, false) →
  data_rows (set_parse_data pd2 preview) = Some store →
  go_charmap_sel_set_encoding (dispatch M (3 + fuel)) enc preview
  = Some (refreshed store (set_parse_data pd2 preview),
          [Ev_error_dialog "Invalid encoding selected"]).
Proof.
  intros Hcalls Hflag Hfail Hok Hrows. change (3 + fuel) with (S (2 + fuel)).
  rewrite select_encoding_acts by done.
  unfold encoding_selected.
  cbn [code_encoding_calls encoding_selected_called parse_data
       set_encoding_selected_called set_encselector].
  rewrite Hcalls, Hfail. rewrite bool_decide_eq_false_2 by lia.
  erewrite (select_encoding_ok fuel _ _ pd2 store); [|done|done|done|done].
  cbn. do 2 f_equal. destruct preview; simpl in *. by subst.
Qed.

(** X21. The user selects an encoding while no call of
    [encoding_selected] is pending, as is the case whenever the dialog
    waits for the user. If the conversion and the parse succeed, no error
    is shown, the preview is refreshed from the new parse
    data and shows it; a parser that records the encoding has committed the
    new one. If the conversion or the parse fails, the selector is set back
    to the encoding the parse data held, which is handled as a selection of
    its own; when that conversion and parse succeed, one error has been
    shown, the preview is refreshed and shows the parse data, and, with a
    parser that records the encoding and a selector that showed the
    encoding of the parse data before, the selector shows what it showed
    before. *)
Theorem encoding_change (fuel : nat) (enc : string) (preview : GncCsvPreview) :
  idle preview →
  (∀ pd store,
     convert_and_parse M (parse_data preview) enc = (pd, false) →
     data_rows (set_parse_data pd preview) = Some store →
     ∃ preview',
       user_action M (3 + fuel) (U_select_encoding enc) preview
       = Some (preview', [])
       ∧ parse_data preview' = set_date_format (date_format_combo preview) pd
       ∧ treeview preview' = store
       ∧ shows_parse_data preview'
       ∧ (records_encoding M → encselector preview' = enc))
  ∧ (∀ pd1 pd2 store,
       convert_and_parse M (parse_data preview) enc = (pd1, true) →
       convert_and_parse M pd1 (encoding (parse_data preview)) = (pd2, false) →
       data_rows (set_parse_data pd2 preview) = Some store →
       ∃ preview',
         user_action M (3 + fuel) (U_select_encoding enc) preview
         = Some (preview', [Ev_error_dialog "Invalid encoding selected"])
         ∧ parse_data preview'
           = set_date_format (date_format_combo preview) pd2
         ∧ treeview preview' = store
         ∧ shows_parse_data preview'
         ∧ (records_encoding M →
            encselector preview = encoding (parse_data preview) →
            encselector preview' = encselector preview)).
Proof.
  intros [Hcalls Hflag]. split.
  - intros pd store Hok Hrows. eexists. unfold user_action.
    change (3 + fuel) with (2 + S fuel).
    rewrite (select_encoding_ok (S fuel) _ _ _ _ Hcalls Hflag Hok Hrows).
    split_and!; [done..|]. intros HM. simpl.
    by apply (convert_and_parse_encoding _ _ _ HM Hok).
  - intros pd1 pd2 store Hfail Hok Hrows. eexists. unfold user_action.
    rewrite (select_encoding_failed fuel _ _ _ _ _ Hcalls Hflag Hfail Hok Hrows).
    split_and!; [done..|]. intros HM Hshown. simpl.
    rewrite Hshown. by apply (convert_and_parse_encoding _ _ _ HM Hok).
Qed.

End Encoding.

(** *** The separator and encoding changes at work *)

Import Examples.

Example bar_preview_accepted :
  custom_entry bar_preview = "|"
  ∧ custom_cbutton bar_preview = true
  ∧ sep_str (options (parse_data bar_preview)) = [","; "|"].
Proof. by vm_compute. Qed.

Lemma failed_separator_change_witness :
  (∃ preview',
     user_action toy_model 3 (U_toggle (W_sep_button 5)) typed_preview
     = Some (preview', [Ev_error_dialog "Error in parsing"])
     ∧ sep_buttons preview' = sep_buttons typed_preview
     ∧ custom_cbutton preview' = custom_cbutton typed_preview
     ∧ custom_entry preview' = custom_entry typed_preview
     ∧ date_format_combo preview' = date_format_combo typed_preview
     ∧ parse_data preview'
       = set_date_format (date_format_combo typed_preview)
           (parse_data typed_preview)
     ∧ treeview preview' = treeview typed_preview
     ∧ ctreeview preview'
       = (λ t, gettext (column_type_strs t))
           <$> column_types (parse_data typed_preview)
     ∧ encselector preview' = encoding (parse_data typed_preview))
  ∧ (∃ preview' t,
       user_action toy_model 3 (U_type "-") bar_preview = Some (preview', t)
       ∧ Ev_error_dialog "Error in parsing" ∈ t
       ∧ custom_entry preview' = ""
       ∧ sep_buttons preview' = sep_buttons bar_preview
       ∧ custom_cbutton preview' = custom_cbutton bar_preview
       ∧ date_format_combo preview' = date_format_combo bar_preview).
Proof.
  split.
  - apply (proj1 (failed_separator_change toy_model 0 typed_preview)
             (W_sep_button 5)
             (separators_set (toggled (W_sep_button 5) typed_preview))
             (Error GNC_CSV_PARSE_ERR "Lines have different numbers of fields.")
             (parse_data typed_preview) (treeview typed_preview)).
    + vm_compute. lia.
    + by vm_compute.
    + by vm_compute.
    + by vm_compute.
  - destruct (proj2 (failed_separator_change toy_model 0 bar_preview)
                "-" (separators_set (set_custom_entry "-" bar_preview))
                (Error GNC_CSV_PARSE_ERR
                   "Lines have different numbers of fields."))
      as (preview' & t & Hrun & Herror & Hentry & Hbuttons & Hcustom & Hdate & _).
    + by vm_compute.
    + by vm_compute.
    + intros pd2 H. vm_compute in H. injection H as <-. by eexists.
    + cbn [Nat.add] in Hrun. exists preview', t.
      split_and!; [exact Hrun|exact Herror|exact Hentry|exact Hbuttons
                  |exact Hcustom|exact Hdate].
Defined.

(** C1, as the spec has it, fails. The custom entry holds an accepted
    separator, the user replaces it by one that does not parse, and the
    entry ends up empty instead of holding the accepted separator again.
    And more than the change is rolled back: the user has chosen column
    types without confirming them and checks a separator that does not
    parse; the button is toggled back, and the column types chosen are
    gone. *)
Lemma failed_edit_not_restored :
  custom_entry bar_preview = "|"
  ∧ sep_str (options (parse_data bar_preview)) = [","; "|"]
  ∧ (gnc_csv_parse toy_model
       (separators_set (set_custom_entry "-" bar_preview)) false).2
    = Some (Error GNC_CSV_PARSE_ERR "Lines have different numbers of fields.")
  ∧ (λ r, custom_entry r.1) <$> user_action toy_model 3 (U_type "-") bar_preview
    = Some ""
  ∧ ctreeview typed_preview = ["Date"; "None"; "Amount"]
  ∧ (gnc_csv_parse toy_model
       (separators_set (toggled (W_sep_button 5) typed_preview)) false).2
    = Some (Error GNC_CSV_PARSE_ERR "Lines have different numbers of fields.")
  ∧ (λ r, (sep_buttons r.1, ctreeview r.1, r.2))
      <$> user_action toy_model 3 (U_toggle (W_sep_button 5)) typed_preview
    = Some (sep_buttons typed_preview, ["None"; "None"; "None"],
            [Ev_error_dialog "Error in parsing"]).
Proof. by vm_compute. Qed.

Lemma toy_model_records_encoding : records_encoding toy_model.
Proof.
  split.
  - intros pd enc pd'. simpl. unfold toy_convert_encoding.
    case_bool_decide; [|done]. by intros [= <-].
  - intros pd guess pd' error. simpl. unfold toy_parse.
    case_bool_decide; by intros [= <- _].
Qed.

Lemma encoding_change_witness :
  (∃ preview',
     user_action toy_model 3 (U_select_encoding "ASCII") bank_preview
     = Some (preview', [])
     ∧ parse_data preview'
       = set_date_format 0 (set_encoding "ASCII" (parse_data bank_preview))
     ∧ treeview preview' = treeview bank_preview
     ∧ shows_parse_data preview'
     ∧ (records_encoding toy_model → encselector preview' = "ASCII"))
  ∧ (∃ preview',
       user_action toy_model 3 (U_select_encoding "KOI8-R") bank_preview
       = Some (preview', [Ev_error_dialog "Invalid encoding selected"])
       ∧ parse_data preview'
         = set_date_format (date_format_combo bank_preview)
             (parse_data bank_preview)
       ∧ treeview preview' = treeview bank_preview
       ∧ shows_parse_data preview'
       ∧ (records_encoding toy_model →
          encselector bank_preview = encoding (parse_data bank_preview) →
          encselector preview' = encselector bank_preview)).
Proof.
  assert (idle bank_preview) as Hidle by by vm_compute.
  split.
  - apply (proj1 (encoding_change toy_model 0 "ASCII" bank_preview Hidle)
             (set_encoding "ASCII" (parse_data bank_preview))
             (treeview bank_preview)); by vm_compute.
  - apply (proj2 (encoding_change toy_model 0 "KOI8-R" bank_preview Hidle)
             (parse_data bank_preview) (parse_data bank_preview)
             (treeview bank_preview)); by vm_compute.
Defined.

(** Two encodings between which the file that does not parse goes back
    and forth. *)
Lemma attempt_on_notes (pd : GncCsvParseData) (enc : string) :
  file_str pd = notes_csv →
  sep_str (options pd) = [","] →
  enc ∈ known_encodings →
  convert_and_parse toy_model pd enc = (set_encoding enc pd, true).
Proof.
  intros Hfile Hseps Henc. unfold convert_and_parse. simpl.
  unfold toy_convert_encoding. rewrite bool_decide_eq_true_2 by done.
  unfold toy_parse. cbn [file_str options set_encoding]. rewrite Hfile, Hseps.
  match goal with
  | |- context [bool_decide ?P] =>
      assert (bool_decide P = false) as -> by (by vm_compute)
  end.
  done.
Qed.

Lemma selection_on_notes (fuel : nat) (enc : string) (preview : GncCsvPreview) :
  code_encoding_calls preview = 0%Z →
  encoding_selected_called preview = false →
  file_str (parse_data preview) = notes_csv →
  sep_str (options (parse_data preview)) = [","] →
  encoding (parse_data preview) ∈ known_encodings →
  enc ∈ known_encodings →
  go_charmap_sel_set_encoding (dispatch toy_model fuel) enc preview = None.
Proof.
  revert enc preview.
  induction fuel as [|fuel IH]; intros enc preview Hcalls Hflag Hfile Hseps Hpd Henc;
    [done|].
  rewrite select_encoding_acts by done. unfold encoding_selected.
  cbn [code_encoding_calls encoding_selected_called parse_data
       set_encoding_selected_called set_encselector].
  rewrite Hcalls, attempt_on_notes by done.
  rewrite bool_decide_eq_false_2 by lia.
  rewrite IH; done.
Qed.

(** The import of the file that does not parse gets to the preview, and
    the preview does not return once the user selects an encoding. *)
Lemma preview_on_notes_never_returns (fuel : nat) (rest : list UserAction) :
  gnc_csv_preview toy_model fuel (U_select_encoding "ASCII" :: rest)
    (gnc_csv_preview_new glade (toy_load_file toy_new_parse_data "notes.csv").1)
    (toy_load_file toy_new_parse_data "notes.csv").1
  = None.
Proof.
  destruct fuel as [|fuel]; [done|]. unfold gnc_csv_preview.
  erewrite gnc_csv_preview_treeview_run by done.
  rewrite run_bind_done. unfold gtk_dialog_run.
  cbn [log mbind Run_bind run_bind dialog_loop user_action].
  rewrite selection_on_notes;
    [done|first [by vm_compute|apply (bool_decide_unpack _); by vm_compute]..].
Qed.

Lemma import_of_notes_never_returns (fuel : nat) :
  gnc_file_csv_import toy_model fuel glade restless_user = None.
Proof.
  unfold gnc_file_csv_import, import_loaded.
  cbn [gnc_file_dialog restless_user preview_session].
  change (gnc_csv_load_file toy_model (gnc_csv_new_parse_data toy_model)
            "notes.csv")
    with ((toy_load_file toy_new_parse_data "notes.csv").1,
          @None GError).
  cbn iota beta.
  change (gnc_csv_parse toy_model (toy_load_file toy_new_parse_data "notes.csv").1
            true)
    with ((toy_load_file toy_new_parse_data "notes.csv").1,
          Some (Error GNC_CSV_PARSE_ERR
                  "Lines have different numbers of fields.")).
  cbn iota beta. rewrite preview_on_notes_never_returns. done.
Qed.

(** C2. The code breaks the claim where the revert it attempts fails in
    its turn. The file does not parse with the separators checked,
    whatever the encoding; the import shows the error and opens the preview
    all the same. The user selects another encoding: the conversion
    succeeds and the parse fails. The call of [encoding_selected] that
    handles this leaves the selector on the old encoding and the parse data
    on the new one; and since setting the selector back is handled as a
    selection, which fails in the same way, the handlers re-enter each
    other without end: neither the selection nor the import returns. *)
Lemma encoding_change_never_settles :
  (idle notes_preview
   ∧ encselector notes_preview = "UTF-8"
   ∧ encoding (parse_data notes_preview) = "UTF-8")
  ∧ (convert_and_parse toy_model (parse_data notes_preview) "ASCII").2 = true
  ∧ (λ r, (encselector r.1, encoding (parse_data r.1)))
      <$> encoding_selected toy_model (λ _ p, mret p) "ASCII"
            (set_encoding_selected_called true
               (set_encselector "ASCII" notes_preview))
    = Some ("UTF-8", "ASCII")
  ∧ (¬ ∃ fuel result,
         user_action toy_model fuel (U_select_encoding "ASCII") notes_preview
         = Some result)
  ∧ first_shown "notes.csv" = Some notes_preview
  ∧ ¬ ∃ fuel result,
        gnc_file_csv_import toy_model fuel glade restless_user = Some result.
Proof.
  split_and!; [by vm_compute..| |by vm_compute|].
  - intros (fuel & result & H). unfold user_action in H.
    rewrite selection_on_notes in H;
      [done|first [by vm_compute|apply (bool_decide_unpack _); by vm_compute]..].
  - intros (fuel & result & H). by rewrite import_of_notes_never_returns in H.
Qed.

(** *** What the dialogs log *)

Section Quiet.

Context (M : GncCsvModel).

Lemma quiet_bind {A B} (m : Run A) (f : A → Run B) (b : B) (t : list Event) :
  (∀ a t1, m = Some (a, t1) → Forall is_dialog_event t1) →
  (∀ a b t2, f a = Some (b, t2) → Forall is_dialog_event t2) →
  m ≫= f = Some (b, t) → Forall is_dialog_event t.
Proof.
  intros Hm Hf H. apply run_bind_Some in H as (a & t1 & t2 & H1 & H2 & ->).
  apply Forall_app. split; [by eapply Hm|by eapply Hf].
Qed.

Lemma quiet_ret {A} (a b : A) (t : list Event) :
  (mret a : Run A) = Some (b, t) → Forall is_dialog_event t.
Proof. by intros [= _ <-]. Qed.

Lemma quiet_error_dialog (msg : string) (u : unit) (t : list Event) :
  gnc_error_dialog msg = Some (u, t) → Forall is_dialog_event t.
Proof. intros [= _ <-]. by repeat constructor. Qed.

Section QuietHandlers.

Variable deliver : Signal → GncCsvPreview → Run GncCsvPreview.
Hypothesis deliver_quiet : quiet deliver.

Lemma quiet_set_active widget is_active preview preview' t :
  gtk_toggle_button_set_active deliver widget is_active preview
  = Some (preview', t) →
  Forall is_dialog_event t.
Proof.
  unfold gtk_toggle_button_set_active. case_bool_decide.
  - apply quiet_ret.
  - apply deliver_quiet.
Qed.

Lemma quiet_set_text text preview preview' t :
  gtk_entry_set_text deliver text preview = Some (preview', t) →
  Forall is_dialog_event t.
Proof.
  unfold gtk_entry_set_text. case_bool_decide.
  - apply quiet_ret.
  - apply deliver_quiet.
Qed.

Lemma quiet_set_encoding enc preview preview' t :
  go_charmap_sel_set_encoding deliver enc preview = Some (preview', t) →
  Forall is_dialog_event t.
Proof.
  unfold go_charmap_sel_set_encoding. apply quiet_bind.
  - intros a t1. apply deliver_quiet.
  - intros a b t2. apply deliver_quiet.
Qed.

Lemma quiet_treeview preview notEmpty preview' t :
  gnc_csv_preview_treeview deliver preview notEmpty = Some (preview', t) →
  Forall is_dialog_event t.
Proof.
  unfold gnc_csv_preview_treeview. destruct (data_rows preview); [|done].
  apply quiet_bind.
  - intros a t1. apply quiet_set_encoding.
  - intros a b t2. apply quiet_ret.
Qed.

Lemma quiet_handler s preview preview' t :
  handler M deliver s preview = Some (preview', t) →
  Forall is_dialog_event t.
Proof.
  destruct s as [widget|enc| |renderer new_text| |]; simpl.
  - unfold sep_button_clicked.
    destruct (gnc_csv_parse M _ false) as [pd [e|]].
    + apply quiet_bind; [intros a t1; apply quiet_error_dialog|].
      intros _ b t2. case_decide; [apply quiet_set_text|apply quiet_set_active].
    + apply quiet_treeview.
  - unfold encoding_selected. case_bool_decide; [apply quiet_ret|].
    destruct (encoding_selected_called preview); [|apply quiet_ret].
    destruct (convert_and_parse M _ enc) as [pd [|]].
    + apply quiet_bind; [intros a t1; apply quiet_error_dialog|].
      intros _ b t2. apply quiet_set_encoding.
    + apply quiet_bind; [intros a t1; apply quiet_treeview|].
      intros a b t2. apply quiet_ret.
  - apply quiet_ret.
  - unfold column_type_edited.
    destruct (column_type_edited_loop _ _ _ _ _); [apply quiet_ret|done].
  - unfold ok_button_clicked.
    destruct (ok_button_loop _ _ _ _); [apply quiet_ret|done].
  - apply quiet_ret.
Qed.

End QuietHandlers.

Lemma quiet_dispatch (fuel : nat) : quiet (dispatch M fuel).
Proof.
  induction fuel as [|fuel IH]; intros s preview preview' t; [done|].
  by apply quiet_handler.
Qed.

Lemma quiet_user_action fuel a preview preview' t :
  user_action M fuel a preview = Some (preview', t) →
  Forall is_dialog_event t.
Proof.
  pose proof (quiet_dispatch fuel) as Hq.
  destruct a; simpl.
  - by apply quiet_set_active.
  - by apply quiet_set_text.
  - by apply quiet_set_encoding.
  - case_bool_decide; [apply quiet_ret|apply Hq].
  - apply Hq.
  - apply Hq.
  - apply Hq.
Qed.

Lemma quiet_dialog_loop fuel session preview preview' t :
  dialog_loop M fuel session preview = Some (preview', t) →
  Forall is_dialog_event t.
Proof.
  revert preview preview' t.
  induction session as [|a session IH]; intros preview preview' t; [done|].
  simpl. apply quiet_bind.
  - intros p1 t1. apply quiet_user_action.
  - intros p1 b t2. destruct (dialog p1); [apply IH|apply quiet_ret].
Qed.

Lemma quiet_dialog_run fuel session preview preview' t :
  gtk_dialog_run M fuel session preview = Some (preview', t) →
  Forall is_dialog_event t.
Proof.
  unfold gtk_dialog_run. apply quiet_bind.
  - intros a t1 [= _ <-]. by repeat constructor.
  - intros _ b t2. apply quiet_dialog_loop.
Qed.

Lemma quiet_preview fuel session preview parse_data result t :
  gnc_csv_preview M fuel session preview parse_data = Some (result, t) →
  Forall is_dialog_event t.
Proof.
  unfold gnc_csv_preview. apply quiet_bind.
  - intros a t1. apply quiet_treeview, quiet_dispatch.
  - intros a b t2. apply quiet_bind.
    + intros a' t1. apply quiet_dialog_run.
    + intros a' b' t3. apply quiet_ret.
Qed.

End Quiet.

(** *** What the dialogs do to the approval *)

Section Approval.

Context (M : GncCsvModel).

Section ApprovalHandlers.

Variable deliver : Signal → GncCsvPreview → Run GncCsvPreview.
Hypothesis deliver_keeps : keeps_approved deliver.

Lemma approved_set_active widget is_active preview preview' t :
  gtk_toggle_button_set_active deliver widget is_active preview
  = Some (preview', t) →
  approved preview' = approved preview.
Proof.
  unfold gtk_toggle_button_set_active. case_bool_decide as Hb.
  - by intros [= <- _].
  - intros H. apply deliver_keeps in H; [|done]. by destruct widget.
Qed.

Lemma approved_set_text text preview preview' t :
  gtk_entry_set_text deliver text preview = Some (preview', t) →
  approved preview' = approved preview.
Proof.
  unfold gtk_entry_set_text. case_bool_decide as Hb.
  - by intros [= <- _].
  - intros H. by apply deliver_keeps in H.
Qed.

Lemma approved_set_encoding enc preview preview' t :
  go_charmap_sel_set_encoding deliver enc preview = Some (preview', t) →
  approved preview' = approved preview.
Proof.
  unfold go_charmap_sel_set_encoding. intros H.
  apply run_bind_Some in H as (p1 & t1 & t2 & H1 & H2 & _).
  apply deliver_keeps in H1; [|done]. apply deliver_keeps in H2; [|done].
  etrans; [exact H2|exact H1].
Qed.

Lemma approved_treeview preview notEmpty preview' t :
  gnc_csv_preview_treeview deliver preview notEmpty = Some (preview', t) →
  approved preview' = approved preview.
Proof.
  unfold gnc_csv_preview_treeview. destruct (data_rows preview); [|done].
  intros H. apply run_bind_Some in H as (p1 & t1 & t2 & H1 & H2 & _).
  apply approved_set_encoding in H1. injection H2 as <- _.
  etrans; [|exact H1]. done.
Qed.

Lemma approved_handler s preview preview' t :
  s ≠ Sig_ok_clicked →
  handler M deliver s preview = Some (preview', t) →
  approved preview' = approved preview.
Proof.
  intros Hs. destruct s as [widget|enc| |renderer new_text| |]; simpl; [..|done|].
  - unfold sep_button_clicked.
    destruct (gnc_csv_parse M _ false) as [pd [e|]].
    + intros H. apply run_bind_Some in H as (_ & t1 & t2 & _ & H & _).
      case_decide; [by apply approved_set_text in H
                   |by apply approved_set_active in H].
    + intros H. by apply approved_treeview in H.
  - unfold encoding_selected. case_bool_decide as Hb; [by intros [= <- _]|].
    destruct (encoding_selected_called preview); [|by intros [= <- _]].
    destruct (convert_and_parse M _ enc) as [pd [|]].
    + intros H. apply run_bind_Some in H as (_ & t1 & t2 & _ & H & _).
      by apply approved_set_encoding in H.
    + intros H. apply run_bind_Some in H as (p1 & t1 & t2 & H1 & H2 & _).
      apply approved_treeview in H1. injection H2 as <- _.
      etrans; [|exact H1]. done.
  - by intros [= <- _].
  - unfold column_type_edited.
    destruct (column_type_edited_loop _ _ _ _ _); [|done]. by intros [= <- _].
  - by intros [= <- _].
Qed.

End ApprovalHandlers.

Lemma approved_dispatch (fuel : nat) : keeps_approved (dispatch M fuel).
Proof.
  induction fuel as [|fuel IH]; intros s preview preview' t Hs; [done|].
  by apply approved_handler.
Qed.

Lemma approved_user_action fuel a preview preview' t :
  a ≠ U_ok →
  user_action M fuel a preview = Some (preview', t) →
  approved preview' = approved preview.
Proof.
  pose proof (approved_dispatch fuel) as Hk. intros Ha.
  destruct a; simpl; [..|done|].
  - by apply approved_set_active.
  - by apply approved_set_text.
  - by apply approved_set_encoding.
  - case_bool_decide as Hb; [by intros [= <- _]|].
    intros H. by apply Hk in H.
  - intros H. by apply Hk in H.
  - intros H. by apply Hk in H.
Qed.

Lemma cancel_closes fuel preview preview' t :
  user_action M fuel U_cancel preview = Some (preview', t) →
  dialog preview' = false.
Proof. destruct fuel; [done|]. by intros [= <- _]. Qed.

(** A run of the dialog in which the user clicks "Cancel" without having
    clicked "OK" leaves the approval as it was. *)
Lemma approved_dialog_loop fuel before rest preview preview' t :
  U_ok ∉ before →
  dialog_loop M fuel (before ++ U_cancel :: rest) preview = Some (preview', t) →
  approved preview' = approved preview.
Proof.
  revert preview t. induction before as [|a before IH]; intros preview t Hok Hrun;
    simpl in Hrun; apply run_bind_Some in Hrun as (p1 & t1 & t2 & H1 & H2 & _).
  - rewrite (cancel_closes _ _ _ _ H1) in H2. injection H2 as <- _.
    by apply (approved_user_action fuel U_cancel) in H1.
  - apply not_elem_of_cons in Hok as [Ha Hok].
    apply approved_user_action in H1; [|done]. rewrite <- H1.
    destruct (dialog p1); [by eapply IH|by injection H2 as <- _].
Qed.

Lemma preview_cancelled fuel before rest preview parse_data result t :
  U_ok ∉ before →
  gnc_csv_preview M fuel (before ++ U_cancel :: rest) preview parse_data
  = Some (result, t) →
  result.2 = 1%Z.
Proof.
  intros Hok H. unfold gnc_csv_preview in H.
  apply run_bind_Some in H as (p1 & t1 & t2 & H1 & H2 & _).
  apply run_bind_Some in H2 as (p2 & t3 & t4 & H2 & H3 & _).
  apply approved_treeview in H1; [|apply approved_dispatch].
  unfold gtk_dialog_run in H2.
  apply run_bind_Some in H2 as (_ & t5 & t6 & _ & H2 & _).
  apply approved_dialog_loop in H2; [|done].
  injection H3 as <- _. simpl in *. rewrite H1 in H2. by rewrite H2.
Qed.

End Approval.

(** With no fuel no action of the user closes the dialog. *)
Lemma dialog_loop_no_fuel (M : GncCsvModel) (session : list UserAction)
    (preview : GncCsvPreview) :
  dialog preview = true →
  dialog_loop M 0 session preview = None.
Proof.
  revert preview. induction session as [|a session IH]; intros preview Hd;
    [done|]. simpl.
  destruct a; simpl; try done.
  - unfold gtk_toggle_button_set_active.
    case_bool_decide as Hb; [by destruct (negb_ne _ Hb)|done].
  - unfold gtk_entry_set_text. case_bool_decide as Hb; [|done].
    rewrite run_bind_ret_l, Hd. by apply IH.
  - case_bool_decide as Hb; [|done]. rewrite run_bind_ret_l, Hd. by apply IH.
Qed.

Lemma gtk_dialog_run_no_fuel (M : GncCsvModel) (session : list UserAction)
    (preview : GncCsvPreview) :
  gtk_dialog_run M 0 session preview = None.
Proof.
  unfold gtk_dialog_run. simpl. by rewrite dialog_loop_no_fuel.
Qed.

(** The rows [gnc_csv_preview_treeview] shows for the lines with errors. *)
Lemma error_rows_Some (pd : GncCsvParseData) (store : list (list string)) :
  error_rows pd = Some store ↔ error_lines_rows pd store.
Proof.
  unfold error_rows, error_lines_rows, store_row. rewrite mapM_Some.
  split; intros H; (eapply Forall2_impl; [exact H|]); intros i row.
  - intros Hrow. apply fmap_Some in Hrow as (line & Hline & ->).
    by exists line.
  - intros (line & Hline & ->). by rewrite Hline.
Qed.

(** The dialog that shows the lines with errors shows those lines only. *)
Lemma gnc_csv_preview_errors_run (M : GncCsvModel) (fuel : nat)
    (session : list UserAction) (preview shown : GncCsvPreview)
    (user_canceled : Z) (t : list Event) :
  gnc_csv_preview_errors M fuel session preview
  = Some ((shown, user_canceled), t) ↔
  ∃ store,
    error_rows (parse_data preview) = Some store
    ∧ gtk_dialog_run M fuel session (error_view store preview) = Some (shown, t)
    ∧ user_canceled = (if approved shown then 0%Z else 1%Z).
Proof.
  unfold gnc_csv_preview_errors. destruct fuel as [|fuel].
  { split.
    - intros H. apply run_bind_Some in H as (? & ? & ? & H & _).
      unfold gnc_csv_preview_treeview in H.
      destruct (data_rows _); [|done].
      apply run_bind_Some in H as (? & ? & ? & H & _). done.
    - intros (store & _ & H & _). by rewrite gtk_dialog_run_no_fuel in H. }
  destruct (error_rows (parse_data preview)) as [store|] eqn:Hrows.
  - erewrite gnc_csv_preview_treeview_run by exact Hrows.
    rewrite run_bind_done. fold (error_view store preview). split.
    + intros H. apply run_bind_Some in H as (p1 & t1 & t2 & H1 & H2 & ->).
      injection H2 as <- <- <-. exists store. by rewrite app_nil_r.
    + intros (store' & [= <-] & H & ->). rewrite H. simpl.
      by rewrite app_nil_r.
  - split; [|by intros (? & ? & _)].
    unfold gnc_csv_preview_treeview, data_rows. simpl. by rewrite Hrows.
Qed.

(** *** The calls of [encoding_selected] are counted *)

Section Idle.

Context (M : GncCsvModel).

Section IdleHandlers.

Variable deliver : Signal → GncCsvPreview → Run GncCsvPreview.
Hypothesis deliver_counts : counts_calls deliver.

Lemma calls_set_encoding enc preview preview' t :
  code_encoding_calls preview = 0%Z ∨ code_encoding_calls preview = 2%Z →
  go_charmap_sel_set_encoding deliver enc preview = Some (preview', t) →
  code_encoding_calls preview' = 0%Z
  ∧ encoding_selected_called preview' = encoding_selected_called preview.
Proof.
  destruct deliver_counts as (_ & Hzero & Hpos).
  intros Hcalls Hrun. unfold go_charmap_sel_set_encoding in Hrun.
  apply run_bind_Some in Hrun as (p1 & t1 & t2 & H1 & H2 & _).
  destruct Hcalls as [Hcalls|Hcalls].
  - apply Hzero in H1 as [Hc1 Hf1]; [|done].
    apply Hzero in H2 as [Hc2 Hf2]; [|done].
    split; [done|]. rewrite Hf2, Hf1. simpl. apply negb_involutive.
  - apply Hpos in H1 as [Hc1 Hf1]; [|simpl; lia]. simpl in Hc1, Hf1.
    apply Hpos in H2 as [Hc2 Hf2]; [|lia].
    split; [lia|]. by rewrite Hf2, Hf1.
Qed.

Lemma calls_treeview preview notEmpty preview' t :
  gnc_csv_preview_treeview deliver preview notEmpty = Some (preview', t) →
  code_encoding_calls preview' = 0%Z
  ∧ encoding_selected_called preview' = encoding_selected_called preview.
Proof.
  unfold gnc_csv_preview_treeview. destruct (data_rows preview); [|done].
  intros Hrun. apply run_bind_Some in Hrun as (p1 & t1 & t2 & H1 & H2 & _).
  apply calls_set_encoding in H1; [|by right]. by injection H2 as <- _.
Qed.

Lemma counts_calls_handler : counts_calls (handler M deliver).
Proof.
  pose proof deliver_counts as (Hother & _ & _). split_and!.
  - intros s preview preview' t Hs [Hcalls Hflag].
    destruct s as [widget|enc| |renderer new_text| |]; simpl.
    + unfold sep_button_clicked.
      destruct (gnc_csv_parse M _ false) as [pd [e|]].
      * intros Hrun. apply run_bind_Some in Hrun as (_ & t1 & t2 & _ & Hrun & _).
        case_decide.
        -- unfold gtk_entry_set_text in Hrun.
           case_bool_decide as Hb; [by injection Hrun as <- _|].
           by apply Hother in Hrun.
        -- unfold gtk_toggle_button_set_active in Hrun.
           case_bool_decide as Hb; [by injection Hrun as <- _|].
           apply Hother in Hrun; [done|done|]. by destruct widget.
      * intros Hrun. apply calls_treeview in Hrun as [? Hf]. split; [done|].
        by rewrite Hf.
    + by destruct (Hs enc).
    + by intros [= <- _].
    + unfold column_type_edited.
      destruct (column_type_edited_loop _ _ _ _ _); [|done]. by intros [= <- _].
    + unfold ok_button_clicked.
      destruct (ok_button_loop _ _ _ _); [|done]. by intros [= <- _].
    + by intros [= <- _].
  - intros enc preview preview' t Hcalls. simpl. unfold encoding_selected.
    rewrite Hcalls. rewrite bool_decide_eq_false_2 by lia.
    destruct (encoding_selected_called preview) eqn:Hflag;
      [|by intros [= <- _]].
    destruct (convert_and_parse M _ enc) as [pd [|]].
    + intros Hrun. apply run_bind_Some in Hrun as (_ & t1 & t2 & _ & Hrun & _).
      apply calls_set_encoding in Hrun; [done|by left].
    + intros Hrun. apply run_bind_Some in Hrun as (p1 & t1 & t2 & H1 & H2 & _).
      apply calls_treeview in H1 as [? ?]. by injection H2 as <- _.
  - intros enc preview preview' t Hcalls. simpl. unfold encoding_selected.
    rewrite bool_decide_eq_true_2 by done. by intros [= <- _].
Qed.

End IdleHandlers.

Lemma counts_calls_dispatch (fuel : nat) : counts_calls (dispatch M fuel).
Proof.
  induction fuel as [|fuel IH]; [by split_and!|].
  by apply counts_calls_handler.
Qed.

(** Whatever the user does, no call of [encoding_selected] is pending when
    the next action comes. *)
Lemma idle_user_action fuel a preview preview' t :
  idle preview →
  user_action M fuel a preview = Some (preview', t) →
  idle preview'.
Proof.
  pose proof (counts_calls_dispatch fuel) as Hcounts.
  pose proof Hcounts as (Hother & _ & _).
  intros Hidle. destruct a; simpl.
  - unfold gtk_toggle_button_set_active.
    case_bool_decide as Hb; [by intros [= <- _]|].
    intros Hrun. apply Hother in Hrun; [done|done|]. by destruct widget.
  - unfold gtk_entry_set_text.
    case_bool_decide as Hb; [by intros [= <- _]|].
    intros Hrun. by apply Hother in Hrun.
  - intros Hrun. destruct Hidle as [Hcalls Hflag].
    apply (calls_set_encoding _ Hcounts) in Hrun as [? Hf]; [|by left].
    split; [done|]. by rewrite Hf.
  - case_bool_decide as Hb; [by intros [= <- _]|].
    intros Hrun. by apply Hother in Hrun.
  - intros Hrun. by apply Hother in Hrun.
  - intros Hrun. by apply Hother in Hrun.
  - intros Hrun. by apply Hother in Hrun.
Qed.

Lemma idle_dialog_loop fuel session preview preview' t :
  idle preview →
  dialog_loop M fuel session preview = Some (preview', t) →
  idle preview'.
Proof.
  revert preview t. induction session as [|a session IH]; intros preview t Hidle;
    [done|]. simpl. intros Hrun.
  apply run_bind_Some in Hrun as (p1 & t1 & t2 & H1 & H2 & _).
  apply idle_user_action in H1; [|done].
  destruct (dialog p1); [by eapply IH|by injection H2 as <- _].
Qed.

(** When the dialog comes up after a refresh, no call is pending. *)
Lemma idle_after_treeview fuel preview notEmpty preview' t :
  encoding_selected_called preview = false →
  gnc_csv_preview_treeview (dispatch M fuel) preview notEmpty
  = Some (preview', t) →
  idle preview'.
Proof.
  intros Hflag Hrun.
  apply (calls_treeview _ (counts_calls_dispatch fuel)) in Hrun as [? Hf].
  split; [done|]. by rewrite Hf.
Qed.

End Idle.

(** *** The dialogs leave the transactions as they are *)

Section Built.

Context (M : GncCsvModel).
Hypothesis parser_keeps : keeps_transactions M.

Lemma built_convert_and_parse pd enc pd' failed :
  convert_and_parse M pd enc = (pd', failed) →
  transactions pd' = transactions pd.
Proof.
  destruct parser_keeps as (Hparse & Hconvert & _). unfold convert_and_parse.
  destruct (gnc_csv_convert_encoding M pd enc) as [pd1 [e|]] eqn:E1.
  - intros [= <- _]. by eapply Hconvert.
  - destruct (gnc_csv_parse M pd1 false) as [pd2 error] eqn:E2.
    intros [= <- _]. rewrite (Hparse _ _ _ _ E2). by eapply Hconvert.
Qed.

Section BuiltHandlers.

Variable deliver : Signal → GncCsvPreview → Run GncCsvPreview.
Hypothesis deliver_keeps : keeps_built deliver.

Lemma built_set_active widget is_active preview preview' t :
  gtk_toggle_button_set_active deliver widget is_active preview
  = Some (preview', t) →
  transactions (parse_data preview') = transactions (parse_data preview).
Proof.
  unfold gtk_toggle_button_set_active. case_bool_decide as Hb.
  - by intros [= <- _].
  - intros H. apply deliver_keeps in H. by destruct widget.
Qed.

Lemma built_set_text text preview preview' t :
  gtk_entry_set_text deliver text preview = Some (preview', t) →
  transactions (parse_data preview') = transactions (parse_data preview).
Proof.
  unfold gtk_entry_set_text. case_bool_decide as Hb.
  - by intros [= <- _].
  - intros H. by apply deliver_keeps in H.
Qed.

Lemma built_set_encoding enc preview preview' t :
  go_charmap_sel_set_encoding deliver enc preview = Some (preview', t) →
  transactions (parse_data preview') = transactions (parse_data preview).
Proof.
  unfold go_charmap_sel_set_encoding. intros H.
  apply run_bind_Some in H as (p1 & t1 & t2 & H1 & H2 & _).
  apply deliver_keeps in H1. apply deliver_keeps in H2.
  etrans; [exact H2|exact H1].
Qed.

Lemma built_treeview preview notEmpty preview' t :
  gnc_csv_preview_treeview deliver preview notEmpty = Some (preview', t) →
  transactions (parse_data preview') = transactions (parse_data preview).
Proof.
  unfold gnc_csv_preview_treeview. destruct (data_rows preview); [|done].
  intros H. apply run_bind_Some in H as (p1 & t1 & t2 & H1 & H2 & _).
  apply built_set_encoding in H1. injection H2 as <- _.
  etrans; [|exact H1]. done.
Qed.

Lemma built_handler : keeps_built (handler M deliver).
Proof.
  pose proof parser_keeps as (Hparse & _ & _).
  intros s preview preview' t.
  destruct s as [widget|enc| |renderer new_text| |]; simpl.
  - unfold sep_button_clicked.
    destruct (gnc_csv_parse M _ false) as [pd [e|]] eqn:E;
      apply Hparse in E; simpl in E.
    + intros H. apply run_bind_Some in H as (_ & t1 & t2 & _ & H & _).
      case_decide; [apply built_set_text in H|apply built_set_active in H];
        by rewrite H.
    + intros H. apply built_treeview in H. by rewrite H.
  - unfold encoding_selected. case_bool_decide as Hb; [by intros [= <- _]|].
    destruct (encoding_selected_called preview); [|by intros [= <- _]].
    destruct (convert_and_parse M _ enc) as [pd [|]] eqn:E;
      apply built_convert_and_parse in E.
    + intros H. apply run_bind_Some in H as (_ & t1 & t2 & _ & H & _).
      apply built_set_encoding in H. by rewrite H.
    + intros H. apply run_bind_Some in H as (p1 & t1 & t2 & H1 & H2 & _).
      apply built_treeview in H1. injection H2 as <- _. simpl.
      by rewrite H1.
  - by intros [= <- _].
  - unfold column_type_edited.
    destruct (column_type_edited_loop _ _ _ _ _); [|done]. by intros [= <- _].
  - unfold ok_button_clicked.
    destruct (ok_button_loop _ _ _ _); [|done]. by intros [= <- _].
  - by intros [= <- _].
Qed.

End BuiltHandlers.

Lemma built_dispatch (fuel : nat) : keeps_built (dispatch M fuel).
Proof.
  induction fuel as [|fuel IH]; [done|]. by apply built_handler.
Qed.

Lemma built_user_action fuel a preview preview' t :
  user_action M fuel a preview = Some (preview', t) →
  transactions (parse_data preview') = transactions (parse_data preview).
Proof.
  pose proof (built_dispatch fuel) as Hk. destruct a; simpl.
  - by apply built_set_active.
  - by apply built_set_text.
  - by apply built_set_encoding.
  - case_bool_decide as Hb; [by intros [= <- _]|].
    intros H. by apply Hk in H.
  - apply Hk.
  - apply Hk.
  - apply Hk.
Qed.

Lemma built_dialog_loop fuel session preview preview' t :
  dialog_loop M fuel session preview = Some (preview', t) →
  transactions (parse_data preview') = transactions (parse_data preview).
Proof.
  revert preview t. induction session as [|a session IH]; intros preview t;
    [done|]. simpl. intros Hrun.
  apply run_bind_Some in Hrun as (p1 & t1 & t2 & H1 & H2 & _).
  apply built_user_action in H1. rewrite <- H1.
  destruct (dialog p1); [by eapply IH|by injection H2 as <- _].
Qed.

Lemma built_dialog_run fuel session preview preview' t :
  gtk_dialog_run M fuel session preview = Some (preview', t) →
  transactions (parse_data preview') = transactions (parse_data preview).
Proof.
  unfold gtk_dialog_run. intros H.
  apply run_bind_Some in H as (_ & t1 & t2 & _ & H & _).
  by apply built_dialog_loop in H.
Qed.

End Built.

(** *** The import *)

Section ImportRun.

Context (M : GncCsvModel).
Variable fuel : nat.

Lemma error_loop_cycle (account : Account) (sessions : list (list UserAction))
    (user_canceled : Z) (preview final : GncCsvPreview) (t : list Event) :
  error_loop M fuel sessions account user_canceled preview = Some (final, t) ↔
  correction_cycle M fuel account sessions user_canceled preview final t.
Proof.
  split.
  - revert user_canceled preview t.
    induction sessions as [|session sessions IH]; intros c preview t; simpl.
    + destruct (bool_decide _ || bool_decide _) eqn:E; [|done].
      intros [= <- <-]. constructor.
      apply orb_true_iff in E as [E|E]; apply bool_decide_eq_true in E; auto.
    + destruct (bool_decide _ || bool_decide _) eqn:E.
      { intros [= <- <-]. constructor.
        apply orb_true_iff in E as [E|E]; apply bool_decide_eq_true in E; auto. }
      apply orb_false_iff in E as [E1 E2].
      apply bool_decide_eq_false in E1, E2.
      assert (c = 0%Z) as -> by (destruct (decide (c = 0%Z)); done).
      intros H.
      apply run_bind_Some in H as ([shown c'] & t1 & t' & Hshow & H & ->).
      apply gnc_csv_preview_errors_run in Hshow as (store & Hrows & Hrun & ->).
      apply error_rows_Some in Hrows.
      destruct (error_loop M fuel sessions account _ _) as [[b t2]|] eqn:Hl;
        [|done].
      injection H as <- <-.
      eapply cycle_round; [done|done|done|]. by apply IH.
  - induction 1 as [sessions c preview Hover
                   |session sessions preview store shown t1 final t2
                      Herr Hrows Hrun _ IH].
    + assert (bool_decide (error_lines (parse_data preview) = [])
              || bool_decide (c ≠ 0%Z) = true) as E.
      { apply orb_true_iff.
        destruct Hover; [left|right]; by apply bool_decide_eq_true. }
      destruct sessions; simpl; by rewrite E.
    + simpl. rewrite bool_decide_eq_false_2 by done. cbn [orb].
      apply error_rows_Some in Hrows.
      rewrite (proj2 (gnc_csv_preview_errors_run M fuel session preview shown
                        (if approved shown then 0%Z else 1%Z) t1))
        by by exists store.
      simpl. unfold rebuilt in IH. by rewrite IH.
Qed.

Lemma add_transactions_run (transactions : list GncCsvTransLine) :
  add_transactions transactions
  = Some (tt, (λ line, Ev_gen_trans_list_add_trans (trans line))
                <$> transactions).
Proof.
  induction transactions as [|line transactions IH]; simpl; [done|].
  by rewrite IH.
Qed.

(** The import from the parse of the loaded data to the first run of the
    preview dialog. *)
Lemma import_loaded_cancelled (xml : GladeXML) (user : User)
    (pd pd' : GncCsvParseData) (perror : option GError)
    (preview' : GncCsvPreview) (not_approved : Z) (t : list Event) :
  gnc_csv_parse M pd true = (pd', perror) →
  gnc_csv_preview M fuel (preview_session user) (gnc_csv_preview_new xml pd') pd'
  = Some ((preview', not_approved), t) →
  not_approved ≠ 0%Z →
  import_loaded M fuel xml user pd
  = Some (tt, (option_list (Ev_error_dialog ∘ message <$> perror) ++ t)
              ++ [Ev_preview_free; Ev_parse_data_free (parse_data preview')]).
Proof.
  intros Hparse Hpreview Hcancel. unfold import_loaded. rewrite Hparse.
  destruct perror as [e|]; simpl; rewrite Hpreview; simpl;
    rewrite bool_decide_eq_true_2 by done; simpl;
    by rewrite <- ?app_assoc.
Qed.

Lemma import_loaded_approved (xml : GladeXML) (user : User)
    (pd pd' : GncCsvParseData) (perror : option GError)
    (preview1 final : GncCsvPreview) (account : Account) (t1 t2 : list Event) :
  gnc_csv_parse M pd true = (pd', perror) →
  gnc_csv_preview M fuel (preview_session user) (gnc_csv_preview_new xml pd') pd'
  = Some ((preview1, 0%Z), t1) →
  gnc_import_select_account user = Some account →
  error_loop M fuel (error_sessions user) account 0
    (set_parse_data (gnc_parse_to_trans M (parse_data preview1) account false)
       preview1)
  = Some (final, t2) →
  import_loaded M fuel xml user pd
  = Some (tt, (option_list (Ev_error_dialog ∘ message <$> perror) ++ t1)
              ++ Ev_parse_to_trans false :: t2 ++ hand_off (parse_data final)).
Proof.
  intros Hparse Hpreview Haccount Hloop. unfold import_loaded. rewrite Hparse.
  assert (∀ l : list GncCsvTransLine,
            (if bool_decide (l ≠ [])
             then log Ev_gen_trans_list_run else log Ev_gen_trans_list_delete)
            = log (match l with
                   | [] => Ev_gen_trans_list_delete
                   | _ :: _ => Ev_gen_trans_list_run
                   end)) as Hrun by (by intros [|? ?]).
  destruct perror as [e|]; simpl; rewrite Hpreview; simpl;
    rewrite Haccount; simpl; rewrite Hloop; simpl;
    rewrite add_transactions_run, Hrun; simpl; unfold hand_off;
    by rewrite <- ?app_assoc.
Qed.

(** When the import gets past the parse of the loaded data, the preview
    dialog is run on all the lines. *)
Lemma import_loaded_runs_dialog (xml : GladeXML) (user : User)
    (pd : GncCsvParseData) (t : list Event) :
  import_loaded M fuel xml user pd = Some (tt, t) →
  Ev_dialog_run false ∈ t.
Proof.
  unfold import_loaded.
  destruct (gnc_csv_parse M pd true) as [pd' perror].
  intros H. apply run_bind_Some in H as (_ & t0 & t1 & _ & H & ->).
  apply run_bind_Some in H as ([preview nok] & t2 & t3 & H & _ & ->).
  apply elem_of_app. right. apply elem_of_app. left.
  unfold gnc_csv_preview in H. destruct fuel as [|fuel'].
  { apply run_bind_Some in H as (? & ? & ? & H & _).
    unfold gnc_csv_preview_treeview in H.
    destruct (data_rows _); [|done].
    apply run_bind_Some in H as (? & ? & ? & H & _). done. }
  erewrite gnc_csv_preview_treeview_run in H by done.
  rewrite run_bind_done in H.
  apply run_bind_Some in H as (p2 & t4 & t5 & H & _ & Ht2).
  unfold gtk_dialog_run in H.
  apply run_bind_Some in H as (u & t6 & t7 & H & _ & Ht4).
  injection H as _ <-. subst. simpl. by constructor.
Qed.

Lemma preview_runs_dialog (session : list UserAction) (preview : GncCsvPreview)
    (parse_data : GncCsvParseData) (result : GncCsvPreview * Z)
    (t : list Event) :
  gnc_csv_preview M fuel session preview parse_data = Some (result, t) →
  Ev_dialog_run false ∈ t.
Proof.
  intros H. unfold gnc_csv_preview in H.
  apply run_bind_Some in H as (p1 & t1 & t2 & H1 & H2 & ->).
  apply run_bind_Some in H2 as (p2 & t3 & t4 & H2 & _ & ->).
  apply elem_of_app. right. apply elem_of_app. left.
  unfold gnc_csv_preview_treeview in H1.
  destruct (data_rows _) as [store|]; [|done].
  apply run_bind_Some in H1 as (p0 & t5 & t6 & H0 & H1 & _).
  injection H1 as <- _.
  assert (previewing_errors p0 = false) as Herrors.
  { unfold go_charmap_sel_set_encoding in H0.
    apply run_bind_Some in H0 as (q1 & u1 & u2 & Hq1 & Hq2 & _).
    destruct fuel as [|fuel']; [done|]. simpl in Hq1, Hq2.
    rewrite encoding_selected_code_caused in Hq1 by (simpl; lia).
    injection Hq1 as <- _.
    rewrite encoding_selected_code_caused in Hq2 by (simpl; lia).
    by injection Hq2 as <- _. }
  unfold gtk_dialog_run in H2.
  apply run_bind_Some in H2 as (u & t7 & t8 & H2 & _ & ->).
  injection H2 as _ <-. simpl. rewrite Herrors. by constructor.
Qed.

Lemma import_loaded_no_account (xml : GladeXML) (user : User)
    (pd pd' : GncCsvParseData) (perror : option GError)
    (preview1 : GncCsvPreview) (t1 : list Event) :
  gnc_csv_parse M pd true = (pd', perror) →
  gnc_csv_preview M fuel (preview_session user) (gnc_csv_preview_new xml pd') pd'
  = Some ((preview1, 0%Z), t1) →
  gnc_import_select_account user = None →
  import_loaded M fuel xml user pd
  = Some (tt, (option_list (Ev_error_dialog ∘ message <$> perror) ++ t1)
              ++ [Ev_preview_free; Ev_parse_data_free (parse_data preview1)]).
Proof.
  intros Hparse Hpreview Haccount. unfold import_loaded. rewrite Hparse.
  destruct perror as [e|]; simpl; rewrite Hpreview; simpl;
    rewrite Haccount; simpl; by rewrite <- ?app_assoc.
Qed.

(** C7. The file the user selected could not be loaded. If it could not be
    opened, the import shows the error, frees the parse data and returns:
    nothing else happens. For any other error, the encoding that could not
    be guessed among them, the import shows the error and goes on with the
    parse data as the loader left it: it parses that data, showing the
    error of the parse if there is one, and runs the preview on the result.
    From there on the import is what it is after a load without error: it
    returns only if the preview does; if the user does not approve the
    preview or selects no account, it frees the preview and the parse data
    and returns; otherwise it builds the transactions, and returns exactly
    when the error-correction loop does, with the hand-off at the end. *)
Theorem load_file_errors (xml : GladeXML) (user : User) (filename : string)
    (pd : GncCsvParseData) (e : GError) :
  gnc_file_dialog user = Some filename →
  gnc_csv_load_file M (gnc_csv_new_parse_data M) filename = (pd, Some e) →
  (code e = GNC_CSV_FILE_OPEN_ERR →
   gnc_file_csv_import M fuel xml user
   = Some (tt, [Ev_error_dialog (message e); Ev_parse_data_free pd]))
  ∧ (code e ≠ GNC_CSV_FILE_OPEN_ERR →
     ∀ pd' perror,
       gnc_csv_parse M pd true = (pd', perror) →
       let surfaced :=
         Ev_error_dialog (message e)
         :: option_list (Ev_error_dialog ∘ message <$> perror) in
       let first_preview :=
         gnc_csv_preview M fuel (preview_session user)
           (gnc_csv_preview_new xml pd') pd' in
       (first_preview = None → gnc_file_csv_import M fuel xml user = None)
       ∧ ∀ preview not_approved t1,
           first_preview = Some ((preview, not_approved), t1) →
           Ev_dialog_run false ∈ t1
           ∧ (not_approved ≠ 0%Z ∨ gnc_import_select_account user = None →
              gnc_file_csv_import M fuel xml user
              = Some (tt, surfaced ++ t1
                            ++ [Ev_preview_free;
                                Ev_parse_data_free (parse_data preview)]))
           ∧ ∀ account,
               not_approved = 0%Z →
               gnc_import_select_account user = Some account →
               gnc_file_csv_import M fuel xml user
               = match
                   error_loop M fuel (error_sessions user) account 0
                     (set_parse_data
                        (gnc_parse_to_trans M (parse_data preview) account
                           false) preview)
                 with
                 | None => None
                 | Some (final, t2) =>
                     Some (tt, surfaced ++ t1
                                 ++ Ev_parse_to_trans false :: t2
                                 ++ hand_off (parse_data final))
                 end).
Proof.
  intros Hfile Hload. unfold gnc_file_csv_import. rewrite Hfile, Hload.
  split; intros Hcode.
  - by rewrite decide_True by done.
  - rewrite decide_False by done.
    intros pd' perror Hparse.
    assert (∀ r : Run unit,
              gnc_error_dialog (message e) ≫= (λ _, r)
              = match r with
                | None => None
                | Some (u, t) => Some (u, Ev_error_dialog (message e) :: t)
                end) as Hbind by (by intros [[[] t]|]).
    rewrite Hbind. split.
    + intros Hnone. unfold import_loaded. rewrite Hparse.
      destruct perror; simpl; by rewrite Hnone.
    + intros preview not_approved t1 Hpreview.
      split; [by eapply preview_runs_dialog|]. split.
      * intros Hstop.
        destruct (decide (not_approved = 0%Z)) as [->|Hcancel].
        -- destruct Hstop as [?|Haccount]; [done|].
           rewrite (import_loaded_no_account xml user _ _ _ _ _
                      Hparse Hpreview Haccount).
           by rewrite <- app_assoc.
        -- rewrite (import_loaded_cancelled xml user _ _ _ _ _ _
                      Hparse Hpreview Hcancel).
           by rewrite <- app_assoc.
      * intros account -> Haccount.
        destruct (error_loop M fuel (error_sessions user) account 0 _)
          as [[final t2]|] eqn:Hloop.
        -- rewrite (import_loaded_approved xml user _ _ _ _ _ _ _ _
                      Hparse Hpreview Haccount Hloop).
           by rewrite <- app_assoc.
        -- unfold import_loaded. rewrite Hparse.
           destruct perror; simpl; rewrite Hpreview; simpl;
             rewrite Haccount; simpl; by rewrite Hloop.
Qed.

(** C8. At the first run of the preview dialog the user clicks "Cancel"
    without having clicked "OK", and the dialog returns. Then the import
    returns; all it has done before it frees the preview and the parse data
    is to show dialogs, so the step that builds transactions has not been
    reached and the generic importer has not been created; and the last
    thing it does is to free the parse data. *)
Theorem cancel_at_first_preview (xml : GladeXML) (user : User)
    (filename : string) (pd pd' : GncCsvParseData)
    (error perror : option GError) (before rest : list UserAction)
    (result : GncCsvPreview * Z) (t : list Event) :
  gnc_file_dialog user = Some filename →
  gnc_csv_load_file M (gnc_csv_new_parse_data M) filename = (pd, error) →
  code <$> error ≠ Some GNC_CSV_FILE_OPEN_ERR →
  gnc_csv_parse M pd true = (pd', perror) →
  preview_session user = before ++ U_cancel :: rest →
  U_ok ∉ before →
  gnc_csv_preview M fuel (preview_session user) (gnc_csv_preview_new xml pd') pd'
  = Some (result, t) →
  ∃ shown,
    gnc_file_csv_import M fuel xml user
    = Some (tt, shown ++ [Ev_preview_free;
                          Ev_parse_data_free (parse_data result.1)])
    ∧ Forall is_dialog_event shown.
Proof.
  intros Hfile Hload Hcode Hparse Hsession Hok Hpreview.
  destruct result as [preview' not_approved].
  assert (not_approved ≠ 0%Z) as Hcancel.
  { rewrite Hsession in Hpreview.
    by rewrite (preview_cancelled M _ _ _ _ _ _ _ Hok Hpreview : not_approved = _). }
  pose proof (import_loaded_cancelled xml user _ _ _ _ _ _
                Hparse Hpreview Hcancel) as Himport.
  pose proof (quiet_preview _ _ _ _ _ _ _ Hpreview) as Hquiet.
  assert (Forall is_dialog_event
            (option_list (Ev_error_dialog ∘ message <$> perror) ++ t)) as Hq.
  { apply Forall_app. split; [|done]. destruct perror; by repeat constructor. }
  unfold gnc_file_csv_import. rewrite Hfile, Hload.
  destruct error as [e|].
  - rewrite decide_False by (intros He; apply Hcode; simpl; by rewrite He).
    rewrite Himport. simpl. eexists (_ :: _). split; [done|].
    by constructor.
  - rewrite Himport. by eexists.
Qed.

(** The cycle stops for want of errors or because the user has cancelled
    the last dialog. *)
Lemma correction_cycle_stops (account : Account)
    (sessions : list (list UserAction)) (user_canceled : Z)
    (preview final : GncCsvPreview) (t : list Event) :
  correction_cycle M fuel account sessions user_canceled preview final t →
  user_canceled = (if approved preview then 0%Z else 1%Z) →
  error_lines (parse_data final) = [] ∨ approved final = false.
Proof.
  induction 1 as [sessions c preview Hover
                 |session sessions preview store shown t1 final t2
                    _ _ _ _ IH].
  - intros ->. destruct Hover as [?|Hc]; [by left|right].
    by destruct (approved preview).
  - intros _. by apply IH.
Qed.

(** With a parser that keeps the transactions it has built, the cycle
    loses none. *)
Lemma correction_cycle_keeps (account : Account)
    (sessions : list (list UserAction)) (user_canceled : Z)
    (preview final : GncCsvPreview) (t : list Event) :
  keeps_transactions M →
  correction_cycle M fuel account sessions user_canceled preview final t →
  transactions (parse_data preview) ⊆ transactions (parse_data final).
Proof.
  intros HM.
  induction 1 as [sessions c preview Hover
                 |session sessions preview store shown t1 final t2
                    _ _ Hrun _ IH]; [done|].
  apply (built_dialog_run M HM) in Hrun. simpl in Hrun.
  etrans; [|exact IH]. unfold rebuilt. simpl. rewrite <- Hrun.
  by destruct HM as (_ & _ & Hredo).
Qed.

Lemma preview_approved (session : list UserAction) (preview : GncCsvPreview)
    (parse_data : GncCsvParseData) (preview' : GncCsvPreview)
    (t : list Event) :
  gnc_csv_preview M fuel session preview parse_data
  = Some ((preview', 0%Z), t) →
  approved preview' = true.
Proof.
  unfold gnc_csv_preview. intros H.
  apply run_bind_Some in H as (p1 & t1 & t2 & _ & H & _).
  apply run_bind_Some in H as (p2 & t3 & t4 & _ & H & _).
  injection H as <- H _. by destruct (approved p2).
Qed.

(** C4. The user has approved the first preview and selected an account,
    and the transactions have been built. Then the loop of the import is
    the error-correction cycle, and returns exactly when the cycle comes to
    an end: while some line has an error and the user has not cancelled,
    the dialog shows the lines with errors and only those, the user adjusts
    the configuration and confirms or cancels, and the transactions of the
    lines with errors are built again. When the cycle is over, no line has
    an error or the user has cancelled the last dialog. Whichever it is,
    the import then returns: it hands over every transaction the parse data
    holds, runs the generic importer when there is at least one transaction
    and deletes it when there is none, and frees the preview and the parse
    data. With a parser that keeps the transactions it has built, every
    transaction built before the cycle is among those handed over: a
    cancellation drops the lines that still have errors, and nothing
    else. *)
Theorem correction_cycle_then_hand_off (xml : GladeXML) (user : User)
    (filename : string) (pd pd' : GncCsvParseData)
    (error perror : option GError) (preview1 : GncCsvPreview)
    (account : Account) (t1 : list Event) :
  gnc_file_dialog user = Some filename →
  gnc_csv_load_file M (gnc_csv_new_parse_data M) filename = (pd, error) →
  code <$> error ≠ Some GNC_CSV_FILE_OPEN_ERR →
  gnc_csv_parse M pd true = (pd', perror) →
  gnc_csv_preview M fuel (preview_session user) (gnc_csv_preview_new xml pd') pd'
  = Some ((preview1, 0%Z), t1) →
  gnc_import_select_account user = Some account →
  let built :=
    set_parse_data (gnc_parse_to_trans M (parse_data preview1) account false)
      preview1 in
  ∀ final t2,
    (error_loop M fuel (error_sessions user) account 0 built = Some (final, t2)
     ↔ correction_cycle M fuel account (error_sessions user) 0 built final t2)
    ∧ (correction_cycle M fuel account (error_sessions user) 0 built final t2 →
       (error_lines (parse_data final) = [] ∨ approved final = false)
       ∧ (∃ shown,
            Forall is_dialog_event shown
            ∧ gnc_file_csv_import M fuel xml user
              = Some (tt, shown ++ Ev_parse_to_trans false :: t2
                            ++ hand_off (parse_data final)))
       ∧ (keeps_transactions M →
          ∀ line, line ∈ transactions (parse_data built) →
                  line ∈ transactions (parse_data final)
                  ∧ Ev_gen_trans_list_add_trans (trans line)
                    ∈ hand_off (parse_data final))).
Proof.
  intros Hfile Hload Hcode Hparse Hpreview Haccount built final t2.
  split; [apply error_loop_cycle|]. intros Hcycle.
  pose proof (proj2 (error_loop_cycle _ _ _ _ _ _) Hcycle) as Hloop.
  split.
  { apply (correction_cycle_stops _ _ _ _ _ _ Hcycle). subst built. simpl.
    by rewrite (preview_approved _ _ _ _ _ Hpreview). }
  split.
  - pose proof (import_loaded_approved xml user _ _ _ _ _ _ _ _
                  Hparse Hpreview Haccount Hloop) as Himport.
    pose proof (quiet_preview _ _ _ _ _ _ _ Hpreview) as Hquiet.
    assert (Forall is_dialog_event
              (option_list (Ev_error_dialog ∘ message <$> perror) ++ t1)) as Hq.
    { apply Forall_app. split; [|done]. destruct perror; by repeat constructor. }
    unfold gnc_file_csv_import. rewrite Hfile, Hload.
    destruct error as [e|].
    + rewrite decide_False by (intros He; apply Hcode; simpl; by rewrite He).
      rewrite Himport. simpl. eexists (_ :: _). split; [|done].
      by constructor.
    + rewrite Himport. by eexists.
  - intros HM line Hline.
    apply (correction_cycle_keeps _ _ _ _ _ _ HM Hcycle) in Hline.
    split; [done|]. unfold hand_off.
    apply elem_of_cons. right. apply elem_of_app. left.
    apply list_elem_of_fmap. by exists line.
Qed.

End ImportRun.

(** *** The import at work *)

Lemma refresh_sets_date_format_witness :
  ∃ preview',
    gnc_csv_preview_treeview (dispatch toy_model 1)
      (set_date_format_combo 1 bank_preview) true
    = Some (preview', [])
    ∧ date_format (parse_data preview') = 1%Z
    ∧ date_format_combo preview' = 1%Z.
Proof.
  apply (proj2 (refresh_sets_date_format toy_model 0
                  (set_date_format_combo 1 bank_preview) true)).
  by eexists.
Defined.

Example typed_preview_columns :
  ctreeview typed_preview = ["Date"; "None"; "Amount"].
Proof. by vm_compute. Qed.

Lemma column_type_edited_no_duplicates_witness :
  ∃ preview',
    column_type_edited 1 "Date" typed_preview = Some (preview', [])
    ∧ ctreeview preview' !! 1 = Some "Date"
    ∧ (∀ j, j ≠ 1 → ctreeview typed_preview !! j = Some "Date" →
            ctreeview preview' !! j = Some "None")
    ∧ (∀ j s, j ≠ 1 → ctreeview typed_preview !! j = Some s → s ≠ "Date" →
              ctreeview preview' !! j = Some s)
    ∧ (∀ j, j ≠ 1 → ctreeview preview' !! j = Some "Date" → "Date" = "None")
    ∧ (no_shared_type (ctreeview typed_preview) →
       no_shared_type (ctreeview preview')).
Proof.
  apply (column_type_edited_no_duplicates 1 "Date" typed_preview).
  - by vm_compute.
  - vm_compute. lia.
Defined.

Example column_type_edited_moves_date :
  (λ r, ctreeview r.1) <$> column_type_edited 1 "Date" typed_preview
  = Some ["None"; "Date"; "Amount"].
Proof. by vm_compute. Qed.

Lemma load_file_errors_witness :
  gnc_file_csv_import toy_model 5 glade lost_user
  = Some (tt, [Ev_error_dialog "File opening failed.";
               Ev_parse_data_free toy_new_parse_data])
  ∧ gnc_file_csv_import toy_model 5 glade puzzled_user
    = Some (tt, [Ev_error_dialog "Unknown encoding."; Ev_dialog_run false;
                 Ev_preview_free;
                 Ev_parse_data_free
                   (set_encoding "ASCII"
                      (toy_parse (set_file_str bank_csv toy_new_parse_data)
                         true).1)]).
Proof.
  split.
  - by apply (proj1 (load_file_errors toy_model 5 glade lost_user "missing.csv"
                       toy_new_parse_data
                       (Error GNC_CSV_FILE_OPEN_ERR "File opening failed.")
                       eq_refl eq_refl)).
  - edestruct (proj2 (load_file_errors toy_model 5 glade puzzled_user "bank.dat"
                        (set_encoding ""
                           (set_file_str bank_csv toy_new_parse_data))
                        (Error GNC_CSV_ENCODING_ERR "Unknown encoding.")
                        eq_refl eq_refl))
      as (_ & Hreturns).
    + done.
    + by vm_compute.
    + edestruct Hreturns as (_ & Hcancelled & _); [by vm_compute|].
      rewrite Hcancelled; [by vm_compute|]. left. done.
Defined.

Example puzzled_user_import :
  snd <$> gnc_file_csv_import toy_model 5 glade puzzled_user
  = Some [Ev_error_dialog "Unknown encoding."; Ev_dialog_run false;
          Ev_preview_free;
          Ev_parse_data_free
            (set_encoding "ASCII"
               (toy_parse (set_file_str bank_csv toy_new_parse_data) true).1)].
Proof. by vm_compute. Qed.

Lemma cancel_at_first_preview_witness :
  ∃ shown,
    gnc_file_csv_import toy_model 5 glade cancelling_user
    = Some (tt, shown ++ [Ev_preview_free;
                          Ev_parse_data_free (parse_data bank_preview)])
    ∧ Forall is_dialog_event shown.
Proof.
  eapply (cancel_at_first_preview toy_model 5 glade cancelling_user "bank.csv"
            _ _ None None [U_toggle (W_sep_button 5)] []
            (set_dialog false (set_dialog true bank_preview), 1%Z)
            [Ev_dialog_run false; Ev_error_dialog "Error in parsing"]).
  - reflexivity.
  - by vm_compute.
  - done.
  - by vm_compute.
  - reflexivity.
  - apply (bool_decide_unpack _). by vm_compute.
  - by vm_compute.
Defined.

Example cancelling_user_import :
  snd <$> gnc_file_csv_import toy_model 5 glade cancelling_user
  = Some [Ev_dialog_run false; Ev_error_dialog "Error in parsing";
          Ev_preview_free; Ev_parse_data_free (parse_data bank_preview)].
Proof. by vm_compute. Qed.

Lemma toy_model_keeps_transactions : keeps_transactions toy_model.
Proof.
  split_and!.
  - intros pd guess pd' error. simpl. unfold toy_parse.
    case_bool_decide; by intros [= <- _].
  - intros pd enc pd' error. simpl. unfold toy_convert_encoding.
    case_bool_decide; by intros [= <- _].
  - intros pd account line Hline. simpl. apply elem_of_app. by left.
Qed.

Lemma correction_cycle_then_hand_off_witness :
  (∃ built final shown,
     correction_cycle toy_model 5 checking [[U_cancel]] 0
       built final [Ev_dialog_run true; Ev_parse_to_trans true]
     ∧ approved final = false
     ∧ error_lines (parse_data final) = [2]
     ∧ Forall is_dialog_event shown
     ∧ gnc_file_csv_import toy_model 5 glade giving_up_user
       = Some (tt, shown ++ Ev_parse_to_trans false
                     :: [Ev_dialog_run true; Ev_parse_to_trans true]
                     ++ hand_off (parse_data final))
     ∧ trans <$> transactions (parse_data built)
       = [Trans 0; Trans 1; Trans 3]
     ∧ (∀ line, line ∈ transactions (parse_data built) →
                line ∈ transactions (parse_data final)
                ∧ Ev_gen_trans_list_add_trans (trans line)
                  ∈ hand_off (parse_data final))
     ∧ hand_off (parse_data final)
       = [Ev_gen_trans_list_new;
          Ev_gen_trans_list_add_trans (Trans 0);
          Ev_gen_trans_list_add_trans (Trans 1);
          Ev_gen_trans_list_add_trans (Trans 3);
          Ev_gen_trans_list_run;
          Ev_preview_free;
          Ev_parse_data_free (parse_data final)])
  ∧ (∃ final shown,
       gnc_file_csv_import toy_model 5 glade hasty_user
       = Some (tt, shown ++ Ev_parse_to_trans false
                     :: [Ev_dialog_run true; Ev_parse_to_trans true]
                     ++ hand_off (parse_data final))
       ∧ error_lines (parse_data final) = [0; 1; 2; 3]
       ∧ approved final = false
       ∧ hand_off (parse_data final)
         = [Ev_gen_trans_list_new; Ev_gen_trans_list_delete;
            Ev_preview_free; Ev_parse_data_free (parse_data final)]).
Proof.
  split.
  - edestruct (correction_cycle_then_hand_off toy_model 5 glade giving_up_user
                 "bank.csv")
      as [[Hcycle _] Hover].
    + reflexivity.
    + by vm_compute.
    + done.
    + by vm_compute.
    + by vm_compute.
    + reflexivity.
    + lapply Hcycle; [clear Hcycle; intros Hcycle|by vm_compute].
      destruct (Hover Hcycle) as (_ & (shown & Hshown & Himport) & Hkept).
      eexists _, _, shown.
      split_and!; [exact Hcycle|by vm_compute|by vm_compute|exact Hshown
                  |exact Himport|by vm_compute
                  |exact (Hkept toy_model_keeps_transactions)|by vm_compute].
  - edestruct (correction_cycle_then_hand_off toy_model 5 glade hasty_user
                 "bank.csv")
      as [[Hcycle _] Hover].
    + reflexivity.
    + by vm_compute.
    + done.
    + by vm_compute.
    + by vm_compute.
    + reflexivity.
    + lapply Hcycle; [clear Hcycle; intros Hcycle|by vm_compute].
      destruct (Hover Hcycle) as (_ & (shown & _ & Himport) & _).
      eexists _, shown.
      split_and!; [exact Himport|by vm_compute..].
Defined.

Example hasty_user_import :
  snd <$> gnc_file_csv_import toy_model 5 glade hasty_user
  = Some [Ev_dialog_run false; Ev_parse_to_trans false;
          Ev_dialog_run true; Ev_parse_to_trans true;
          Ev_gen_trans_list_new; Ev_gen_trans_list_delete;
          Ev_preview_free;
          Ev_parse_data_free
            (toy_parse_to_trans (parse_data bank_preview) checking false)].
Proof. by vm_compute. Qed.

End CsvImportFacts.

(** ** More on the CSV import preview *)
Module CsvImportMore.
Import CsvImport CsvImportFacts.

(** *** The separators *)

Lemma stock_checked_separators_elem (preview : GncCsvPreview) (s : string) :
  s ∈ stock_checked_separators preview ↔
  ∃ i, sep_buttons preview !! i = Some true
       ∧ stock_separator_characters !! i = Some s.
Proof.
  unfold stock_checked_separators.
  rewrite list_elem_of_In, in_flat_map. split.
  - intros (i & _ & Hs). simpl in Hs.
    destruct (sep_buttons preview !! i) as [[|]|] eqn:Hb; simpl in Hs; [|done..].
    exists i. split; [done|].
    destruct (stock_separator_characters !! i) as [c|]; simpl in Hs; [|done].
    by destruct Hs as [->|[]].
  - intros (i & Hb & Hs). exists i. split.
    + apply in_seq. apply lookup_lt_Some in Hs. simpl in Hs.
      unfold SEP_NUM_OF_TYPES. lia.
    + simpl. rewrite Hb, Hs. simpl. by left.
Qed.

(** X6. The separators handed to the parser are the characters of the
    checked separator buttons and, when the custom button is checked and
    the custom entry is not empty, the text of the entry: nothing else, and
    never the empty string. *)
Theorem checked_separators_spec (preview : GncCsvPreview) :
  (∀ s, s ∈ checked_separators preview ↔
        (∃ i, sep_buttons preview !! i = Some true
              ∧ stock_separator_characters !! i = Some s)
        ∨ (custom_cbutton preview = true ∧ s = custom_entry preview ∧ s ≠ ""))
  ∧ "" ∉ checked_separators preview.
Proof.
  assert (∀ s, s ∈ checked_separators preview ↔
            (∃ i, sep_buttons preview !! i = Some true
                  ∧ stock_separator_characters !! i = Some s)
            ∨ (custom_cbutton preview = true ∧ s = custom_entry preview
               ∧ s ≠ "")) as Hspec.
  { intros s. unfold checked_separators. simpl.
    destruct (custom_cbutton preview).
    - case_bool_decide as Hempty.
      + rewrite stock_checked_separators_elem. split; [by left|].
        intros [H|(_ & -> & H)]; done.
      + rewrite elem_of_app, stock_checked_separators_elem, list_elem_of_singleton.
        split; (intros [H| H]; [by left|right]); [by subst|by destruct H as (_ & -> & _)].
    - rewrite stock_checked_separators_elem. split; [by left|].
      by intros [H|(? & _)]. }
  split; [done|]. rewrite Hspec. intros [(i & _ & Hs)|(_ & _ & H)]; [|done].
  do 7 (destruct i as [|i]; [by (discriminate || done)|]). done.
Qed.

(** *** Separator changes that parse, and those that never do *)

Lemma toggled_active (widget : Widget) (preview : GncCsvPreview) :
  is_check_button preview widget →
  gtk_toggle_button_get_active widget (toggled widget preview)
  = negb (gtk_toggle_button_get_active widget preview).
Proof.
  intros Hw. unfold toggled. destruct widget as [i| |]; simpl in *; [|done..].
  by rewrite list_lookup_insert_eq.
Qed.

Lemma toggled_set_parse_data (widget : Widget) (pd : GncCsvParseData)
    (preview : GncCsvPreview) :
  toggled widget (set_parse_data pd preview)
  = set_parse_data pd (toggled widget preview).
Proof. by destruct widget. Qed.

Lemma separators_set_set_parse_data (pd : GncCsvParseData)
    (preview : GncCsvPreview) :
  separators_set (set_parse_data pd preview)
  = set_options
      (stf_parse_options_csv_set_separators (options pd) None
         (checked_separators preview)) pd.
Proof. done. Qed.

Section SeparatorsMore.

Context (M : GncCsvModel).

(** X7. A click on a check button whose separators parse takes effect:
    no error is shown, the button keeps its new state, and both views are
    rebuilt from the new parse data, so that column types edited in the
    view but not yet confirmed with "OK" are lost. *)
Theorem separator_change_parses (fuel : nat) (widget : Widget)
    (preview : GncCsvPreview) (pd : GncCsvParseData) :
  is_check_button preview widget →
  previewing_errors preview = false →
  gnc_csv_parse M (separators_set (toggled widget preview)) false = (pd, None) →
  ∃ preview',
    user_action M (2 + fuel) (U_toggle widget) preview = Some (preview', [])
    ∧ gtk_toggle_button_get_active widget preview'
      = negb (gtk_toggle_button_get_active widget preview)
    ∧ parse_data preview' = set_date_format (date_format_combo preview) pd
    ∧ treeview preview' = all_rows pd
    ∧ ctreeview preview'
      = (λ t, gettext (column_type_strs t)) <$> column_types pd
    ∧ encselector preview' = encoding pd.
Proof.
  intros Hw Hall Hparse. change (2 + fuel) with (S (S fuel)).
  unfold user_action. rewrite click_check_button, dispatch_separator.
  rewrite (sep_button_clicked_ok M fuel widget _ pd (all_rows pd) Hparse).
  2: { unfold data_rows. destruct widget; simpl; by rewrite Hall. }
  eexists. split; [done|]. split_and!; [|by destruct widget..].
  rewrite <- (toggled_active widget preview Hw). by destruct widget.
Qed.

(** X8. A click on a check button never settles when the file parses
    neither with the separators before the click nor with those after it:
    each failed parse toggles the button, which parses again. [stuck] is
    what the parse data keeps through the failed parses. *)
Theorem failed_toggle_never_settles (stuck : GncCsvParseData → Prop)
    (widget : Widget) (preview : GncCsvPreview) :
  is_check_button preview widget →
  stuck (parse_data preview) →
  (∀ pd seps,
     stuck pd →
     seps = checked_separators preview
     ∨ seps = checked_separators (toggled widget preview) →
     ∃ pd' e,
       gnc_csv_parse M
         (set_options
            (stf_parse_options_csv_set_separators (options pd) None seps) pd)
         false
       = (pd', Some e)
       ∧ stuck pd') →
  ∀ fuel, user_action M fuel (U_toggle widget) preview = None.
Proof.
  intros Hw Hstuck Hfails.
  assert (∀ fuel pd, stuck pd →
            dispatch M fuel (Sig_separator widget)
              (set_parse_data pd (toggled widget preview)) = None
            ∧ dispatch M fuel (Sig_separator widget)
                (set_parse_data pd preview) = None) as Hloop.
  { induction fuel as [|fuel IH]; intros pd Hpd; [done|].
    rewrite !dispatch_separator. unfold sep_button_clicked.
    rewrite !separators_set_set_parse_data.
    destruct (Hfails pd (checked_separators (toggled widget preview)) Hpd)
      as (pd1 & e1 & -> & Hpd1); [by right|].
    destruct (Hfails pd (checked_separators preview) Hpd)
      as (pd2 & e2 & -> & Hpd2); [by left|].
    rewrite !decide_False by (by destruct widget).
    rewrite !click_check_button.
    assert (set_parse_data pd1 (set_parse_data pd (toggled widget preview))
            = set_parse_data pd1 (toggled widget preview)) as -> by done.
    assert (set_parse_data pd2 (set_parse_data pd preview)
            = set_parse_data pd2 preview) as -> by done.
    rewrite (toggled_back widget pd1 preview Hw).
    rewrite (toggled_set_parse_data widget pd2 preview).
    destruct (IH pd1 Hpd1) as [_ ->]. destruct (IH pd2 Hpd2) as [-> _]. done. }
  intros fuel. unfold user_action. rewrite click_check_button.
  destruct (Hloop fuel (parse_data preview) Hstuck) as [H _].
  rewrite <- H. f_equal. by destruct preview, widget.
Qed.


End SeparatorsMore.

(** *** The column types the user confirms *)

Lemma type_of_contents_column_type_strs (t : GncCsvColumnType) :
  type_of_contents (gettext (column_type_strs t)) = Some t.
Proof. by destruct t. Qed.

Lemma type_of_contents_Some (s : string) (t : GncCsvColumnType) :
  type_of_contents s = Some t → s = gettext (column_type_strs t).
Proof.
  unfold type_of_contents. intros H. apply find_some in H as [_ H].
  apply Z.eqb_eq in H. by apply strcmp_0_iff in H.
Qed.

(** The type [ok_button_clicked] stores for a column that holds [t0] and
    shows [contents]. *)
Lemma ok_button_loop_spec (store : list string) (cols i : nat)
    (types : list GncCsvColumnType) :
  i + cols ≤ length store →
  ∃ types',
    ok_button_loop store cols i types = Some types'
    ∧ length types' = length types
    ∧ ∀ j, types' !! j
           = if decide (i ≤ j < i + cols)
             then (λ t0, default t0 (store !! j ≫= type_of_contents))
                    <$> types !! j
             else types !! j.
Proof.
  revert i types. induction cols as [|cols IH]; intros i types Hlen; simpl.
  { exists types. split_and!; [done..|]. intros j. rewrite decide_False; [done|lia]. }
  destruct (store !! i) as [contents|] eqn:Hi; simpl.
  2: { apply lookup_ge_None in Hi. lia. }
  set (types1 := match type_of_contents contents with
                 | Some type => <[i:=type]> types
                 | None => types
                 end).
  assert (length types1 = length types) as Hlen1.
  { subst types1. destruct (type_of_contents contents); [|done].
    by rewrite length_insert. }
  assert (∀ j, types1 !! j
               = if decide (j = i)
                 then (λ t0, default t0 (type_of_contents contents))
                        <$> types !! j
                 else types !! j) as Hspec1.
  { intros j. subst types1. destruct (type_of_contents contents) as [type|].
    - destruct (decide (j = i)) as [->|Hne].
      + destruct (types !! i) as [t0|] eqn:Ht0; simpl.
        * rewrite list_lookup_insert_eq; [done|]. by eapply lookup_lt_Some.
        * apply lookup_ge_None in Ht0. apply lookup_ge_None.
          by rewrite length_insert.
      + by rewrite list_lookup_insert_ne.
    - case_decide; [|done]. by destruct (types !! j). }
  destruct (IH (S i) types1) as (types' & Hrun & Hlen' & Hspec); [lia|].
  exists types'. split_and!; [done|congruence|].
  intros j. rewrite Hspec, Hspec1. destruct (decide (j = i)) as [->|Hne].
  - rewrite decide_False by lia. rewrite decide_True by lia. by rewrite Hi.
  - destruct (decide (S i ≤ j < S i + cols)), (decide (i ≤ j < i + S cols));
      try done; lia.
Qed.

Lemma ok_button_clicked_types (preview : GncCsvPreview) :
  length (column_types (parse_data preview)) ≤ length (ctreeview preview) →
  ∃ types,
    ok_button_clicked preview
    = Some (set_approved true
              (gtk_widget_hide
                 (set_parse_data
                    (set_column_types types (parse_data preview)) preview)),
            [])
    ∧ length types = length (column_types (parse_data preview))
    ∧ ∀ j, types !! j
           = (λ t0, default t0 (ctreeview preview !! j ≫= type_of_contents))
               <$> column_types (parse_data preview) !! j.
Proof.
  intros Hlen. unfold ok_button_clicked.
  destruct (ok_button_loop_spec (ctreeview preview)
              (length (column_types (parse_data preview))) 0
              (column_types (parse_data preview)))
    as (types & -> & Hlen' & Hspec); [lia|].
  exists types. split_and!; [done..|]. intros j. rewrite Hspec.
  case_decide as Hj; [done|].
  rewrite (lookup_ge_None_2 (column_types (parse_data preview)) j); [done|lia].
Qed.

(** X10. "OK" reads the column types back from the strings of the column
    type view: the click returns without any event, the dialog is hidden,
    the import is approved, a column that shows the string of a column type
    gets that type, a column that shows any other string keeps the type it
    had, and nothing else of the parse data changes. *)
Theorem ok_button_reads_view (preview : GncCsvPreview) :
  length (column_types (parse_data preview)) ≤ length (ctreeview preview) →
  ∃ preview',
    ok_button_clicked preview = Some (preview', [])
    ∧ dialog preview' = false
    ∧ approved preview' = true
    ∧ length (column_types (parse_data preview'))
      = length (column_types (parse_data preview))
    ∧ (∀ j t, j < length (column_types (parse_data preview)) →
              ctreeview preview !! j = Some (gettext (column_type_strs t)) →
              column_types (parse_data preview') !! j = Some t)
    ∧ (∀ j s t0, ctreeview preview !! j = Some s →
                 (∀ t, s ≠ gettext (column_type_strs t)) →
                 column_types (parse_data preview) !! j = Some t0 →
                 column_types (parse_data preview') !! j = Some t0)
    ∧ set_column_types (column_types (parse_data preview))
        (parse_data preview')
      = parse_data preview.
Proof.
  intros Hlen.
  destruct (ok_button_clicked_types preview Hlen) as (types & -> & Hlen' & Hspec).
  eexists. split; [done|]. simpl. split_and!; [done..| | |by destruct preview as [[]]].
  - intros j t Hj Hs. rewrite Hspec, Hs. simpl.
    rewrite type_of_contents_column_type_strs.
    by destruct (lookup_lt_is_Some_2 _ _ Hj) as [t0 ->].
  - intros j s t0 Hs Hnone Ht0. rewrite Hspec, Hs, Ht0. simpl.
    destruct (type_of_contents s) as [t|] eqn:Ht; [|done].
    apply type_of_contents_Some in Ht. by destruct (Hnone t).
Qed.

Lemma column_type_strs_inj (t1 t2 : GncCsvColumnType) :
  gettext (column_type_strs t1) = gettext (column_type_strs t2) → t1 = t2.
Proof. by destruct t1, t2. Qed.

(** X11. When the column type view shows a column type in every column and
    no type other than "None" in two of them, the column types "OK"
    stores in the parse data have no type other than "None" twice. *)
Theorem ok_button_no_shared_type (preview : GncCsvPreview) :
  length (ctreeview preview) = length (column_types (parse_data preview)) →
  Forall (λ s, ∃ t, s = gettext (column_type_strs t)) (ctreeview preview) →
  no_shared_type (ctreeview preview) →
  ∃ preview',
    ok_button_clicked preview = Some (preview', [])
    ∧ ctreeview preview
      = (λ t, gettext (column_type_strs t))
          <$> column_types (parse_data preview')
    ∧ ∀ i j t, i ≠ j →
               column_types (parse_data preview') !! i = Some t →
               column_types (parse_data preview') !! j = Some t →
               t = GNC_CSV_NONE.
Proof.
  intros Hlen Hstrs Hinj.
  destruct (ok_button_clicked_types preview) as (types & -> & Hlen' & Hspec);
    [lia|].
  eexists. split; [done|]. simpl.
  assert (∀ j t, types !! j = Some t →
            ctreeview preview !! j = Some (gettext (column_type_strs t)))
    as Hshown.
  { intros j t Hj.
    assert (j < length (ctreeview preview)) as Hlt.
    { rewrite Hlen, <- Hlen'. by eapply lookup_lt_Some. }
    destruct (lookup_lt_is_Some_2 _ _ Hlt) as [s Hs].
    rewrite Forall_lookup in Hstrs. destruct (Hstrs j s Hs) as [t' ->].
    rewrite Hspec, Hs in Hj. simpl in Hj.
    rewrite type_of_contents_column_type_strs in Hj.
    destruct (column_types (parse_data preview) !! j); simpl in Hj; [|done].
    injection Hj as <-. done. }
  split.
  - apply list_eq. intros j. rewrite list_lookup_fmap.
    destruct (types !! j) as [t|] eqn:Hj; simpl.
    + by apply Hshown.
    + apply lookup_ge_None in Hj. apply lookup_ge_None. lia.
  - intros i j t Hij Hi Hj.
    apply (column_type_strs_inj t GNC_CSV_NONE).
    apply (Hinj i j _ Hij); by apply Hshown.
Qed.

(** *** Edits of the column type view *)

Lemma edited_cell_idemp (renderer : nat) (new_text : string) (j : nat)
    (contents : string) :
  edited_cell renderer new_text j (edited_cell renderer new_text j contents)
  = edited_cell renderer new_text j contents.
Proof. unfold edited_cell. repeat case_decide; congruence. Qed.

(** X12. An edit of a column type changes the column type view only: the
    parse data and the other widgets are as before, until "OK" is
    clicked. Making the same edit again changes nothing more. *)
Theorem column_type_edited_again (renderer : nat) (new_text : string)
    (preview : GncCsvPreview) :
  length (ctreeview preview) = length (column_types (parse_data preview)) →
  ∃ preview',
    column_type_edited renderer new_text preview = Some (preview', [])
    ∧ preview' = set_ctreeview (ctreeview preview') preview
    ∧ column_type_edited renderer new_text preview' = Some (preview', []).
Proof.
  intros Hsync.
  destruct (column_type_edited_cells renderer new_text preview Hsync)
    as (store1 & -> & Hlen1 & Hspec1).
  eexists. split; [done|]. split; [done|].
  destruct (column_type_edited_cells renderer new_text
              (set_ctreeview store1 preview)) as (store2 & -> & Hlen2 & Hspec2).
  { simpl. congruence. }
  simpl in *. do 2 f_equal.
  assert (store2 = store1) as ->; [|done].
  apply list_eq. intros j. rewrite Hspec2, Hspec1.
  destruct (ctreeview preview !! j); simpl; [|done].
  by rewrite edited_cell_idemp.
Qed.

(** *** The lines shown *)

(** X13. While only the lines with errors are shown, a refresh returns
    exactly when every line number in the list of errors is the number of
    a line of the file. The data view then has one row for each entry of
    the list, in the order of the list, and a row holds the cells of its
    line, up to the number of columns. *)
Theorem error_lines_shown (M : GncCsvModel) (fuel : nat)
    (preview : GncCsvPreview) (notEmpty : bool) :
  previewing_errors preview = true →
  let pd := parse_data preview in
  (is_Some (gnc_csv_preview_treeview (dispatch M (S fuel)) preview notEmpty) ↔
   Forall (λ i, i < length (orig_lines pd)) (error_lines pd))
  ∧ ∀ preview' t,
      gnc_csv_preview_treeview (dispatch M (S fuel)) preview notEmpty
      = Some (preview', t) →
      length (treeview preview') = length (error_lines pd)
      ∧ ∀ k i, error_lines pd !! k = Some i →
               treeview preview' !! k
               = take (length (column_types pd)) <$> orig_lines pd !! i.
Proof.
  intros Herrors pd. subst pd.
  assert (data_rows preview = error_rows (parse_data preview)) as Hrows.
  { unfold data_rows. by rewrite Herrors. }
  split.
  - split.
    + intros [[preview' t] Hrun]. unfold gnc_csv_preview_treeview in Hrun.
      rewrite Hrows in Hrun.
      destruct (error_rows (parse_data preview)) as [store|] eqn:Hstore;
        [|done].
      assert (is_Some (error_rows (parse_data preview))) as Hsome
        by (by rewrite Hstore).
      unfold error_rows in Hsome. apply mapM_is_Some in Hsome.
      eapply Forall_impl; [exact Hsome|]. intros i [row Hrow]. simpl in Hrow.
      apply fmap_Some in Hrow as (line & Hline & _).
      by eapply lookup_lt_Some.
    + intros Hall.
      assert (is_Some (error_rows (parse_data preview))) as [store Hstore].
      { unfold error_rows. apply mapM_is_Some.
        eapply Forall_impl; [exact Hall|]. intros i Hi. simpl.
        destruct (lookup_lt_is_Some_2 _ _ Hi) as [line ->]. by eexists. }
      rewrite (gnc_csv_preview_treeview_run M fuel preview notEmpty store);
        [by eexists|]. by rewrite Hrows.
  - intros preview' t Hrun.
    destruct (error_rows (parse_data preview)) as [store|] eqn:Hstore.
    2: { unfold gnc_csv_preview_treeview in Hrun. by rewrite Hrows in Hrun. }
    rewrite (gnc_csv_preview_treeview_run M fuel preview notEmpty store)
      in Hrun by (by rewrite Hrows).
    injection Hrun as <- _. simpl.
    unfold error_rows in Hstore. apply mapM_Some in Hstore. split.
    + symmetry. by eapply Forall2_length.
    + intros k i Hk.
      destruct (Forall2_lookup_l _ _ _ _ _ Hstore Hk) as (row & -> & Hrow).
      symmetry. exact Hrow.
Qed.

(** *** The widths of the columns *)

Lemma treeview_resized_loop_spec (todo i : nat) (w : ColumnWidths) :
  i + todo ≤ length (col_width w) →
  i + todo ≤ length (min_width w) →
  i + todo ≤ length (max_width w) →
  let w' := treeview_resized_loop todo i w in
  col_width w' = col_width w
  ∧ length (min_width w') = length (min_width w)
  ∧ length (max_width w') = length (max_width w)
  ∧ ∀ j, (i ≤ j < i + todo →
          min_width w' !! j = col_width w !! j
          ∧ max_width w' !! j = col_width w !! j)
         ∧ (¬ i ≤ j < i + todo →
            min_width w' !! j = min_width w !! j
            ∧ max_width w' !! j = max_width w !! j).
Proof.
  revert i w. induction todo as [|todo IH]; intros i w Hc Hmin Hmax; simpl.
  { split_and!; [done..|]. intros j. split; [lia|done]. }
  destruct (lookup_lt_is_Some_2 (col_width w) i) as [width Hwidth]; [lia|].
  unfold gtk_tree_view_column_get_width. rewrite Hwidth. simpl.
  set (w1 := gtk_tree_view_column_set_max_width i width
               (gtk_tree_view_column_set_min_width i width w)).
  destruct (IH (S i) w1) as (Hcol & Hlmin & Hlmax & Hspec);
    [simpl; rewrite ?length_insert; lia..|].
  simpl in Hcol, Hlmin, Hlmax. rewrite length_insert in Hlmin, Hlmax.
  split_and!; [done..|]. intros j. destruct (Hspec j) as [Hin Hout]. split.
  - intros Hj. destruct (decide (j = i)) as [->|Hne].
    + destruct Hout as [-> ->]; [lia|]. simpl.
      rewrite !list_lookup_insert_eq by lia. by rewrite Hwidth.
    + apply Hin. lia.
  - intros Hj. destruct Hout as [-> ->]; [lia|]. simpl.
    rewrite !list_lookup_insert_ne by lia. done.
Qed.

(** X14. When the data view is resized, every column of the column type
    view but the last gets the width of the data column above it, as its
    least and as its greatest width; the last column is left as it is, and
    so is everything when there is no column. *)
Theorem treeview_resized_widths (preview : GncCsvPreview) (w : ColumnWidths) :
  let ncols := length (column_types (parse_data preview)) in
  ncols ≤ length (col_width w) →
  ncols ≤ length (min_width w) →
  ncols ≤ length (max_width w) →
  let w' := treeview_resized preview w in
  col_width w' = col_width w
  ∧ (∀ j, j + 1 < ncols →
          min_width w' !! j = col_width w !! j
          ∧ max_width w' !! j = col_width w !! j)
  ∧ (∀ j, ncols ≤ j + 1 →
          min_width w' !! j = min_width w !! j
          ∧ max_width w' !! j = max_width w !! j).
Proof.
  intros ncols Hc Hmin Hmax w'. subst w'. unfold treeview_resized.
  fold ncols.
  assert (Z.to_nat (Z.of_nat ncols - 1) = ncols - 1) as -> by lia.
  destruct (treeview_resized_loop_spec (ncols - 1) 0 w)
    as (Hcol & _ & _ & Hspec); [lia..|].
  split_and!; [done|..]; intros j Hj; apply (Hspec j); lia.
Qed.

(** *** What closes the dialog *)

Section DialogFrame.

Context (M : GncCsvModel).

Section DialogHandlers.

Variable deliver : Signal → GncCsvPreview → Run GncCsvPreview.
Hypothesis deliver_keeps : keeps_dialog deliver.

Lemma dialog_set_active widget is_active preview preview' t :
  gtk_toggle_button_set_active deliver widget is_active preview
  = Some (preview', t) →
  dialog preview' = dialog preview.
Proof.
  unfold gtk_toggle_button_set_active. case_bool_decide as Hb.
  - by intros [= <- _].
  - intros H. apply deliver_keeps in H; [|done..]. by destruct widget.
Qed.

Lemma dialog_set_text text preview preview' t :
  gtk_entry_set_text deliver text preview = Some (preview', t) →
  dialog preview' = dialog preview.
Proof.
  unfold gtk_entry_set_text. case_bool_decide as Hb.
  - by intros [= <- _].
  - intros H. by apply deliver_keeps in H.
Qed.

Lemma dialog_set_encoding enc preview preview' t :
  go_charmap_sel_set_encoding deliver enc preview = Some (preview', t) →
  dialog preview' = dialog preview.
Proof.
  unfold go_charmap_sel_set_encoding. intros H.
  apply run_bind_Some in H as (p1 & t1 & t2 & H1 & H2 & _).
  apply deliver_keeps in H1; [|done..]. apply deliver_keeps in H2; [|done..].
  etrans; [exact H2|exact H1].
Qed.

Lemma dialog_treeview preview notEmpty preview' t :
  gnc_csv_preview_treeview deliver preview notEmpty = Some (preview', t) →
  dialog preview' = dialog preview.
Proof.
  unfold gnc_csv_preview_treeview. destruct (data_rows preview); [|done].
  intros H. apply run_bind_Some in H as (p1 & t1 & t2 & H1 & H2 & _).
  apply dialog_set_encoding in H1. injection H2 as <- _.
  etrans; [|exact H1]. done.
Qed.

Lemma dialog_handler s preview preview' t :
  s ≠ Sig_ok_clicked → s ≠ Sig_cancel_clicked →
  handler M deliver s preview = Some (preview', t) →
  dialog preview' = dialog preview.
Proof.
  intros Hok Hcancel.
  destruct s as [widget|enc| |renderer new_text| |]; simpl; [..|done|done].
  - unfold sep_button_clicked.
    destruct (gnc_csv_parse M _ false) as [pd [e|]].
    + intros H. apply run_bind_Some in H as (_ & t1 & t2 & _ & H & _).
      case_decide; [by apply dialog_set_text in H
                   |by apply dialog_set_active in H].
    + intros H. by apply dialog_treeview in H.
  - unfold encoding_selected. case_bool_decide as Hb; [by intros [= <- _]|].
    destruct (encoding_selected_called preview); [|by intros [= <- _]].
    destruct (convert_and_parse M _ enc) as [pd [|]].
    + intros H. apply run_bind_Some in H as (_ & t1 & t2 & _ & H & _).
      by apply dialog_set_encoding in H.
    + intros H. apply run_bind_Some in H as (p1 & t1 & t2 & H1 & H2 & _).
      apply dialog_treeview in H1. injection H2 as <- _.
      etrans; [|exact H1]. done.
  - by intros [= <- _].
  - unfold column_type_edited.
    destruct (column_type_edited_loop _ _ _ _ _); [|done]. by intros [= <- _].
Qed.

End DialogHandlers.

Lemma dialog_dispatch (fuel : nat) : keeps_dialog (dispatch M fuel).
Proof.
  induction fuel as [|fuel IH]; intros s preview preview' t Hok Hcancel;
    [done|].
  by apply dialog_handler.
Qed.

Lemma dialog_user_action fuel a preview preview' t :
  a ≠ U_ok → a ≠ U_cancel →
  user_action M fuel a preview = Some (preview', t) →
  dialog preview' = dialog preview.
Proof.
  pose proof (dialog_dispatch fuel) as Hk. intros Hok Hcancel.
  destruct a; simpl; [..|done|done].
  - by apply dialog_set_active.
  - by apply dialog_set_text.
  - by apply dialog_set_encoding.
  - case_bool_decide as Hb; [by intros [= <- _]|].
    intros H. by apply Hk in H.
  - intros H. by apply Hk in H.
Qed.

Lemma ok_closes fuel preview preview' t :
  user_action M fuel U_ok preview = Some (preview', t) →
  dialog preview' = false ∧ approved preview' = true.
Proof.
  destruct fuel; [done|]. simpl. unfold ok_button_clicked.
  destruct (ok_button_loop _ _ _ _); [|done]. by intros [= <- _].
Qed.

(** The dialog is closed by the first click on "OK" or on "Cancel". *)
Lemma dialog_loop_closing fuel session preview preview' t :
  dialog preview = true →
  dialog_loop M fuel session preview = Some (preview', t) →
  ∃ before a rest,
    session = before ++ a :: rest
    ∧ (U_ok ∉ before) ∧ (U_cancel ∉ before)
    ∧ (a = U_ok ∧ approved preview' = true
       ∨ a = U_cancel ∧ approved preview' = approved preview)
    ∧ dialog preview' = false.
Proof.
  revert preview t.
  induction session as [|a session IH]; intros preview t Hshown Hrun; [done|].
  simpl in Hrun. apply run_bind_Some in Hrun as (p1 & t1 & t2 & H1 & H2 & _).
  destruct (decide (a = U_ok)) as [->|Hok].
  { apply ok_closes in H1 as [Hd Ha]. rewrite Hd in H2. injection H2 as <- _.
    exists [], U_ok, session. split_and!; [done|by apply not_elem_of_nil..| |done].
    by left. }
  destruct (decide (a = U_cancel)) as [->|Hcancel].
  { pose proof (cancel_closes M _ _ _ _ H1) as Hd.
    apply (approved_user_action M fuel U_cancel) in H1; [|done].
    rewrite Hd in H2. injection H2 as <- _.
    exists [], U_cancel, session.
    split_and!; [done|by apply not_elem_of_nil..| |done]. by right. }
  pose proof (dialog_user_action _ _ _ _ _ Hok Hcancel H1) as Hd.
  apply approved_user_action in H1; [|done].
  rewrite Hd, Hshown in H2.
  destruct (IH p1 t2) as (before & b & rest & -> & Hb1 & Hb2 & Hb & Hclosed);
    [congruence|done|].
  exists (a :: before), b, rest. split_and!; [done| | | |done].
  - apply not_elem_of_cons. by split.
  - apply not_elem_of_cons. by split.
  - rewrite <- H1. done.
Qed.

(** X15. When the preview returns, the dialog has been closed by the
    first click on "OK" or on "Cancel" of the user: nothing else the user
    does closes it. The result is 0 when that click was on "OK", and 1
    when it was on "Cancel". *)
Theorem preview_closed_by_click (fuel : nat) (session : list UserAction)
    (preview : GncCsvPreview) (parse_data : GncCsvParseData)
    (result : GncCsvPreview * Z) (t : list Event) :
  gnc_csv_preview M fuel session preview parse_data = Some (result, t) →
  ∃ before a rest,
    session = before ++ a :: rest
    ∧ (U_ok ∉ before) ∧ (U_cancel ∉ before)
    ∧ (a = U_ok ∧ result.2 = 0%Z ∧ approved result.1 = true
       ∨ a = U_cancel ∧ result.2 = 1%Z ∧ approved result.1 = false)
    ∧ dialog result.1 = false.
Proof.
  intros H. unfold gnc_csv_preview in H.
  apply run_bind_Some in H as (p1 & t1 & t2 & H1 & H2 & _).
  apply run_bind_Some in H2 as (p2 & t3 & t4 & H2 & H3 & _).
  apply approved_treeview in H1; [|apply approved_dispatch].
  unfold gtk_dialog_run in H2.
  apply run_bind_Some in H2 as (_ & t5 & t6 & _ & H2 & _).
  apply dialog_loop_closing in H2
    as (before & a & rest & -> & Hb1 & Hb2 & Ha & Hclosed); [|done].
  injection H3 as <- _. simpl in *.
  exists before, a, rest. split_and!; [done..| |done].
  destruct Ha as [[-> Ha]|[-> Ha]]; [left|right].
  - by rewrite Ha.
  - rewrite Ha, H1. done.
Qed.

(** X16. When the preview returns, no call of [encoding_selected] is
    pending, whatever the user has done in the dialog: the count of the
    calls caused by the code is back to 0, and the flag that tells the
    first call of a pair from the second is clear. *)
Theorem preview_returns_idle (fuel : nat) (session : list UserAction)
    (preview : GncCsvPreview) (parse_data : GncCsvParseData)
    (result : GncCsvPreview * Z) (t : list Event) :
  encoding_selected_called preview = false →
  gnc_csv_preview M fuel session preview parse_data = Some (result, t) →
  idle result.1.
Proof.
  intros Hflag H. unfold gnc_csv_preview in H.
  apply run_bind_Some in H as (p1 & t1 & t2 & H1 & H2 & _).
  apply run_bind_Some in H2 as (p2 & t3 & t4 & H2 & H3 & _).
  apply idle_after_treeview in H1; [|done].
  unfold gtk_dialog_run in H2.
  apply run_bind_Some in H2 as (_ & t5 & t6 & _ & H2 & _).
  apply idle_dialog_loop in H2; [|done].
  by injection H3 as <- _.
Qed.

End DialogFrame.

(** *** The events of an import *)

Section ImportEvents.

Context (M : GncCsvModel).
Variable fuel : nat.

Lemma error_loop_events (sessions : list (list UserAction)) (account : Account)
    (user_canceled : Z) (preview final : GncCsvPreview) (t : list Event) :
  error_loop M fuel sessions account user_canceled preview = Some (final, t) →
  Forall (λ e, is_dialog_event e ∨ e = Ev_parse_to_trans true) t.
Proof.
  intros H. apply error_loop_cycle in H.
  induction H as [|session sessions preview store shown t1 final t2
                     _ _ Hrun _ IH]; [done|].
  apply Forall_app. split.
  - apply quiet_dialog_run in Hrun.
    eapply Forall_impl; [exact Hrun|]. by left.
  - constructor; [by right|done].
Qed.

(** The events of an import that got past the loading of the file: the
    dialogs, then either the two objects freed, or the transactions built,
    the error-correction cycle and the hand-off. *)
Lemma import_loaded_shape (xml : GladeXML) (user : User)
    (pd : GncCsvParseData) (t : list Event) :
  import_loaded M fuel xml user pd = Some (tt, t) →
  ∃ shown final,
    Forall is_dialog_event shown
    ∧ Ev_dialog_run false ∈ shown
    ∧ (t = shown ++ [Ev_preview_free; Ev_parse_data_free final]
       ∨ ∃ t2,
           Forall (λ e, is_dialog_event e ∨ e = Ev_parse_to_trans true) t2
           ∧ t = shown ++ Ev_parse_to_trans false :: t2 ++ hand_off final).
Proof.
  intros H.
  destruct (gnc_csv_parse M pd true) as [pd' perror] eqn:Hparse.
  destruct (gnc_csv_preview M fuel (preview_session user)
              (gnc_csv_preview_new xml pd') pd') as [[[p1 r] t1]|] eqn:Hprev.
  2: { unfold import_loaded in H. rewrite Hparse in H.
       destruct perror; simpl in H; by rewrite Hprev in H. }
  assert (Forall is_dialog_event
            (option_list (Ev_error_dialog ∘ message <$> perror) ++ t1)) as Hq.
  { apply Forall_app. split; [destruct perror; by repeat constructor|].
    by eapply quiet_preview. }
  assert (Ev_dialog_run false
            ∈ option_list (Ev_error_dialog ∘ message <$> perror) ++ t1) as Hd.
  { apply elem_of_app. right. by eapply preview_runs_dialog. }
  destruct (decide (r = 0%Z)) as [->|Hr].
  2: { rewrite (import_loaded_cancelled M fuel xml user _ _ _ _ _ _
                  Hparse Hprev Hr) in H.
       injection H as <-. eexists _, _. split_and!; [done..|]. by left. }
  destruct (gnc_import_select_account user) as [account|] eqn:Hacc.
  2: { rewrite (import_loaded_no_account M fuel xml user _ _ _ _ _
                  Hparse Hprev Hacc) in H.
       injection H as <-. eexists _, _. split_and!; [done..|]. by left. }
  destruct (error_loop M fuel (error_sessions user) account 0
              (set_parse_data
                 (gnc_parse_to_trans M (parse_data p1) account false) p1))
    as [[final t2]|] eqn:Hloop.
  2: { unfold import_loaded in H. rewrite Hparse in H.
       destruct perror; simpl in H; rewrite Hprev in H; simpl in H;
         rewrite Hacc in H; simpl in H; by rewrite Hloop in H. }
  rewrite (import_loaded_approved M fuel xml user _ _ _ _ _ _ _ _
             Hparse Hprev Hacc Hloop) in H.
  injection H as <-. eexists _, (parse_data final). split_and!; [done..|].
  right. exists t2. split; [|done]. by eapply error_loop_events.
Qed.

Lemma import_shape (xml : GladeXML) (user : User) (t : list Event) :
  gnc_file_csv_import M fuel xml user = Some (tt, t) →
  match gnc_file_dialog user with
  | None => t = []
  | Some _ =>
      (∃ msg pd, t = [Ev_error_dialog msg; Ev_parse_data_free pd])
      ∨ ∃ shown final,
          Forall is_dialog_event shown
          ∧ Ev_dialog_run false ∈ shown
          ∧ (t = shown ++ [Ev_preview_free; Ev_parse_data_free final]
             ∨ ∃ t2,
                 Forall (λ e, is_dialog_event e ∨ e = Ev_parse_to_trans true) t2
                 ∧ t = shown ++ Ev_parse_to_trans false :: t2 ++ hand_off final)
  end.
Proof.
  unfold gnc_file_csv_import.
  destruct (gnc_file_dialog user) as [filename|]; [|by intros [= <-]].
  destruct (gnc_csv_load_file M _ filename) as [pd [e|]].
  - case_decide as Hcode.
    + intros [= <-]. left. by eexists _, _.
    + intros H. apply run_bind_Some in H as ([] & t1 & t2 & H1 & H2 & ->).
      injection H1 as <-.
      apply import_loaded_shape in H2 as (shown & final & Hq & Hd & Ht).
      right. exists (Ev_error_dialog (message e) :: shown), final.
      split_and!.
      * by constructor.
      * by apply elem_of_cons; right.
      * destruct Ht as [->|(t3 & Ht3 & ->)]; [by left|right]. by exists t3.
  - intros H. right. by apply (import_loaded_shape xml user pd).
Qed.

Lemma dialog_event_not_free (l : list Event) :
  Forall is_dialog_event l → Forall (λ e, ¬ is_free_event e) l.
Proof.
  intros H. eapply Forall_impl; [exact H|]. intros e He Hf.
  destruct e; simpl in *; tauto.
Qed.

Lemma dialog_event_not_importer (l : list Event) :
  Forall is_dialog_event l → filter is_importer_event l = [].
Proof.
  induction 1 as [|e l He _ IH]; [done|].
  rewrite filter_cons_False; [done|]. destruct e; simpl in *; tauto.
Qed.

Lemma cycle_event_not_importer (l : list Event) :
  Forall (λ e, is_dialog_event e ∨ e = Ev_parse_to_trans true) l →
  filter is_importer_event l = [].
Proof.
  induction 1 as [|e l He _ IH]; [done|].
  rewrite filter_cons_False; [done|].
  destruct He as [He| ->]; [destruct e; simpl in *; tauto|simpl; tauto].
Qed.

Lemma filter_add_trans (transactions : list GncCsvTransLine) :
  filter is_importer_event
    ((λ line, Ev_gen_trans_list_add_trans (trans line)) <$> transactions)
  = (λ line, Ev_gen_trans_list_add_trans (trans line)) <$> transactions.
Proof.
  induction transactions as [|line transactions IH]; [done|].
  rewrite fmap_cons, filter_cons_True by (simpl; tauto). by rewrite IH.
Qed.

(** X17. An import that returns frees what it has allocated, once and at
    its very end. With no file selected nothing happens at all. With a file
    selected, the last event frees the parse data; the preview is freed
    just before, exactly when the preview dialog has been run; and nothing
    is freed before that. *)
Theorem import_frees_at_end (xml : GladeXML) (user : User) (t : list Event) :
  gnc_file_csv_import M fuel xml user = Some (tt, t) →
  match gnc_file_dialog user with
  | None => t = []
  | Some _ =>
      ∃ used pd,
        Forall (λ e, ¬ is_free_event e) used
        ∧ (t = used ++ [Ev_parse_data_free pd]
           ∧ (Ev_dialog_run false ∉ used)
           ∨ t = used ++ [Ev_preview_free; Ev_parse_data_free pd]
             ∧ Ev_dialog_run false ∈ used)
  end.
Proof.
  intros H. apply import_shape in H.
  destruct (gnc_file_dialog user) as [filename|]; [|done].
  destruct H as [(msg & pd & ->)|(shown & final & Hq & Hd & Ht)].
  - exists [Ev_error_dialog msg], pd.
    split; [constructor; [simpl; tauto|constructor]|].
    left. split; [done|]. by intros [=]%list_elem_of_singleton.
  - destruct Ht as [->|(t2 & Ht2 & ->)].
    + exists shown, final. split; [by apply dialog_event_not_free|]. by right.
    + exists (shown ++ Ev_parse_to_trans false :: t2
              ++ Ev_gen_trans_list_new
                 :: ((λ line, Ev_gen_trans_list_add_trans (trans line))
                       <$> transactions final)
                 ++ [match transactions final with
                     | [] => Ev_gen_trans_list_delete
                     | _ :: _ => Ev_gen_trans_list_run
                     end]), final.
      split.
      * apply Forall_app. split; [by apply dialog_event_not_free|].
        constructor; [simpl; tauto|]. apply Forall_app. split.
        { eapply Forall_impl; [exact Ht2|].
          intros e [He| ->]; [destruct e; simpl in *; tauto|simpl; tauto]. }
        constructor; [simpl; tauto|]. apply Forall_app. split.
        { apply Forall_fmap, Forall_true. intros line. simpl. tauto. }
        constructor; [destruct (transactions final); simpl; tauto|done].
      * right. split; [|by apply elem_of_app; left].
        unfold hand_off. rewrite <- !app_assoc. simpl.
        do 2 f_equal. rewrite <- !app_assoc. simpl. do 2 f_equal.
        by rewrite <- !app_assoc.
Qed.

(** X18. In an import that returns, the generic transaction importer is
    either not created at all, or created once, given every transaction of
    the parse data that is freed at the end, in their order, and then run
    when there is at least one transaction and deleted when there is
    none. *)
Theorem importer_run_or_deleted (xml : GladeXML) (user : User)
    (t : list Event) :
  gnc_file_csv_import M fuel xml user = Some (tt, t) →
  filter is_importer_event t = []
  ∨ ∃ pd,
      last t = Some (Ev_parse_data_free pd)
      ∧ filter is_importer_event t
        = Ev_gen_trans_list_new
          :: ((λ line, Ev_gen_trans_list_add_trans (trans line))
                <$> transactions pd)
          ++ [match transactions pd with
              | [] => Ev_gen_trans_list_delete
              | _ :: _ => Ev_gen_trans_list_run
              end].
Proof.
  intros H. apply import_shape in H.
  destruct (gnc_file_dialog user) as [filename|]; [|left; by subst].
  destruct H as [(msg & pd & ->)|(shown & final & Hq & Hd & Ht)]; [by left|].
  destruct Ht as [->|(t2 & Ht2 & ->)].
  - left. rewrite filter_app, (dialog_event_not_importer _ Hq). done.
  - right. exists final. split.
    + apply last_Some.
      exists (shown ++ Ev_parse_to_trans false :: t2
              ++ Ev_gen_trans_list_new
                 :: ((λ line, Ev_gen_trans_list_add_trans (trans line))
                       <$> transactions final)
                 ++ [match transactions final with
                     | [] => Ev_gen_trans_list_delete
                     | _ :: _ => Ev_gen_trans_list_run
                     end; Ev_preview_free]).
      unfold hand_off. rewrite <- !app_assoc. simpl.
      do 2 f_equal. rewrite <- !app_assoc. simpl. do 2 f_equal.
      by rewrite <- !app_assoc.
    + rewrite filter_app, (dialog_event_not_importer _ Hq). simpl.
      rewrite filter_cons_False by (simpl; tauto).
      rewrite filter_app, (cycle_event_not_importer _ Ht2). simpl.
      unfold hand_off. rewrite filter_cons_True by (simpl; tauto). f_equal.
      rewrite filter_app, filter_add_trans. f_equal.
      rewrite filter_cons_True
        by (destruct (transactions final); simpl; tauto).
      by rewrite !filter_cons_False by (simpl; tauto).
Qed.

(** X19. The user has approved the preview and then closes the account
    dialog without selecting an account. Then the import returns; before
    it frees the preview and the parse data it has shown dialogs only, so
    no transaction has been built and the generic importer has not been
    created. *)
Theorem account_not_selected (xml : GladeXML) (user : User)
    (filename : string) (pd pd' : GncCsvParseData)
    (error perror : option GError) (preview1 : GncCsvPreview)
    (t1 : list Event) :
  gnc_file_dialog user = Some filename →
  gnc_csv_load_file M (gnc_csv_new_parse_data M) filename = (pd, error) →
  code <$> error ≠ Some GNC_CSV_FILE_OPEN_ERR →
  gnc_csv_parse M pd true = (pd', perror) →
  gnc_csv_preview M fuel (preview_session user) (gnc_csv_preview_new xml pd') pd'
  = Some ((preview1, 0%Z), t1) →
  gnc_import_select_account user = None →
  ∃ shown,
    gnc_file_csv_import M fuel xml user
    = Some (tt, shown ++ [Ev_preview_free;
                          Ev_parse_data_free (parse_data preview1)])
    ∧ Forall is_dialog_event shown.
Proof.
  intros Hfile Hload Hcode Hparse Hpreview Haccount.
  pose proof (import_loaded_no_account M fuel xml user _ _ _ _ _
                Hparse Hpreview Haccount) as Himport.
  pose proof (quiet_preview _ _ _ _ _ _ _ Hpreview) as Hquiet.
  assert (Forall is_dialog_event
            (option_list (Ev_error_dialog ∘ message <$> perror) ++ t1)) as Hq.
  { apply Forall_app. split; [|done]. destruct perror; by repeat constructor. }
  unfold gnc_file_csv_import. rewrite Hfile, Hload.
  destruct error as [e|].
  - rewrite decide_False by (intros He; apply Hcode; simpl; by rewrite He).
    rewrite Himport. simpl. eexists (_ :: _). split; [done|].
    by constructor.
  - rewrite Himport. by eexists.
Qed.

(** X20. The file has been loaded, but its first parse fails. Then the
    import shows the message of the error and goes on to the preview all
    the same: when it returns, its first event is that message, and the
    preview dialog has been run after it on the parse data the failed parse
    left. *)
Theorem parse_error_still_previews (xml : GladeXML) (user : User)
    (filename : string) (pd pd' : GncCsvParseData) (e : GError)
    (t : list Event) :
  gnc_file_dialog user = Some filename →
  gnc_csv_load_file M (gnc_csv_new_parse_data M) filename = (pd, None) →
  gnc_csv_parse M pd true = (pd', Some e) →
  gnc_file_csv_import M fuel xml user = Some (tt, t) →
  ∃ result t1 t2,
    gnc_csv_preview M fuel (preview_session user)
      (gnc_csv_preview_new xml pd') pd'
    = Some (result, t1)
    ∧ Ev_dialog_run false ∈ t1
    ∧ t = Ev_error_dialog (message e) :: t1 ++ t2.
Proof.
  intros Hfile Hload Hparse. unfold gnc_file_csv_import.
  rewrite Hfile, Hload. unfold import_loaded. rewrite Hparse.
  intros H. apply run_bind_Some in H as ([] & t0 & t' & H0 & H & ->).
  injection H0 as <-.
  apply run_bind_Some in H as (result & t1 & t2 & H1 & _ & ->).
  exists result, t1, t2. split_and!; [done| |done].
  by eapply preview_runs_dialog.
Qed.

End ImportEvents.

(** *** The properties above at work *)

Import Examples.

Lemma separator_change_parses_witness :
  ∃ preview',
    user_action toy_model 2 (U_toggle (W_sep_button 4)) bank_preview
    = Some (preview', [])
    ∧ gtk_toggle_button_get_active (W_sep_button 4) preview'
      = negb (gtk_toggle_button_get_active (W_sep_button 4) bank_preview)
    ∧ parse_data preview'
      = set_date_format (date_format_combo bank_preview)
          (toy_parse
             (separators_set (toggled (W_sep_button 4) bank_preview)) false).1
    ∧ treeview preview'
      = all_rows
          (toy_parse
             (separators_set (toggled (W_sep_button 4) bank_preview)) false).1
    ∧ ctreeview preview'
      = (λ t, gettext (column_type_strs t))
          <$> column_types
                (toy_parse
                   (separators_set (toggled (W_sep_button 4) bank_preview))
                   false).1
    ∧ encselector preview'
      = encoding
          (toy_parse
             (separators_set (toggled (W_sep_button 4) bank_preview)) false).1.
Proof.
  apply (separator_change_parses toy_model 0 (W_sep_button 4) bank_preview).
  - vm_compute. lia.
  - by vm_compute.
  - by vm_compute.
Defined.

(** The column types the user had chosen without confirming them are gone
    once the semicolon is checked. *)
Example semicolon_checked :
  ctreeview typed_preview = ["Date"; "None"; "Amount"]
  ∧ (λ r, (sep_buttons r.1, sep_str (options (parse_data r.1)), ctreeview r.1))
      <$> user_action toy_model 2 (U_toggle (W_sep_button 4)) typed_preview
    = Some ([false; false; true; false; true; false], [","; ";"],
            ["None"; "None"; "None"]).
Proof. by vm_compute. Qed.

Lemma failed_toggle_never_settles_witness :
  user_action toy_model 9 (U_toggle (W_sep_button 1)) notes_preview = None.
Proof.
  apply (failed_toggle_never_settles toy_model
           (λ pd, file_str pd = notes_csv) (W_sep_button 1) notes_preview).
  - vm_compute. lia.
  - by vm_compute.
  - intros pd seps Hstuck Hseps. eexists _, _. split; [|shelve].
    unfold toy_model, gnc_csv_parse, toy_parse.
    cbn [sep_str options file_str set_options
         stf_parse_options_csv_set_separators].
    rewrite Hstuck.
    match goal with
    | |- context [bool_decide ?P] =>
        assert (bool_decide P = false) as ->
          by (destruct Hseps as [->| ->]; by vm_compute)
    end.
    done.
    Unshelve. exact Hstuck.
Defined.


Lemma ok_button_reads_view_witness :
  ∃ preview',
    ok_button_clicked typed_preview = Some (preview', [])
    ∧ dialog preview' = false
    ∧ approved preview' = true
    ∧ length (column_types (parse_data preview'))
      = length (column_types (parse_data typed_preview))
    ∧ (∀ j t, j < length (column_types (parse_data typed_preview)) →
              ctreeview typed_preview !! j
              = Some (gettext (column_type_strs t)) →
              column_types (parse_data preview') !! j = Some t)
    ∧ (∀ j s t0, ctreeview typed_preview !! j = Some s →
                 (∀ t, s ≠ gettext (column_type_strs t)) →
                 column_types (parse_data typed_preview) !! j = Some t0 →
                 column_types (parse_data preview') !! j = Some t0)
    ∧ set_column_types (column_types (parse_data typed_preview))
        (parse_data preview')
      = parse_data typed_preview.
Proof.
  apply (ok_button_reads_view typed_preview). vm_compute. lia.
Defined.

Example typed_preview_confirmed :
  column_types (parse_data typed_preview)
  = [GNC_CSV_NONE; GNC_CSV_NONE; GNC_CSV_NONE]
  ∧ (λ r, column_types (parse_data r.1)) <$> ok_button_clicked typed_preview
    = Some [GNC_CSV_DATE; GNC_CSV_NONE; GNC_CSV_AMOUNT].
Proof. by vm_compute. Qed.

Lemma ok_button_no_shared_type_witness :
  ∃ preview',
    ok_button_clicked typed_preview = Some (preview', [])
    ∧ ctreeview typed_preview
      = (λ t, gettext (column_type_strs t))
          <$> column_types (parse_data preview')
    ∧ ∀ i j t, i ≠ j →
               column_types (parse_data preview') !! i = Some t →
               column_types (parse_data preview') !! j = Some t →
               t = GNC_CSV_NONE.
Proof.
  apply (ok_button_no_shared_type typed_preview).
  - by vm_compute.
  - change (ctreeview typed_preview)
      with ((λ t, gettext (column_type_strs t))
              <$> [GNC_CSV_DATE; GNC_CSV_NONE; GNC_CSV_AMOUNT]).
    apply Forall_fmap, Forall_true. intros t. by exists t.
  - change (ctreeview typed_preview) with ["Date"; "None"; "Amount"].
    intros i j s Hij Hi Hj.
    destruct i as [|[|[|i]]], j as [|[|[|j]]]; simplify_eq/=; done.
Defined.

Lemma column_type_edited_again_witness :
  ∃ preview',
    column_type_edited 1 "Date" typed_preview = Some (preview', [])
    ∧ preview' = set_ctreeview (ctreeview preview') typed_preview
    ∧ column_type_edited 1 "Date" preview' = Some (preview', []).
Proof.
  apply (column_type_edited_again 1 "Date" typed_preview). by vm_compute.
Defined.

Example errors_preview_lines :
  error_lines (parse_data errors_preview) = [0; 1; 2; 3]
  ∧ length (orig_lines (parse_data errors_preview)) = 4.
Proof. by vm_compute. Qed.

Lemma error_lines_shown_witness :
  (is_Some (gnc_csv_preview_treeview (dispatch toy_model 1) errors_preview true)
   ↔ Forall (λ i, i < length (orig_lines (parse_data errors_preview)))
       (error_lines (parse_data errors_preview)))
  ∧ ∀ preview' t,
      gnc_csv_preview_treeview (dispatch toy_model 1) errors_preview true
      = Some (preview', t) →
      length (treeview preview')
      = length (error_lines (parse_data errors_preview))
      ∧ ∀ k i, error_lines (parse_data errors_preview) !! k = Some i →
               treeview preview' !! k
               = take (length (column_types (parse_data errors_preview)))
                   <$> orig_lines (parse_data errors_preview) !! i.
Proof.
  apply (error_lines_shown toy_model 0 errors_preview true). by vm_compute.
Defined.

Lemma treeview_resized_widths_witness :
  col_width (treeview_resized bank_preview bank_widths) = col_width bank_widths
  ∧ (∀ j, j + 1 < length (column_types (parse_data bank_preview)) →
          min_width (treeview_resized bank_preview bank_widths) !! j
          = col_width bank_widths !! j
          ∧ max_width (treeview_resized bank_preview bank_widths) !! j
            = col_width bank_widths !! j)
  ∧ (∀ j, length (column_types (parse_data bank_preview)) ≤ j + 1 →
          min_width (treeview_resized bank_preview bank_widths) !! j
          = min_width bank_widths !! j
          ∧ max_width (treeview_resized bank_preview bank_widths) !! j
            = max_width bank_widths !! j).
Proof.
  apply (treeview_resized_widths bank_preview bank_widths);
    vm_compute; lia.
Defined.

Example bank_widths_resized :
  treeview_resized bank_preview bank_widths
  = {| col_width := [120; 80; 60]; min_width := [120; 80; -1];
       max_width := [120; 80; -1] |}%Z.
Proof. by vm_compute. Qed.

Lemma preview_closed_by_click_witness :
  ∃ result t,
    gnc_csv_preview toy_model 5 [U_toggle (W_sep_button 5); U_cancel; U_ok]
      (gnc_csv_preview_new glade bank_data) bank_data
    = Some (result, t)
    ∧ ∃ before a rest,
        [U_toggle (W_sep_button 5); U_cancel; U_ok] = before ++ a :: rest
        ∧ (U_ok ∉ before) ∧ (U_cancel ∉ before)
        ∧ (a = U_ok ∧ result.2 = 0%Z ∧ approved result.1 = true
           ∨ a = U_cancel ∧ result.2 = 1%Z ∧ approved result.1 = false)
        ∧ dialog result.1 = false.
Proof.
  eexists _, _. split; [by vm_compute|].
  apply (preview_closed_by_click toy_model 5
           [U_toggle (W_sep_button 5); U_cancel; U_ok]
           (gnc_csv_preview_new glade bank_data) bank_data _
           [Ev_dialog_run false; Ev_error_dialog "Error in parsing"]).
  by vm_compute.
Defined.

Lemma preview_returns_idle_witness :
  ∃ result t,
    gnc_csv_preview toy_model 5
      [U_select_encoding "ASCII"; U_select_encoding "KOI8-R"; U_ok]
      (gnc_csv_preview_new glade bank_data) bank_data
    = Some (result, t)
    ∧ idle result.1.
Proof.
  eexists _, _. split; [by vm_compute|].
  apply (preview_returns_idle toy_model 5
           [U_select_encoding "ASCII"; U_select_encoding "KOI8-R"; U_ok]
           (gnc_csv_preview_new glade bank_data) bank_data _
           [Ev_dialog_run false; Ev_error_dialog "Invalid encoding selected"]).
  - done.
  - by vm_compute.
Defined.

Lemma import_frees_at_end_witness :
  ∃ t,
    gnc_file_csv_import toy_model 5 glade hasty_user = Some (tt, t)
    ∧ ∃ used pd,
        Forall (λ e, ¬ is_free_event e) used
        ∧ (t = used ++ [Ev_parse_data_free pd]
           ∧ (Ev_dialog_run false ∉ used)
           ∨ t = used ++ [Ev_preview_free; Ev_parse_data_free pd]
             ∧ Ev_dialog_run false ∈ used).
Proof.
  eexists. split; [by vm_compute|].
  apply (import_frees_at_end toy_model 5 glade hasty_user). by vm_compute.
Defined.

Lemma importer_run_or_deleted_witness :
  ∃ t,
    gnc_file_csv_import toy_model 5 glade careful_user = Some (tt, t)
    ∧ (filter is_importer_event t = []
       ∨ ∃ pd,
           last t = Some (Ev_parse_data_free pd)
           ∧ filter is_importer_event t
             = Ev_gen_trans_list_new
               :: ((λ line, Ev_gen_trans_list_add_trans (trans line))
                     <$> transactions pd)
               ++ [match transactions pd with
                   | [] => Ev_gen_trans_list_delete
                   | _ :: _ => Ev_gen_trans_list_run
                   end]).
Proof.
  eexists. split; [by vm_compute|].
  apply (importer_run_or_deleted toy_model 5 glade careful_user).
  by vm_compute.
Defined.

Example careful_user_importer :
  filter is_importer_event
    <$> (snd <$> gnc_file_csv_import toy_model 5 glade careful_user)
  = Some [Ev_gen_trans_list_new;
          Ev_gen_trans_list_add_trans (Trans 0);
          Ev_gen_trans_list_add_trans (Trans 1);
          Ev_gen_trans_list_add_trans (Trans 3);
          Ev_gen_trans_list_add_trans (Trans 2);
          Ev_gen_trans_list_run].
Proof. by vm_compute. Qed.

Lemma account_not_selected_witness :
  ∃ preview1 shown,
    gnc_file_csv_import toy_model 5 glade undecided_user
    = Some (tt, shown ++ [Ev_preview_free;
                          Ev_parse_data_free (parse_data preview1)])
    ∧ Forall is_dialog_event shown
    ∧ date_format (parse_data preview1) = 1%Z.
Proof.
  edestruct (account_not_selected toy_model 5 glade undecided_user "bank.csv")
    as (shown & Himport & Hshown).
  - reflexivity.
  - by vm_compute.
  - done.
  - by vm_compute.
  - by vm_compute.
  - reflexivity.
  - eexists _, shown. split_and!; [exact Himport|exact Hshown|by vm_compute].
Defined.

Lemma parse_error_still_previews_witness :
  ∃ t result t1 t2,
    gnc_file_csv_import toy_model 5 glade notes_user = Some (tt, t)
    ∧ gnc_csv_preview toy_model 5 [U_cancel]
        (gnc_csv_preview_new glade
           (toy_load_file toy_new_parse_data "notes.csv").1)
        (toy_load_file toy_new_parse_data "notes.csv").1
      = Some (result, t1)
    ∧ Ev_dialog_run false ∈ t1
    ∧ t = Ev_error_dialog "Lines have different numbers of fields."
          :: t1 ++ t2.
Proof.
  eexists.
  edestruct (parse_error_still_previews toy_model 5 glade notes_user
               "notes.csv" (toy_load_file toy_new_parse_data "notes.csv").1
               (toy_load_file toy_new_parse_data "notes.csv").1
               (Error GNC_CSV_PARSE_ERR
                  "Lines have different numbers of fields."))
    as (result & t1 & t2 & Hpreview & Hrun & Ht).
  - reflexivity.
  - by vm_compute.
  - by vm_compute.
  - by vm_compute.
  - exists result, t1, t2.
    split_and!; [by vm_compute|exact Hpreview|exact Hrun|exact Ht].
Defined.

Example notes_user_import :
  snd <$> gnc_file_csv_import toy_model 5 glade notes_user
  = Some [Ev_error_dialog "Lines have different numbers of fields.";
          Ev_dialog_run false; Ev_preview_free;
          Ev_parse_data_free (toy_load_file toy_new_parse_data "notes.csv").1].
Proof. by vm_compute. Qed.

End CsvImportMore.
